(** * Floorplan-hotspot overlay controller: a shallow embedding

    The repository holds near-duplicate browser scripts that wire the
    Marzipano panorama viewer to a floorplan overlay.  Two of them are
    embedded here:

    - [Clean]   walkarounds/2025.07.29/index.js, first script ("Clean version");
    - [Aug05]   walkarounds/2025.08.05/index.js (the second script stored in
                the 2025.07.29 file has the same toggle, loader, renderer and
                readiness polling, line for line).

    The browser is an explicit [World]: the parts of the page the scripts
    read, the script's own variables, the pending work of the event loop
    (timers, fetches in flight, animation-frame callbacks, listeners), and a
    time-stamped log of the calls made to the outside (alert, console,
    fetch, DOM queries, the viewer library).  Closures are defunctionalised
    into [Callback], [FetchK] and [Handler].

    JS numbers are modelled by exact rationals plus NaN; rounding of IEEE
    doubles is outside the model.  The Marzipano view is a cell holding its
    parameters: the library's own limiter and autorotation are external. *)

From Stdlib Require Import QArith Lqa List String Ascii Bool Arith Lia DecimalString.
From Stdlib Require Floats.
Import ListNotations.
Open Scope string_scope.
Open Scope list_scope.
Open Scope Q_scope.

(* ------------------------------------------------------------------ *)
(** ** JS values used by the scripts *)

Inductive num : Type :=
| Num (q : Q)
| NaN.

(** [a * b] on JS numbers. *)
Definition num_mul (a b : num) : num :=
  match a, b with
  | Num p, Num q => Num (p * q)
  | _, _ => NaN
  end.

(** A numeric property that may be absent: [None] is [undefined]. *)
Definition to_num (v : option Q) : num :=
  match v with
  | Some q => Num q
  | None => NaN
  end.

(** [v || 0] for a numeric property. *)
Definition or_zero (v : option Q) : num :=
  match v with
  | Some q => if Qeq_bool q 0 then Num 0 else Num q
  | None => Num 0
  end.

(** [a || b] on two numbers that are present. *)
Definition num_or (a b : Q) : Q := if Qeq_bool a 0 then b else a.

(** Truthiness of a string property that may be absent. *)
Definition truthy (s : option string) : bool :=
  match s with
  | Some s' => negb (s' =? "")
  | None => false
  end.

Definition Math_min (a b : Q) : Q := if Qle_bool a b then a else b.
Definition Math_max (a b : Q) : Q := if Qle_bool a b then b else a.

Definition string_of_nat (n : nat) : string :=
  NilEmpty.string_of_uint (Nat.to_uint n).

Definition nl : string := String "010"%char "".

(* ------------------------------------------------------------------ *)
(** ** Data model *)

Record Hotspot : Type := mkHotspot {
  hp_x : option Q;
  hp_y : option Q;
  hp_photo : option string;
  hp_filename : option string
}.

Record View : Type := mkView {
  yaw : Q;
  pitch : Q;
  fov : Q
}.

(** The floorplan image as the scripts observe it: [complete],
    [naturalWidth], [naturalHeight] and the box returned by
    [getBoundingClientRect()]. *)
Record Floorplan : Type := mkFloorplan {
  complete : bool;
  naturalWidth : Q;
  naturalHeight : Q;
  rect_width : Q;
  rect_height : Q
}.

(** Click listeners installed on markers. *)
Inductive Handler : Type :=
| GuardedLoad (p : option string)  (* () => { if (hp.photo) loadScene(hp.photo); } *)
| DirectLoad (p : option string)   (* () => loadScene(dot.photo), inside the IIFE *)
| GlobalLoad (p : option string)   (* () => loadScene(dot.photo), outside the IIFE *)
| NoHandler.

Record Element : Type := mkElement {
  className : string;
  style_left : num;
  style_top : num;
  title : string;
  onclick : Handler
}.

Inductive JsonVal : Type :=
| JArray (hs : list Hotspot)
| JObject
| JNumber (q : Q)
| JString (s : string)
| JBool (b : bool)
| JNull.

Inductive Body : Type :=
| Malformed
| Json (v : JsonVal).

Inductive Response : Type :=
| NetworkError
| Http (ok : bool) (statusText : string) (body : Body).

(** [Array.isArray(v) ? v : []] *)
Definition array_or_empty (v : JsonVal) : list Hotspot :=
  match v with
  | JArray hs => hs
  | _ => []
  end.

(* ------------------------------------------------------------------ *)
(** ** Event loop data *)

Inductive Callback : Type :=
| CbDrawDotsSafely                 (* drawDotsSafely *)
| CbEnsureDots                     (* ensureDots *)
| CbFloorplanAlert                 (* () => alert('Floorplan image failed to load...') *)
| CbToggleFrame                    (* the requestAnimationFrame callback of the toggle *)
| CbRetry (retries : nat).         (* () => drawDotsWhenReady(retries) *)

Inductive FetchK : Type :=
| KLoadHotspots                    (* the promise chain of loadHotspots *)
| KReady (width height : Q).       (* the chain in drawDotsWhenReady, closed over rect *)

Inductive Listener : Type :=
| LWheel
| LToggle
| LResize
| LWindowLoad
| LFpLoad (cb : Callback) (once : bool)
| LFpError (cb : Callback) (once : bool).

Record Timer : Type := mkTimer {
  tid : nat;
  deadline : nat;
  tcb : Callback
}.

Inductive Effect : Type :=
| Alert (msg : string)
| ConsoleLog (msg : string)
| ConsoleWarn (msg : string)
| ConsoleError (msg : string)
| NewViewer
| EnableMethod (m : string)
| PreventDefault
| Fetch (noStore : bool)
| QueryDots
| AppendChild (e : Element)
| SetTimeout (id delay : nat)
| ClearTimeout (id : option nat)
| RequestFrame
| CreateScene (path : option string)
| SwitchTo (duration : nat)
| StartMovement
| Unhandled (err : string)
| Uncaught (err : string).

Record World : Type := mkWorld {
  (* the page *)
  marzipano : bool;                (* typeof Marzipano !== 'undefined' *)
  floorplan : option Floorplan;    (* document.getElementById('floorplan') *)
  now : nat;                       (* milliseconds *)
  display : string;                (* mapPanel.style.display *)
  children : list Element;         (* children of #floorplanContainer *)
  (* script variables *)
  viewer : bool;
  currentView : option View;
  hotspotsData : list Hotspot;
  resizeTimer : option nat;
  (* event loop *)
  listeners : list Listener;
  timers : list Timer;
  nextTimer : nat;
  fetches : list FetchK;
  frames : list Callback;
  (* calls to the outside, newest first *)
  log : list (nat * Effect)
}.

Definition set_floorplan (v : option Floorplan) (w : World) : World :=
  mkWorld (marzipano w) v (now w) (display w) (children w) (viewer w)
    (currentView w) (hotspotsData w) (resizeTimer w) (listeners w) (timers w)
    (nextTimer w) (fetches w) (frames w) (log w).
Definition set_now (v : nat) (w : World) : World :=
  mkWorld (marzipano w) (floorplan w) v (display w) (children w) (viewer w)
    (currentView w) (hotspotsData w) (resizeTimer w) (listeners w) (timers w)
    (nextTimer w) (fetches w) (frames w) (log w).
Definition set_display (v : string) (w : World) : World :=
  mkWorld (marzipano w) (floorplan w) (now w) v (children w) (viewer w)
    (currentView w) (hotspotsData w) (resizeTimer w) (listeners w) (timers w)
    (nextTimer w) (fetches w) (frames w) (log w).
Definition set_children (v : list Element) (w : World) : World :=
  mkWorld (marzipano w) (floorplan w) (now w) (display w) v (viewer w)
    (currentView w) (hotspotsData w) (resizeTimer w) (listeners w) (timers w)
    (nextTimer w) (fetches w) (frames w) (log w).
Definition set_viewer (v : bool) (w : World) : World :=
  mkWorld (marzipano w) (floorplan w) (now w) (display w) (children w) v
    (currentView w) (hotspotsData w) (resizeTimer w) (listeners w) (timers w)
    (nextTimer w) (fetches w) (frames w) (log w).
Definition set_currentView (v : option View) (w : World) : World :=
  mkWorld (marzipano w) (floorplan w) (now w) (display w) (children w) (viewer
    w) v (hotspotsData w) (resizeTimer w) (listeners w) (timers w) (nextTimer
    w) (fetches w) (frames w) (log w).
Definition set_hotspotsData (v : list Hotspot) (w : World) : World :=
  mkWorld (marzipano w) (floorplan w) (now w) (display w) (children w) (viewer
    w) (currentView w) v (resizeTimer w) (listeners w) (timers w) (nextTimer
    w) (fetches w) (frames w) (log w).
Definition set_resizeTimer (v : option nat) (w : World) : World :=
  mkWorld (marzipano w) (floorplan w) (now w) (display w) (children w) (viewer
    w) (currentView w) (hotspotsData w) v (listeners w) (timers w) (nextTimer
    w) (fetches w) (frames w) (log w).
Definition set_listeners (v : list Listener) (w : World) : World :=
  mkWorld (marzipano w) (floorplan w) (now w) (display w) (children w) (viewer
    w) (currentView w) (hotspotsData w) (resizeTimer w) v (timers w)
    (nextTimer w) (fetches w) (frames w) (log w).
Definition set_timers (v : list Timer) (w : World) : World :=
  mkWorld (marzipano w) (floorplan w) (now w) (display w) (children w) (viewer
    w) (currentView w) (hotspotsData w) (resizeTimer w) (listeners w) v
    (nextTimer w) (fetches w) (frames w) (log w).
Definition set_nextTimer (v : nat) (w : World) : World :=
  mkWorld (marzipano w) (floorplan w) (now w) (display w) (children w) (viewer
    w) (currentView w) (hotspotsData w) (resizeTimer w) (listeners w) (timers
    w) v (fetches w) (frames w) (log w).
Definition set_fetches (v : list FetchK) (w : World) : World :=
  mkWorld (marzipano w) (floorplan w) (now w) (display w) (children w) (viewer
    w) (currentView w) (hotspotsData w) (resizeTimer w) (listeners w) (timers
    w) (nextTimer w) v (frames w) (log w).
Definition set_frames (v : list Callback) (w : World) : World :=
  mkWorld (marzipano w) (floorplan w) (now w) (display w) (children w) (viewer
    w) (currentView w) (hotspotsData w) (resizeTimer w) (listeners w) (timers
    w) (nextTimer w) (fetches w) v (log w).
Definition set_log (v : list (nat * Effect)) (w : World) : World :=
  mkWorld (marzipano w) (floorplan w) (now w) (display w) (children w) (viewer
    w) (currentView w) (hotspotsData w) (resizeTimer w) (listeners w) (timers
    w) (nextTimer w) (fetches w) (frames w) v.

Definition Callback_eq_dec (a b : Callback) : {a = b} + {a <> b}.
Proof. decide equality. apply Nat.eq_dec. Defined.

Definition Listener_eq_dec (a b : Listener) : {a = b} + {a <> b}.
Proof. decide equality; first [apply Bool.bool_dec | apply Callback_eq_dec]. Defined.

(* ------------------------------------------------------------------ *)
(** ** Browser primitives *)

Definition emit (e : Effect) (w : World) : World :=
  set_log ((now w, e) :: log w) w.

Definition alert (msg : string) : World -> World := emit (Alert msg).

(** [addEventListener]: registering the same listener twice has no effect. *)
Definition add_listener (l : Listener) (w : World) : World :=
  if in_dec Listener_eq_dec l (listeners w) then w
  else set_listeners (listeners w ++ [l]) w.

Definition setTimeout (cb : Callback) (delay : nat) (w : World) : nat * World :=
  let id := nextTimer w in
  let w := set_timers (timers w ++ [mkTimer id (now w + delay) cb]) w in
  (id, emit (SetTimeout id delay) (set_nextTimer (S id) w)).

Definition drop_timer (id : nat) (w : World) : World :=
  set_timers (filter (fun t => negb (tid t =? id)%nat) (timers w)) w.

Definition clearTimeout (id : option nat) (w : World) : World :=
  let w := emit (ClearTimeout id) w in
  match id with
  | Some i => drop_timer i w
  | None => w
  end.

Definition requestAnimationFrame (cb : Callback) (w : World) : World :=
  emit RequestFrame (set_frames (frames w ++ [cb]) w).

Definition fetch (noStore : bool) (k : FetchK) (w : World) : World :=
  emit (Fetch noStore) (set_fetches (fetches w ++ [k]) w).

Definition is_dot (e : Element) : bool := className e =? "dot".

(** [querySelectorAll('.dot').forEach(dot => dot.remove())].  The clean
    script queries the container, the others the document; markers only
    ever live in the container, whose children are the ones modelled. *)
Definition removeDots (w : World) : World :=
  emit QueryDots (set_children (filter (fun e => negb (is_dot e)) (children w)) w).

Definition appendChild (el : Element) (w : World) : World :=
  emit (AppendChild el) (set_children (children w ++ [el]) w).

(** [array.forEach((item, index) => ...)] over the world. *)
Fixpoint forEach {A : Type} (f : A -> nat -> World -> World)
  (l : list A) (index : nat) (w : World) : World :=
  match l with
  | [] => w
  | a :: l' => forEach f l' (S index) (f a index w)
  end.

(** [hp.filename || `Scene ${index + 1}`] *)
Definition label (hp : Hotspot) (index : nat) : string :=
  match hp_filename hp with
  | Some s => if truthy (Some s) then s else "Scene " ++ string_of_nat (index + 1)
  | None => "Scene " ++ string_of_nat (index + 1)
  end.

Definition count_dots (w : World) : nat := List.length (filter is_dot (children w)).

(* ------------------------------------------------------------------ *)
(** ** Code shared by the scripts *)

Definition msg_no_marzipano : string :=
  "Error: Marzipano library is not loaded." ++ nl ++
  "Check that vendor/marzipano.js exists and is correctly linked in index.html.".

Definition zoomFactor : Q := 0.004.

(** [currentView.setParameters({ fov })] *)
Definition setParameters_fov (f : Q) (v : View) : View :=
  mkView (yaw v) (pitch v) f.

(** The wheel listener on the panorama element. *)
Definition wheel (deltaY : Q) (w : World) : World :=
  match currentView w with
  | None => w
  | Some view =>
      let w := emit PreventDefault w in
      let newFov := fov view + deltaY * zoomFactor in
      let clampedFov := Math_max 0.4 (Math_min newFov 1.5) in
      set_currentView (Some (setParameters_fov clampedFov view)) w
  end.

(** [loadScene(imagePath)] of the 2025.07.29 clean script and of the
    2025.08.05 script. *)
Definition loadScene (imagePath : option string) (w : World) : World :=
  let w := emit (ConsoleLog "Loading scene:") w in
  let view := mkView 0 0 1.2 in
  let w := emit (CreateScene imagePath) w in
  let w := set_currentView (Some view) w in
  let w := emit (SwitchTo 1000) w in
  emit StartMovement w.

(** [new Marzipano.Viewer(panoElement)] and the three [enableMethod] calls. *)
Definition makeViewer (w : World) : World :=
  let w := emit NewViewer (set_viewer true w) in
  let w := emit (EnableMethod "scrollZoom") w in
  let w := emit (EnableMethod "mouseViewDrag") w in
  emit (EnableMethod "touchView") w.

(* ------------------------------------------------------------------ *)
(** ** The event loop, over a script's callbacks *)

Inductive Event : Type :=
| EvWheel (deltaY : Q)
| EvToggleClick
| EvResize
| EvWindowLoad
| EvLayout (fp : Floorplan)        (* the image's completion or layout changes *)
| EvFloorplanLoad
| EvFloorplanError
| EvChildClick (i : nat)
| EvSettle (i : nat) (r : Response) (* the i-th fetch in flight settles *)
| EvFrame
| EvTick.                          (* one millisecond passes *)

Section EventLoop.

Variable run_callback : Callback -> World -> World.
Variable settle_fetch : FetchK -> Response -> World -> World.

(** Run the timers whose ids are listed, skipping those cleared meanwhile. *)
Fixpoint fire (ids : list nat) (w : World) : World :=
  match ids with
  | [] => w
  | i :: rest =>
      match find (fun t => (tid t =? i)%nat) (timers w) with
      | Some t => fire rest (run_callback (tcb t) (drop_timer i w))
      | None => fire rest w
      end
  end.

Definition due (w : World) : list nat :=
  map tid (filter (fun t => (deadline t <=? now w)%nat) (timers w)).

Definition tick (w : World) : World :=
  let w := set_now (S (now w)) w in
  fire (due w) w.

Definition advance (k : nat) (w : World) : World := Nat.iter k tick w.

Definition run_frames (w : World) : World :=
  fold_left (fun w cb => run_callback cb w) (frames w) (set_frames [] w).

Definition fpLoad_callbacks (w : World) : list Callback :=
  flat_map (fun l => match l with LFpLoad cb _ => [cb] | _ => [] end) (listeners w).

Definition fpError_callbacks (w : World) : list Callback :=
  flat_map (fun l => match l with LFpError cb _ => [cb] | _ => [] end) (listeners w).

Definition drop_once_load (w : World) : World :=
  set_listeners
    (filter (fun l => match l with LFpLoad _ true => false | _ => true end)
       (listeners w)) w.

Definition drop_once_error (w : World) : World :=
  set_listeners
    (filter (fun l => match l with LFpError _ true => false | _ => true end)
       (listeners w)) w.

Definition fire_fpLoad (w : World) : World :=
  fold_left (fun w cb => run_callback cb w) (fpLoad_callbacks w) (drop_once_load w).

Definition fire_fpError (w : World) : World :=
  fold_left (fun w cb => run_callback cb w) (fpError_callbacks w) (drop_once_error w).

(** The [i]-th fetch in flight settles with response [r]. *)
Definition settle (i : nat) (r : Response) (w : World) : World :=
  match nth_error (fetches w) i with
  | Some k =>
      settle_fetch k r
        (set_fetches (firstn i (fetches w) ++ skipn (S i) (fetches w)) w)
  | None => w
  end.

End EventLoop.

Definition has_listener (l : Listener) (w : World) : bool :=
  if in_dec Listener_eq_dec l (listeners w) then true else false.

(** The environment changes the image's completion state or layout. *)
Definition relayout (fp : Floorplan) (w : World) : World :=
  match floorplan w with
  | Some _ => set_floorplan (Some fp) w
  | None => w
  end.

(* ------------------------------------------------------------------ *)
(** ** walkarounds/2025.07.29/index.js, the clean script *)

Module Clean.

Definition msg_load_failed : string :=
  "Failed to load hotspots.json." ++ nl ++ "Make sure it exists and is valid JSON.".

Definition msg_floorplan_failed : string :=
  "Floorplan image failed to load. Check img/Kaart.png path.".

(** The element built in the body of [hotspots.forEach]. *)
Definition mkDot (width height : Q) (hp : Hotspot) (index : nat) : Element :=
  {| className := "dot";
     style_left := num_mul (or_zero (hp_x hp)) (Num width);
     style_top := num_mul (or_zero (hp_y hp)) (Num height);
     title := label hp index;
     onclick := GuardedLoad (hp_photo hp) |}.

Definition renderDots (hotspots : list Hotspot) (w : World) : World :=
  match floorplan w with
  | None => emit (ConsoleError "Floorplan image not found.") w
  | Some fp =>
      let width := num_or (rect_width fp) (naturalWidth fp) in
      let height := num_or (rect_height fp) (naturalHeight fp) in
      forEach (fun hp index => appendChild (mkDot width height hp index))
        hotspots 0 w
  end.

Definition drawDotsSafely (w : World) : World :=
  let w := removeDots w in
  renderDots (hotspotsData w) w.

Definition loadHotspots (w : World) : World := fetch true KLoadHotspots w.

(** The [.catch] of [loadHotspots]. *)
Definition catch_load (err : string) (w : World) : World :=
  emit (ConsoleError err) (alert msg_load_failed w).

(** The promise chain of [loadHotspots], run when the fetch settles. *)
Definition settle_fetch (k : FetchK) (r : Response) (w : World) : World :=
  match k with
  | KLoadHotspots =>
      match r with
      | NetworkError => catch_load "NetworkError" w
      | Http ok statusText body =>
          if negb ok then catch_load statusText w
          else
            match body with
            | Malformed => catch_load "SyntaxError" w
            | Json hotspots =>
                drawDotsSafely (set_hotspotsData (array_or_empty hotspots) w)
            end
      end
  | KReady _ _ => w
  end.

(** The click listener of the map toggle. *)
Definition toggle (w : World) : World :=
  let isVisible := display w =? "block" in
  let w := set_display (if isVisible then "none" else "block") w in
  if negb isVisible then
    match hotspotsData w with
    | _ :: _ => drawDotsSafely w
    | [] => loadHotspots w
    end
  else w.

(** The resize listener. *)
Definition resize (w : World) : World :=
  match hotspotsData w with
  | [] => w
  | _ :: _ =>
      let w := clearTimeout (resizeTimer w) w in
      let (id, w) := setTimeout CbDrawDotsSafely 100 w in
      set_resizeTimer (Some id) w
  end.

Definition ensureDots (w : World) : World :=
  match hotspotsData w with
  | [] => loadHotspots w
  | _ :: _ => drawDotsSafely w
  end.

Definition run_callback (cb : Callback) (w : World) : World :=
  match cb with
  | CbDrawDotsSafely => drawDotsSafely w
  | CbEnsureDots => ensureDots w
  | CbFloorplanAlert => alert msg_floorplan_failed w
  | CbToggleFrame => w
  | CbRetry _ => w
  end.

(** The whole script, run once when the page loads it. *)
Definition boot (w : World) : World :=
  if negb (marzipano w) then alert msg_no_marzipano w
  else
    let w := makeViewer w in
    let w := set_currentView None w in
    let w := set_hotspotsData [] w in
    let w := add_listener LWheel w in
    let w := add_listener LToggle w in
    let w := set_resizeTimer None w in
    let w := add_listener LResize w in
    let w := set_display "block" w in
    match floorplan w with
    | None => emit (Uncaught "TypeError") w
    | Some fp =>
        if complete fp && negb (Qeq_bool (naturalWidth fp) 0) then ensureDots w
        else
          let w := add_listener (LFpLoad CbEnsureDots true) w in
          add_listener (LFpError CbFloorplanAlert true) w
    end.

(** The click listener of a marker. *)
Definition click (h : Handler) (w : World) : World :=
  match h with
  | GuardedLoad p => if truthy p then loadScene p w else w
  | _ => w
  end.

Definition childClick (i : nat) (w : World) : World :=
  match nth_error (children w) i with
  | Some el => click (onclick el) w
  | None => w
  end.

Definition tick : World -> World := tick run_callback.
Definition advance : nat -> World -> World := advance run_callback.

Definition step (e : Event) (w : World) : World :=
  match e with
  | EvWheel deltaY => if has_listener LWheel w then wheel deltaY w else w
  | EvToggleClick => if has_listener LToggle w then toggle w else w
  | EvResize => if has_listener LResize w then resize w else w
  | EvWindowLoad => w
  | EvLayout fp => relayout fp w
  | EvFloorplanLoad => fire_fpLoad run_callback w
  | EvFloorplanError => fire_fpError run_callback w
  | EvChildClick i => childClick i w
  | EvSettle i r => settle settle_fetch i r w
  | EvFrame => run_frames run_callback w
  | EvTick => tick w
  end.

Definition run (evs : list Event) (w : World) : World :=
  fold_left (fun w e => step e w) evs w.

End Clean.

(* ------------------------------------------------------------------ *)
(** ** walkarounds/2025.08.05/index.js *)

Module Aug05.

Definition msg_load_failed : string :=
  "Failed to load hotspots.json." ++ nl ++ "Make sure it exists and is valid.".

Definition msg_no_floorplan : string :=
  "Error: Floorplan image (#floorplan) not found in HTML.".

Definition msg_never_rendered : string :=
  "Failed to draw dots: floorplan image never rendered properly.".

(** The element built in the body of [hotspots.forEach]; [h] is the click
    listener of the place where the loop stands. *)
Definition mkDot (h : option string -> Handler) (width height : Q)
  (dot : Hotspot) (index : nat) : Element :=
  {| className := "dot";
     style_left := num_mul (to_num (hp_x dot)) (Num width);
     style_top := num_mul (to_num (hp_y dot)) (Num height);
     title := label dot index;
     onclick := h (hp_photo dot) |}.

(** [initDots(hotspots)]; [None] when it throws a TypeError (no floorplan
    element, or a value without [forEach]). *)
Definition initDots (hotspots : JsonVal) (w : World) : option World :=
  match floorplan w with
  | None => None
  | Some fp =>
      let width := num_or (rect_width fp) (naturalWidth fp) in
      let height := num_or (rect_height fp) (naturalHeight fp) in
      match hotspots with
      | JArray hs =>
          Some (forEach (fun dot index => appendChild (mkDot DirectLoad width height dot index))
                  hs 0 w)
      | _ => None
      end
  end.

Definition loadHotspots (w : World) : World := fetch false KLoadHotspots w.

Definition drawDotsSafely (w : World) : World := loadHotspots (removeDots w).

Definition catch_load (err : string) (w : World) : World :=
  emit (ConsoleError err) (alert msg_load_failed w).

Definition settle_fetch (k : FetchK) (r : Response) (w : World) : World :=
  match k with
  | KLoadHotspots =>
      match r with
      | NetworkError => catch_load "NetworkError" w
      | Http ok statusText body =>
          if negb ok then catch_load statusText w
          else
            match body with
            | Malformed => catch_load "SyntaxError" w
            | Json hotspots =>
                let w := emit (ConsoleLog "Hotspots loaded:") w in
                match initDots hotspots w with
                | Some w' => w'
                | None => catch_load "TypeError" w
                end
            end
      end
  | KReady width height =>
      (* fetch(...).then(res => res.json()).then(hotspots => ...), no catch *)
      match r with
      | NetworkError => emit (Unhandled "NetworkError") w
      | Http _ _ Malformed => emit (Unhandled "SyntaxError") w
      | Http _ _ (Json (JArray hs)) =>
          forEach (fun dot index => appendChild (mkDot GlobalLoad width height dot index))
            hs 0 w
      | Http _ _ (Json _) => emit (Unhandled "TypeError") w
      end
  end.

(** The click listener of the map toggle. *)
Definition toggle (w : World) : World :=
  let isVisible := display w =? "block" in
  let w := set_display (if isVisible then "none" else "block") w in
  if negb isVisible then requestAnimationFrame CbToggleFrame w else w.

(** The animation-frame callback registered by the toggle. *)
Definition toggleFrame (w : World) : World :=
  match floorplan w with
  | None => alert msg_no_floorplan w
  | Some fp =>
      if complete fp then drawDotsSafely w
      else add_listener (LFpLoad CbDrawDotsSafely false) w
  end.

(** [drawDotsWhenReady(retries)] of the window load listener; the retry
    is the timer callback [CbRetry (retries - 1)]. *)
Definition drawDotsWhenReady (retries : nat) (w : World) : World :=
  match floorplan w with
  | None => emit (Uncaught "TypeError") w
  | Some fp =>
      let fullyRendered :=
        complete fp && negb (Qle_bool (rect_width fp) 0)
                    && negb (Qle_bool (rect_height fp) 0) in
      if fullyRendered then
        fetch false (KReady (rect_width fp) (rect_height fp)) (removeDots w)
      else if (0 <? retries)%nat then
        snd (setTimeout (CbRetry (retries - 1)) 100 w)
      else emit (ConsoleWarn msg_never_rendered) w
  end.

(** The window load listener. *)
Definition windowLoad (w : World) : World :=
  drawDotsWhenReady 10 (set_display "block" w).

Definition run_callback (cb : Callback) (w : World) : World :=
  match cb with
  | CbDrawDotsSafely => drawDotsSafely w
  | CbToggleFrame => toggleFrame w
  | CbRetry retries => drawDotsWhenReady retries w
  | CbEnsureDots => w
  | CbFloorplanAlert => w
  end.

(** The immediately invoked function of the script. *)
Definition iife (w : World) : World :=
  if negb (marzipano w) then alert msg_no_marzipano w
  else
    let w := makeViewer w in
    let w := set_currentView None w in
    let w := add_listener LWheel w in
    add_listener LToggle w.

(** The whole script: the IIFE, then the top-level
    [window.addEventListener("load", ...)]. *)
Definition boot (w : World) : World := add_listener LWindowLoad (iife w).

(** The click listener of a marker.  [loadScene] is local to the IIFE:
    the listener created in the window load listener finds no such name. *)
Definition click (h : Handler) (w : World) : World :=
  match h with
  | DirectLoad p => loadScene p w
  | GlobalLoad _ => emit (Uncaught "ReferenceError") w
  | _ => w
  end.

Definition childClick (i : nat) (w : World) : World :=
  match nth_error (children w) i with
  | Some el => click (onclick el) w
  | None => w
  end.

Definition tick : World -> World := tick run_callback.
Definition advance : nat -> World -> World := advance run_callback.

Definition step (e : Event) (w : World) : World :=
  match e with
  | EvWheel deltaY => if has_listener LWheel w then wheel deltaY w else w
  | EvToggleClick => if has_listener LToggle w then toggle w else w
  | EvResize => w
  | EvWindowLoad => if has_listener LWindowLoad w then windowLoad w else w
  | EvLayout fp => relayout fp w
  | EvFloorplanLoad => fire_fpLoad run_callback w
  | EvFloorplanError => fire_fpError run_callback w
  | EvChildClick i => childClick i w
  | EvSettle i r => settle settle_fetch i r w
  | EvFrame => run_frames run_callback w
  | EvTick => tick w
  end.

Definition run (evs : list Event) (w : World) : World :=
  fold_left (fun w e => step e w) evs w.

End Aug05.

(* ------------------------------------------------------------------ *)
(** ** walkarounds/2025.07.29/index.js, the second script

    Its toggle, loader, renderer, window load listener and polling are the
    code of the 2025.08.05 script; it differs in [loadScene], which puts
    bare file names under [photos/], and in exporting [loadScene] to the
    window at the end of the IIFE. *)

Module Jul29b.

(** [/^https?:\/\//.test(s)] *)
Definition is_http (s : string) : bool :=
  prefix "http://" s || prefix "https://" s.

(** The path after
    [if (!/^https?:\/\//.test(p) && !p.startsWith('photos/')) p = 'photos/' + p]. *)
Definition withPhotos (imagePath : string) : string :=
  if negb (is_http imagePath) && negb (prefix "photos/" imagePath)
  then "photos/" ++ imagePath
  else imagePath.

(** [loadScene(imagePath)]; on [undefined] the call of [startsWith] throws
    after the console line. *)
Definition loadScene (imagePath : option string) (w : World) : World :=
  let w := emit (ConsoleLog "Loading scene:") w in
  match imagePath with
  | None => emit (Uncaught "TypeError") w
  | Some p =>
      let view := mkView 0 0 1.2 in
      let w := emit (CreateScene (Some (withPhotos p))) w in
      let w := set_currentView (Some view) w in
      let w := emit (SwitchTo 1000) w in
      emit StartMovement w
  end.

(** The script: the IIFE of the 2025.08.05 script followed, when the guard
    has passed, by [window.loadScene = loadScene]; then the window load
    listener.  The export happens exactly when the viewer was built, so
    [viewer] also stands for the presence of [window.loadScene]. *)
Definition boot (w : World) : World := Aug05.boot w.

(** The click listener of a marker: the listener created inside the IIFE
    calls the local [loadScene], the one created in the window load
    listener looks the name up in the window. *)
Definition click (h : Handler) (w : World) : World :=
  match h with
  | DirectLoad p => loadScene p w
  | GlobalLoad p =>
      if viewer w then loadScene p w else emit (Uncaught "ReferenceError") w
  | _ => w
  end.

Definition childClick (i : nat) (w : World) : World :=
  match nth_error (children w) i with
  | Some el => click (onclick el) w
  | None => w
  end.

Definition step (e : Event) (w : World) : World :=
  match e with
  | EvChildClick i => childClick i w
  | _ => Aug05.step e w
  end.

Definition run (evs : list Event) (w : World) : World :=
  fold_left (fun w e => step e w) evs w.

End Jul29b.

(** A freshly parsed page, before any script has run. *)
Definition page (lib : bool) (fp : option Floorplan) (static : list Element) : World :=
  mkWorld lib fp 0 "" static false None [] None [] [] 1 [] [] [].

(* ------------------------------------------------------------------ *)
(** ** The offsets of the markers at double precision

    The world above keeps numbers as exact rationals.  The products that
    place a marker are products of IEEE-754 doubles in the scripts; here
    the same lines are embedded over binary64 floats: the width and height
    the renderers use, and the (left, top) offsets of the markers they
    append, in hotspot order. *)

Module Ieee.
Import PrimFloat.

(** The coordinates of a hotspot record; [None] is an absent property. *)
Record Hotspot : Type := mkHotspot {
  x : option float;
  y : option float
}.

(** [getBoundingClientRect()] of the floorplan image and its intrinsic size. *)
Record Box : Type := mkBox {
  rect_width : float;
  rect_height : float;
  naturalWidth : float;
  naturalHeight : float
}.

(** A number that is false as a condition: +0, -0 or NaN. *)
Definition falsy (v : float) : bool := (v =? zero)%float || is_nan v.

(** [a || b] on numbers. *)
Definition or (a b : float) : float := if falsy a then b else a.

(** [v || 0] for a property that may be absent. *)
Definition or_zero (v : option float) : float :=
  match v with
  | Some a => or a zero
  | None => zero
  end.

(** A property that may be absent, as a factor: [undefined * w] is NaN. *)
Definition to_num (v : option float) : float :=
  match v with
  | Some a => a
  | None => nan
  end.

(** [rect.width || floorplan.naturalWidth] and the same for the height. *)
Definition width (b : Box) : float := or (rect_width b) (naturalWidth b).
Definition height (b : Box) : float := or (rect_height b) (naturalHeight b).

(** [renderDots] of the clean script: [x = (hp.x || 0) * width],
    [y = (hp.y || 0) * height] for each hotspot, in order. *)
Definition Clean_renderDots (hotspots : list Hotspot) (b : Box) : list (float * float) :=
  map (fun hp => ((or_zero (x hp) * width b)%float, (or_zero (y hp) * height b)%float))
    hotspots.




(** Sample data. *)
Definition half : float := 0.5%float.
Definition tenth : float := 0x1.999999999999ap-4%float.          (* the double of 0.1 *)
Definition three_tenths : float := 0x1.3333333333333p-2%float.   (* the double of 0.3 *)
Definition box_3x100 : Box := mkBox 3 100 3 100.
Definition box_200x100 : Box := mkBox 200 100 400 200.
Definition box_hidden : Box := mkBox 0 0 200 100.

End Ieee.

(* ------------------------------------------------------------------ *)
(** ** Notions used in the statements *)

(** [l.map((a, index) => f(a, index))], indices starting at [k]. *)
Fixpoint mapi_from {A B : Type} (f : A -> nat -> B) (l : list A) (k : nat) : list B :=
  match l with
  | [] => []
  | a :: l' => f a k :: mapi_from f l' (S k)
  end.

(** The marker [el] sits at pixel offset [(a, b)]. *)
Definition at_pixel (el : Element) (a b : Q) : Prop :=
  exists p q, style_left el = Num p /\ style_top el = Num q /\ p == a /\ q == b.

Definition current_fov (w : World) : option Q := option_map fov (currentView w).

(** A sequence of wheel events, oldest first. *)
Definition wheels (deltas : list Q) (w : World) : World :=
  fold_left (fun w d => wheel d w) deltas w.

Definition clamp_fov (f : Q) : Q := Math_max 0.4 (Math_min f 1.5).

Definition is_alert (e : Effect) : bool :=
  match e with Alert _ => true | _ => false end.
Definition is_warn (e : Effect) : bool :=
  match e with ConsoleWarn _ => true | _ => false end.
Definition is_fetch (e : Effect) : bool :=
  match e with Fetch _ => true | _ => false end.
Definition is_query (e : Effect) : bool :=
  match e with QueryDots => true | _ => false end.
Definition is_append (e : Effect) : bool :=
  match e with AppendChild _ => true | _ => false end.
Definition is_new_viewer (e : Effect) : bool :=
  match e with NewViewer => true | _ => false end.
Definition is_unhandled (e : Effect) : bool :=
  match e with Unhandled _ | Uncaught _ => true | _ => false end.
Definition is_timeout (e : Effect) : bool :=
  match e with SetTimeout _ _ => true | _ => false end.

(** How many logged calls satisfy [p]. *)
Definition count (p : Effect -> bool) (w : World) : nat :=
  List.length (filter (fun te => p (snd te)) (log w)).

(** The times at which the markers were redrawn, newest first. *)
Definition render_times (w : World) : list nat :=
  map fst (filter (fun te => is_query (snd te)) (log w)).

(** Sample data for concrete runs. *)
Definition box_200x100 : Floorplan := mkFloorplan true 400 200 200 100.
Definition box_hidden : Floorplan := mkFloorplan true 200 100 0 0.
Definition box_not_ready : Floorplan := mkFloorplan false 0 0 0 0.
Definition hp_center : Hotspot := mkHotspot (Some 0.5) (Some 0.5) (Some "a.jpg") None.
Definition hp_no_photo : Hotspot := mkHotspot (Some 0.25) (Some 0.75) None (Some "hall").
Definition img : Element := mkElement "" NaN NaN "" NoHandler.
Definition ok_with (v : JsonVal) : Response := Http true "OK" (Json v).
Definition not_found : Response := Http false "Not Found" Malformed.

(** What the clean script's renderer appends for the cached dataset. *)
Definition rendered (w : World) : list Element :=
  match floorplan w with
  | Some fp =>
      mapi_from (Clean.mkDot (num_or (rect_width fp) (naturalWidth fp))
                   (num_or (rect_height fp) (naturalHeight fp))) (hotspotsData w) 0
  | None => []
  end.

(** Network error, non-OK status, or a body that is not JSON. *)
Definition failing (r : Response) : bool :=
  match r with
  | NetworkError => true
  | Http ok _ body =>
      negb ok || match body with Malformed => true | Json _ => false end
  end.

Definition is_array (v : JsonVal) : bool :=
  match v with JArray _ => true | _ => false end.

(** The test of [drawDotsWhenReady]:
    [floorplan.complete && rect.width > 0 && rect.height > 0]. *)
Definition fullyRendered (fp : Floorplan) : bool :=
  complete fp && negb (Qle_bool (rect_width fp) 0)
              && negb (Qle_bool (rect_height fp) 0).

(** The log, newest first, of [n] timeouts of 100ms set one every 100ms from
    time [t] on, with timer ids from [id] on. *)
Fixpoint timeouts_log (t id n : nat) : list (nat * Effect) :=
  match n with
  | O => []
  | S n' => timeouts_log (t + 100) (S id) n' ++ [(t, SetTimeout id 100)]
  end.

(** A burst of resize events: one event, then for each gap [d] of [gaps],
    [d] milliseconds and one more event. *)
Definition burst (gaps : list nat) : list Event :=
  EvResize :: flat_map (fun d => repeat EvTick d ++ [EvResize]) gaps.

(** [k] milliseconds without any event. *)
Definition quiet (k : nat) : list Event := repeat EvTick k.

(** The state of the clean script right after a resize event: the listener
    is installed, data is present, and the one pending timer is the redraw
    due in 100ms, remembered in [resizeTimer]. *)
Definition debouncing (w : World) : Prop :=
  has_listener LResize w = true
  /\ hotspotsData w <> []
  /\ exists id, timers w = [mkTimer id (now w + 100) CbDrawDotsSafely]
                /\ resizeTimer w = Some id.

(** The clean script after its start on a ready floorplan and a successful
    load of [hs]: the panel is visible and the dataset is cached. *)
Definition Clean_loaded (hs : list Hotspot) : World :=
  Clean.run [EvSettle 0 (ok_with (JArray hs))]
    (Clean.boot (page true (Some box_200x100) [img])).

(** In the clean script the only timer ever pending is the debounce timer
    remembered in [resizeTimer]. *)
Definition timer_tracked (w : World) : Prop :=
  timers w = []
  \/ exists id dl, timers w = [mkTimer id dl CbDrawDotsSafely]
                   /\ resizeTimer w = Some id.

(** The zoom of the active view, if any, is within the clamp range. *)
Definition view_ok (w : World) : Prop :=
  match currentView w with
  | Some v => 0.4 <= fov v /\ fov v <= 1.5
  | None => True
  end.

(** A logged call that is not a fetch with a cache mode other than [b]. *)
Definition fetch_ok (b : bool) (e : Effect) : bool :=
  match e with
  | Fetch b' => Bool.eqb b' b
  | _ => true
  end.

(** A logged call that neither creates a scene nor suppresses a wheel
    event. *)
Definition scene_free (e : Effect) : bool :=
  match e with
  | CreateScene _ | PreventDefault => false
  | _ => true
  end.

Definition quiet_effect (b : bool) (e : Effect) : bool :=
  fetch_ok b e && scene_free e.

(** Every fetch logged so far used cache mode [noStore]. *)
Definition fetches_are (noStore : bool) (w : World) : Prop :=
  forallb (fun te => fetch_ok noStore (snd te)) (log w) = true.

(** No scene has been created and no wheel event has been suppressed. *)
Definition no_scene_yet (w : World) : Prop :=
  currentView w = None
  /\ forallb (fun te => scene_free (snd te)) (log w) = true.

(** [w'] has the log of [w] with newer calls in front, all satisfying [ok]. *)
Definition grows (ok : Effect -> bool) (w w' : World) : Prop :=
  exists new, log w' = new ++ log w
              /\ forallb (fun te => ok (snd te)) new = true.

(** [w'] has the active view of [w] and only quiet calls more. *)
Definition extends_ok (b : bool) (w w' : World) : Prop :=
  currentView w' = currentView w /\ grows (quiet_effect b) w w'.

(** The response carries a JSON array, whatever its status. *)
Definition has_array_body (r : Response) : bool :=
  match r with
  | Http _ _ (Json (JArray _)) => true
  | _ => false
  end.

(** The events other than marker clicks. *)
Definition not_click (e : Event) : bool :=
  match e with
  | EvChildClick _ => false
  | _ => true
  end.

(** What stays fixed on a page whose script gave up at the library guard:
    nothing is installed or pending, nothing was built, and the log holds
    the one alert. *)
Definition inert (static : list Element) (w : World) : Prop :=
  listeners w = [] /\ timers w = [] /\ fetches w = [] /\ frames w = []
  /\ children w = static /\ viewer w = false /\ currentView w = None
  /\ hotspotsData w = [] /\ display w = ""
  /\ log w = [(0%nat, Alert msg_no_marzipano)].

(** The events other than wheel events and marker clicks. *)
Definition background (e : Event) : bool :=
  match e with
  | EvWheel _ | EvChildClick _ => false
  | _ => true
  end.

(** Static children of the container carry no script listener. *)
Definition plain (static : list Element) : Prop :=
  Forall (fun e => onclick e = NoHandler) static.

(** What [loadScene] logs, newest first, at time [t] for path [p]. *)
Definition scene_log (t : nat) (p : option string) : list (nat * Effect) :=
  [(t, StartMovement); (t, SwitchTo 1000); (t, CreateScene p);
   (t, ConsoleLog "Loading scene:")].

(** The test of the clean script before its first draw:
    [floorplan.complete && floorplan.naturalWidth]. *)
Definition loaded (fp : Floorplan) : bool :=
  complete fp && negb (Qeq_bool (naturalWidth fp) 0).

(** The 2025.08.05 script after its start on a ready floorplan, a show of
    the panel, the animation frame, and a successful load of [hs]. *)
Definition Aug05_loaded (hs : list Hotspot) : World :=
  Aug05.run [EvToggleClick; EvFrame; EvSettle 0 (ok_with (JArray hs))]
    (Aug05.boot (page true (Some box_200x100) [img])).

(** The 2025.08.05 script after its start on a page whose floorplan is
    [fp], if any. *)
Definition Aug05_started (fp : option Floorplan) : World :=
  Aug05.boot (page true fp [img]).

(* ------------------------------------------------------------------ *)
(** ** Basic facts *)

Lemma world_eta (w : World) :
  mkWorld (marzipano w) (floorplan w) (now w) (display w) (children w)
    (viewer w) (currentView w) (hotspotsData w) (resizeTimer w) (listeners w)
    (timers w) (nextTimer w) (fetches w) (frames w) (log w) = w.
Proof. destruct w; reflexivity. Qed.

Lemma mapi_from_length {A B : Type} (f : A -> nat -> B) (l : list A) (k : nat) :
  List.length (mapi_from f l k) = List.length l.
Proof.
  revert k; induction l as [|a l IH]; intro k; simpl; [reflexivity|].
  now rewrite IH.
Qed.

Lemma mapi_from_nth {A B : Type} (f : A -> nat -> B) (l : list A) (k i : nat) (a : A) :
  nth_error l i = Some a ->
  nth_error (mapi_from f l k) i = Some (f a (k + i)%nat).
Proof.
  revert k i; induction l as [|b l IH]; intros k i H.
  - destruct i; discriminate.
  - destruct i as [|i]; simpl in *.
    + injection H as ->. now rewrite Nat.add_0_r.
    + rewrite (IH (S k) i H). f_equal. f_equal. lia.
Qed.

(** A loop that appends one element per item only touches the children and
    the log. *)
Lemma forEach_append {A : Type} (mk : A -> nat -> Element) (l : list A) (k : nat) (w : World) :
  forEach (fun a index => appendChild (mk a index)) l k w =
  set_log (rev (map (fun e => (now w, AppendChild e)) (mapi_from mk l k)) ++ log w)
    (set_children (children w ++ mapi_from mk l k) w).
Proof.
  revert k w; induction l as [|a l IH]; intros k w.
  - simpl. rewrite app_nil_r. unfold set_log, set_children; simpl.
    symmetry; apply world_eta.
  - simpl forEach. rewrite IH.
    unfold appendChild, emit, set_log, set_children; simpl.
    rewrite <- !app_assoc. reflexivity.
Qed.

Lemma filter_dots_mapi {A : Type} (mk : A -> nat -> Element) (l : list A) (k : nat) :
  (forall a i, is_dot (mk a i) = true) ->
  filter is_dot (mapi_from mk l k) = mapi_from mk l k.
Proof.
  intro H; revert k; induction l as [|a l IH]; intro k; simpl; [reflexivity|].
  now rewrite H, IH.
Qed.

Lemma filter_not_dot_idem (l : list Element) :
  filter is_dot (filter (fun e => negb (is_dot e)) l) = [].
Proof.
  induction l as [|e l IH]; simpl; [reflexivity|].
  destruct (is_dot e) eqn:E; simpl; [exact IH|]. now rewrite E.
Qed.

Lemma num_or_nonzero (a b : Q) : ~ a == 0 -> num_or a b = a.
Proof.
  intro H. unfold num_or. destruct (Qeq_bool a 0) eqn:E; [|reflexivity].
  apply Qeq_bool_iff in E. contradiction.
Qed.

Lemma or_zero_eq (q : Q) : exists p, or_zero (Some q) = Num p /\ p == q.
Proof.
  unfold or_zero. destruct (Qeq_bool q 0) eqn:E.
  - exists 0. split; [reflexivity|]. apply Qeq_bool_iff in E. now symmetry.
  - exists q. split; reflexivity.
Qed.

Lemma clamp_fov_range (f : Q) : 0.4 <= clamp_fov f /\ clamp_fov f <= 1.5.
Proof.
  unfold clamp_fov, Math_max, Math_min.
  destruct (Qle_bool f 1.5) eqn:E1.
  - destruct (Qle_bool 0.4 f) eqn:E2.
    + apply Qle_bool_iff in E1, E2. split; assumption.
    + split; lra.
  - destruct (Qle_bool 0.4 1.5) eqn:E2; [split; lra | discriminate].
Qed.

(* ------------------------------------------------------------------ *)
(** ** Marker placement *)

Lemma Clean_renderDots_children (w : World) (fp : Floorplan) (hs : list Hotspot) :
  floorplan w = Some fp ->
  children (Clean.renderDots hs w) =
  children w ++
  mapi_from (Clean.mkDot (num_or (rect_width fp) (naturalWidth fp))
               (num_or (rect_height fp) (naturalHeight fp))) hs 0.
Proof.
  intro H. unfold Clean.renderDots. rewrite H, forEach_append. reflexivity.
Qed.

Lemma nth_error_after {A : Type} (l l' : list A) (i : nat) :
  nth_error (l ++ l') (List.length l + i) = nth_error l' i.
Proof.
  rewrite nth_error_app2 by lia. f_equal. lia.
Qed.

(** *** Doubles *)










(** The products round as doubles do: x = 0.1 on a box 3 wide is placed at
    0.1 * 3, which is not the double of 0.3. *)
Lemma Ieee_product_rounds :
  exists l t,
    Ieee.Clean_renderDots [Ieee.mkHotspot (Some Ieee.tenth) (Some Ieee.half)] Ieee.box_3x100
    = [(l, t)]
    /\ l = PrimFloat.mul Ieee.tenth (Ieee.rect_width Ieee.box_3x100)
    /\ PrimFloat.eqb l Ieee.three_tenths = false.
Proof. do 2 eexists. repeat split; reflexivity. Qed.

(* ------------------------------------------------------------------ *)
(** ** Manual zoom *)

Lemma wheels_snoc (ds : list Q) (d : Q) (w : World) :
  wheels (ds ++ [d]) w = wheel d (wheels ds w).
Proof. unfold wheels. rewrite fold_left_app. reflexivity. Qed.

Lemma current_fov_wheel (d : Q) (w : World) :
  current_fov (wheel d w) =
  option_map (fun f => clamp_fov (f + d * zoomFactor)) (current_fov w).
Proof.
  unfold current_fov, wheel.
  destruct (currentView w) as [v|] eqn:E; simpl; rewrite ?E; reflexivity.
Qed.

Lemma current_fov_wheels_range (ds : list Q) (w : World) (f0 : Q) :
  current_fov w = Some f0 -> 0.4 <= f0 <= 1.5 ->
  exists f, current_fov (wheels ds w) = Some f /\ 0.4 <= f <= 1.5.
Proof.
  intros H0 R0. induction ds as [|d ds IH] using rev_ind.
  - exists f0. split; assumption.
  - destruct IH as [f [Hf _]].
    rewrite wheels_snoc, current_fov_wheel, Hf. simpl.
    eexists. split; [reflexivity|]. apply clamp_fov_range.
Qed.

(** C2: starting from the view of a freshly loaded scene (fov 1.2), every
    wheel event sets the fov to the clamp of [fov + delta * 0.004], and
    after every prefix of any sequence of wheel deltas the fov stored in
    the active view lies in [0.4, 1.5]. *)
Theorem C2_wheel_keeps_fov_in_range :
  forall (path : option string) (w : World) (deltas : list Q),
    let start := loadScene path w in
    current_fov start = Some 1.2
    /\ (forall (n : nat) (d : Q),
          current_fov (wheels (firstn n deltas ++ [d]) start) =
          option_map (fun f => Math_max 0.4 (Math_min (f + d * 0.004) 1.5))
            (current_fov (wheels (firstn n deltas) start)))
    /\ (forall n : nat,
          exists f, current_fov (wheels (firstn n deltas) start) = Some f
                    /\ 0.4 <= f /\ f <= 1.5).
Proof.
  intros path w deltas start.
  assert (H0 : current_fov start = Some 1.2) by reflexivity.
  split; [exact H0|]. split.
  - intros n d. rewrite wheels_snoc. apply current_fov_wheel.
  - intro n.
    destruct (current_fov_wheels_range (firstn n deltas) start 1.2 H0) as [f [Hf R]].
    + split; lra.
    + exists f. split; [exact Hf|exact R].
Qed.

(* ------------------------------------------------------------------ *)
(** ** Marker clicks in the clean script *)

Lemma Clean_click_log (h : Handler) (w : World) :
  Clean.click h w = w
  \/ exists p, truthy p = true /\ Clean.click h w = loadScene p w.
Proof.
  destruct h as [p|p|p|]; simpl; try (left; reflexivity).
  destruct (truthy p) eqn:E; [right; exists p; split; [exact E|reflexivity] | left; reflexivity].
Qed.

(** C10: in the clean script, clicking the marker rendered for a hotspot
    whose photo is absent or empty changes nothing: no scene is created and
    the current view is the one before the click.  Whatever marker is
    clicked, [loadScene] only ever receives a truthy path. *)
Theorem C10_click_without_photo_is_inert :
  forall (w : World) (fp : Floorplan) (hs : list Hotspot) (i : nat) (hp : Hotspot),
    floorplan w = Some fp ->
    nth_error hs i = Some hp ->
    truthy (hp_photo hp) = false ->
    let w' := Clean.renderDots hs w in
    let clicked := Clean.childClick (List.length (children w) + i) w' in
    clicked = w'
    /\ currentView clicked = currentView w'
    /\ log clicked = log w'
    /\ (forall j,
          Clean.childClick j w' = w'
          \/ exists p, truthy p = true /\ Clean.childClick j w' = loadScene p w').
Proof.
  intros w fp hs i hp Hfp Hi Hp w' clicked.
  assert (E : clicked = w').
  { unfold clicked, Clean.childClick, w'.
    rewrite (Clean_renderDots_children w fp hs Hfp), nth_error_after.
    rewrite (mapi_from_nth _ _ 0 i hp Hi). simpl. now rewrite Hp. }
  split; [exact E|]. rewrite E. split; [reflexivity|]. split; [reflexivity|].
  intro j. unfold Clean.childClick.
  destruct (nth_error (children w') j) as [el|]; [apply Clean_click_log | left; reflexivity].
Qed.

(** C10 at a concrete page: the marker of a hotspot without photo, clicked. *)
Lemma C10_witness :
  Clean.childClick 1 (Clean.renderDots [hp_no_photo] (page true (Some box_200x100) [img]))
  = Clean.renderDots [hp_no_photo] (page true (Some box_200x100) [img]).
Proof.
  apply (C10_click_without_photo_is_inert (page true (Some box_200x100) [img])
           box_200x100 [hp_no_photo] 0 hp_no_photo); reflexivity.
Defined.

(* ------------------------------------------------------------------ *)
(** ** Redraw from scratch *)

Lemma Clean_drawDotsSafely_children (w : World) :
  children (Clean.drawDotsSafely w) =
  filter (fun e => negb (is_dot e)) (children w) ++ rendered w.
Proof.
  unfold Clean.drawDotsSafely, Clean.renderDots, rendered. simpl.
  destruct (floorplan w) as [fp|].
  - rewrite forEach_append. reflexivity.
  - simpl. now rewrite app_nil_r.
Qed.

Lemma Clean_drawDotsSafely_keeps (w : World) :
  floorplan (Clean.drawDotsSafely w) = floorplan w
  /\ hotspotsData (Clean.drawDotsSafely w) = hotspotsData w
  /\ fetches (Clean.drawDotsSafely w) = fetches w
  /\ timers (Clean.drawDotsSafely w) = timers w
  /\ currentView (Clean.drawDotsSafely w) = currentView w
  /\ display (Clean.drawDotsSafely w) = display w
  /\ now (Clean.drawDotsSafely w) = now w.
Proof.
  unfold Clean.drawDotsSafely, Clean.renderDots. simpl.
  destruct (floorplan w) as [fp|] eqn:E.
  - rewrite forEach_append. simpl. rewrite E. repeat split; reflexivity.
  - simpl. rewrite E. repeat split; reflexivity.
Qed.

Lemma rendered_all_dots (w : World) : filter is_dot (rendered w) = rendered w.
Proof.
  unfold rendered. destruct (floorplan w); [|reflexivity].
  apply filter_dots_mapi. reflexivity.
Qed.

Lemma filter_negb_of_filter {A : Type} (p : A -> bool) (l : list A) :
  filter p l = l -> filter (fun a => negb (p a)) l = [].
Proof.
  induction l as [|a l IH]; simpl; [reflexivity|].
  destruct (p a) eqn:E; simpl; intro H.
  - injection H as H. auto.
  - exfalso. assert (In a (filter p l)) by (rewrite H; left; reflexivity).
    apply filter_In in H0. destruct H0 as [_ H0]. congruence.
Qed.

Lemma filter_idem {A : Type} (p : A -> bool) (l : list A) :
  filter p (filter p l) = filter p l.
Proof.
  induction l as [|a l IH]; simpl; [reflexivity|].
  destruct (p a) eqn:E; simpl; [rewrite E, IH|]; auto.
Qed.

(** In the clean script the redraw is idempotent on the whole container. *)
Lemma Clean_drawDotsSafely_idempotent (w : World) :
  children (Clean.drawDotsSafely (Clean.drawDotsSafely w)) =
  children (Clean.drawDotsSafely w)
  /\ count_dots (Clean.drawDotsSafely (Clean.drawDotsSafely w)) =
     count_dots (Clean.drawDotsSafely w).
Proof.
  assert (E : children (Clean.drawDotsSafely (Clean.drawDotsSafely w)) =
              children (Clean.drawDotsSafely w)).
  { rewrite (Clean_drawDotsSafely_children (Clean.drawDotsSafely w)).
    rewrite (Clean_drawDotsSafely_children w).
    destruct (Clean_drawDotsSafely_keeps w) as [Hf [Hh _]].
    assert (R : rendered (Clean.drawDotsSafely w) = rendered w)
      by (unfold rendered; now rewrite Hf, Hh).
    rewrite R, filter_app, filter_idem.
    rewrite (filter_negb_of_filter _ _ (rendered_all_dots w)).
    now rewrite app_nil_r. }
  split; [exact E|]. unfold count_dots. now rewrite E.
Qed.

(** C3 fails in the 2025.08.05 script: [drawDotsSafely] clears the markers
    and then starts a fetch whose continuation appends.  One redraw of a
    one-hotspot file leaves one marker, and so do two redraws when the first
    fetch settles before the second redraw; two redraws in succession, both
    fetches settling afterwards, leave two markers.  The last part shows the
    same through the page's events: show, hide and show the panel while the
    first fetch is in flight. *)
Theorem C3_aug05_overlapping_redraws_accumulate :
  count_dots
    (Aug05.run [EvSettle 0 (ok_with (JArray [hp_center]))]
       (Aug05.drawDotsSafely (page true (Some box_200x100) [img]))) = 1%nat
  /\ count_dots
       (Aug05.run [EvSettle 0 (ok_with (JArray [hp_center]))]
          (Aug05.drawDotsSafely
             (Aug05.run [EvSettle 0 (ok_with (JArray [hp_center]))]
                (Aug05.drawDotsSafely (page true (Some box_200x100) [img]))))) = 1%nat
  /\ count_dots
       (Aug05.run [EvSettle 0 (ok_with (JArray [hp_center]));
                   EvSettle 0 (ok_with (JArray [hp_center]))]
          (Aug05.drawDotsSafely
             (Aug05.drawDotsSafely (page true (Some box_200x100) [img])))) = 2%nat
  /\ count_dots
       (Aug05.run [EvToggleClick; EvFrame;
                   EvSettle 0 (ok_with (JArray [hp_center]))]
          (Aug05.boot (page true (Some box_200x100) [img]))) = 1%nat
  /\ count_dots
       (Aug05.run [EvToggleClick; EvFrame; EvToggleClick; EvToggleClick; EvFrame;
                   EvSettle 0 (ok_with (JArray [hp_center]));
                   EvSettle 0 (ok_with (JArray [hp_center]))]
          (Aug05.boot (page true (Some box_200x100) [img]))) = 2%nat.
Proof. repeat split; reflexivity. Qed.

(* ------------------------------------------------------------------ *)
(** ** Failing loads *)


(** The loader of the clean script on a failing load: one alert, one
    console error, and nothing else changes. *)
Lemma Clean_failing_load (r : Response) (w : World) :
  failing r = true ->
  exists err,
    Clean.settle_fetch KLoadHotspots r w =
    emit (ConsoleError err) (alert Clean.msg_load_failed w).
Proof.
  destruct r as [|ok st body]; simpl.
  - intros _. eexists; reflexivity.
  - destruct ok; simpl.
    + destruct body; [intros _; eexists; reflexivity | discriminate].
    + intros _. eexists; reflexivity.
Qed.

(** Observed on the state: a failing load in the clean script keeps the
    cached dataset and the container, adds exactly one alert, leaves nothing
    unhandled and issues no further fetch. *)
Lemma Clean_failing_load_observed (r : Response) (w : World) :
  failing r = true ->
  let w' := Clean.settle_fetch KLoadHotspots r w in
  hotspotsData w' = hotspotsData w
  /\ children w' = children w
  /\ count is_alert w' = S (count is_alert w)
  /\ count is_unhandled w' = count is_unhandled w
  /\ count is_fetch w' = count is_fetch w.
Proof.
  intros H w'. destruct (Clean_failing_load r w H) as [err E].
  unfold w'. rewrite E. repeat split; reflexivity.
Qed.

(** The same holds for [loadHotspots] of the 2025.08.05 script. *)
Lemma Aug05_loadHotspots_failing (r : Response) (w : World) :
  failing r = true ->
  exists err,
    Aug05.settle_fetch KLoadHotspots r w =
    emit (ConsoleError err) (alert Aug05.msg_load_failed w).
Proof.
  destruct r as [|ok st body]; simpl.
  - intros _. eexists; reflexivity.
  - destruct ok; simpl.
    + destruct body; [intros _; eexists; reflexivity | discriminate].
    + intros _. eexists; reflexivity.
Qed.

(** C4 fails on the page-load path of the 2025.08.05 script: the fetch in
    [drawDotsWhenReady] has no status check and no catch.  When
    hotspots.json answers 404 with a body that is not JSON, no alert is
    shown and the rejection is unhandled; the same response on the
    [loadHotspots] path of the same script (toggle, then animation frame)
    raises the alert and leaves nothing unhandled. *)
Theorem C4_aug05_page_load_failure_is_silent :
  count is_alert
    (Aug05.run [EvWindowLoad; EvSettle 0 not_found]
       (Aug05.boot (page true (Some box_200x100) [img]))) = 0%nat
  /\ count is_unhandled
       (Aug05.run [EvWindowLoad; EvSettle 0 not_found]
          (Aug05.boot (page true (Some box_200x100) [img]))) = 1%nat
  /\ count_dots
       (Aug05.run [EvWindowLoad; EvSettle 0 not_found]
          (Aug05.boot (page true (Some box_200x100) [img]))) = 0%nat
  /\ count is_alert
       (Aug05.run [EvToggleClick; EvFrame; EvSettle 0 not_found]
          (Aug05.boot (page true (Some box_200x100) [img]))) = 1%nat
  /\ count is_unhandled
       (Aug05.run [EvToggleClick; EvFrame; EvSettle 0 not_found]
          (Aug05.boot (page true (Some box_200x100) [img]))) = 0%nat.
Proof. repeat split; reflexivity. Qed.

(* ------------------------------------------------------------------ *)
(** ** Missing viewer library *)

Lemma Clean_boot_without_library (w : World) :
  marzipano w = false -> Clean.boot w = alert msg_no_marzipano w.
Proof. intro H. unfold Clean.boot. now rewrite H. Qed.

Lemma Aug05_iife_without_library (w : World) :
  marzipano w = false -> Aug05.iife w = alert msg_no_marzipano w.
Proof. intro H. unfold Aug05.iife. now rewrite H. Qed.

(** C7 fails in the 2025.08.05 script: the guard returns from the IIFE
    only, and the window load listener below it is still registered.  With
    the library absent the script alerts once and builds no viewer, yet on
    window load it shows the panel, fetches hotspots.json and draws a
    marker for the one hotspot of the file. *)
Theorem C7_aug05_load_listener_escapes_guard :
  count is_alert
    (Aug05.run [EvWindowLoad; EvSettle 0 (ok_with (JArray [hp_center]))]
       (Aug05.boot (page false (Some box_200x100) [img]))) = 1%nat
  /\ viewer
       (Aug05.run [EvWindowLoad; EvSettle 0 (ok_with (JArray [hp_center]))]
          (Aug05.boot (page false (Some box_200x100) [img]))) = false
  /\ listeners (Aug05.boot (page false (Some box_200x100) [img])) = [LWindowLoad]
  /\ display
       (Aug05.run [EvWindowLoad; EvSettle 0 (ok_with (JArray [hp_center]))]
          (Aug05.boot (page false (Some box_200x100) [img]))) = "block"
  /\ count is_fetch
       (Aug05.run [EvWindowLoad; EvSettle 0 (ok_with (JArray [hp_center]))]
          (Aug05.boot (page false (Some box_200x100) [img]))) = 1%nat
  /\ count_dots
       (Aug05.run [EvWindowLoad; EvSettle 0 (ok_with (JArray [hp_center]))]
          (Aug05.boot (page false (Some box_200x100) [img]))) = 1%nat.
Proof. repeat split; reflexivity. Qed.

(* ------------------------------------------------------------------ *)
(** ** A body that is not a sequence *)

(** The loader of the clean script coerces a non-sequence to the empty
    dataset: no marker, no alert, nothing unhandled. *)
Lemma Clean_non_sequence_coerced (v : JsonVal) (st : string) (w : World) :
  is_array v = false ->
  let w' := Clean.settle_fetch KLoadHotspots (Http true st (Json v)) w in
  hotspotsData w' = []
  /\ count_dots w' = 0%nat
  /\ count is_alert w' = count is_alert w
  /\ count is_unhandled w' = count is_unhandled w.
Proof.
  intros H w'.
  assert (E : w' = Clean.drawDotsSafely (set_hotspotsData [] w)).
  { unfold w'. simpl. destruct v; try discriminate; reflexivity. }
  rewrite E.
  destruct (Clean_drawDotsSafely_keeps (set_hotspotsData [] w)) as [_ [Hh _]].
  split; [exact Hh|]. split.
  - unfold count_dots. rewrite Clean_drawDotsSafely_children.
    unfold rendered. simpl. destruct (floorplan w); simpl;
      rewrite app_nil_r; rewrite filter_not_dot_idem; reflexivity.
  - unfold Clean.drawDotsSafely, Clean.renderDots. simpl.
    destruct (floorplan w); split; reflexivity.
Qed.

Lemma Aug05_non_sequence_throws (v : JsonVal) (w : World) :
  is_array v = false ->
  Aug05.settle_fetch KLoadHotspots (ok_with v) w =
  Aug05.catch_load "TypeError" (emit (ConsoleLog "Hotspots loaded:") w).
Proof.
  intro H. unfold ok_with; simpl. unfold Aug05.initDots.
  destruct (floorplan (emit (ConsoleLog "Hotspots loaded:") w));
    destruct v; try discriminate; reflexivity.
Qed.

(** C8 fails in the 2025.08.05 script: [loadHotspots] hands the parsed
    value to [initDots], whose [forEach] throws on a value that is not an
    array, and the catch of the chain shows the load-failure alert.  Shown
    for the body [{}] after toggle and animation frame: one alert, no
    marker. *)
Theorem C8_aug05_non_sequence_alerts :
  count is_alert
    (Aug05.run [EvToggleClick; EvFrame; EvSettle 0 (ok_with JObject)]
       (Aug05.boot (page true (Some box_200x100) [img]))) = 1%nat
  /\ count_dots
       (Aug05.run [EvToggleClick; EvFrame; EvSettle 0 (ok_with JObject)]
          (Aug05.boot (page true (Some box_200x100) [img]))) = 0%nat
  /\ log
       (Aug05.run [EvToggleClick; EvFrame; EvSettle 0 (ok_with JObject)]
          (Aug05.boot (page true (Some box_200x100) [img]))) =
     [(0%nat, ConsoleError "TypeError"); (0%nat, Alert Aug05.msg_load_failed);
      (0%nat, ConsoleLog "Hotspots loaded:"); (0%nat, Fetch false);
      (0%nat, QueryDots); (0%nat, RequestFrame);
      (0%nat, EnableMethod "touchView"); (0%nat, EnableMethod "mouseViewDrag");
      (0%nat, EnableMethod "scrollZoom"); (0%nat, NewViewer)].
Proof. repeat split; reflexivity. Qed.

(* ------------------------------------------------------------------ *)
(** ** Timers *)

Section Timers.

Variable rc : Callback -> World -> World.

Lemma advance_S (k : nat) (w : World) :
  advance rc (S k) w = tick rc (advance rc k w).
Proof. reflexivity. Qed.

Lemma advance_add (a b : nat) (w : World) :
  advance rc (a + b) w = advance rc a (advance rc b w).
Proof. unfold advance. apply Nat.iter_add. Qed.

Lemma filter_none {A : Type} (p : A -> bool) (l : list A) :
  (forall a, In a l -> p a = false) -> filter p l = [].
Proof.
  induction l as [|a l IH]; intro H; simpl; [reflexivity|].
  rewrite (H a (or_introl eq_refl)). apply IH. intros b Hb. apply H. now right.
Qed.

(** A millisecond in which no timer is due only moves the clock. *)
Lemma tick_idle (w : World) :
  (forall t, In t (timers w) -> (S (now w) < deadline t)%nat) ->
  tick rc w = set_now (S (now w)) w.
Proof.
  intro H. unfold tick, due. simpl.
  rewrite filter_none; [reflexivity|].
  intros t Ht. apply Nat.leb_gt. now apply H.
Qed.

Lemma advance_idle (k : nat) (w : World) :
  (forall t, In t (timers w) -> (now w + k < deadline t)%nat) ->
  advance rc k w = set_now (now w + k) w.
Proof.
  induction k as [|k IH]; intro H.
  - simpl. rewrite Nat.add_0_r. unfold set_now. symmetry. apply world_eta.
  - rewrite advance_S, IH by (intros t Ht; specialize (H t Ht); lia).
    rewrite tick_idle by (simpl; intros t Ht; specialize (H t Ht); lia).
    unfold set_now; simpl. f_equal. lia.
Qed.

(** With one timer pending, nothing happens until its deadline, and then
    its callback runs with the timer gone. *)
Lemma advance_single_timer (k id : nat) (cb : Callback) (w : World) :
  timers w = [mkTimer id (now w + S k) cb] ->
  advance rc (S k) w = rc cb (set_timers [] (set_now (now w + S k) w)).
Proof.
  intro H. rewrite advance_S, advance_idle.
  - unfold tick, due. simpl. rewrite H. simpl.
    replace (now w + S k <=? S (now w + k))%nat with true
      by (symmetry; apply Nat.leb_le; lia).
    simpl. rewrite H. simpl. rewrite Nat.eqb_refl. simpl.
    unfold drop_timer. simpl. rewrite H. simpl. rewrite Nat.eqb_refl. simpl.
    f_equal. unfold set_timers, set_now; simpl. f_equal. lia.
  - rewrite H. intros t [<-|[]]. simpl. lia.
Qed.

(** Once no timer is left, further time only moves the clock. *)
Lemma advance_after_quiet (a k : nat) (w : World) :
  timers (advance rc a w) = [] -> (a <= k)%nat ->
  advance rc k w = set_now (now (advance rc a w) + (k - a)) (advance rc a w).
Proof.
  intros H Hk. replace k with ((k - a) + a)%nat at 1 by lia.
  rewrite advance_add. apply advance_idle. rewrite H. intros t [].
Qed.

End Timers.

(* ------------------------------------------------------------------ *)
(** ** Readiness polling *)

#[local] Arguments Nat.mul : simpl never.

Lemma Aug05_check_not_ready (r : nat) (w : World) (fp : Floorplan) :
  floorplan w = Some fp -> fullyRendered fp = false ->
  Aug05.drawDotsWhenReady r w =
  match r with
  | O => emit (ConsoleWarn Aug05.msg_never_rendered) w
  | S r' => snd (setTimeout (CbRetry r') 100 w)
  end.
Proof.
  intros Hfp Hr. unfold Aug05.drawDotsWhenReady. rewrite Hfp.
  unfold fullyRendered in Hr. rewrite Hr.
  destruct r as [|r']; simpl; [reflexivity|]. now rewrite Nat.sub_0_r.
Qed.

(** Whatever the image does, a check schedules at most one further check,
    with a smaller retry budget. *)
Lemma Aug05_check_schedules (r : nat) (w : World) :
  timers (Aug05.drawDotsWhenReady r w) = timers w
  \/ ((0 < r)%nat
      /\ timers (Aug05.drawDotsWhenReady r w) =
         timers w ++ [mkTimer (nextTimer w) (now w + 100) (CbRetry (r - 1))]).
Proof.
  unfold Aug05.drawDotsWhenReady.
  destruct (floorplan w) as [fp|]; [|left; reflexivity].
  destruct (complete fp && negb (Qle_bool (rect_width fp) 0)
            && negb (Qle_bool (rect_height fp) 0)); [left; reflexivity|].
  destruct (0 <? r)%nat eqn:E; [|left; reflexivity].
  right. split; [now apply Nat.ltb_lt|reflexivity].
Qed.

Lemma Aug05_advance_eq (k : nat) (w : World) :
  Aug05.advance k w = advance Aug05.run_callback k w.
Proof. reflexivity. Qed.

Lemma Clean_advance_eq (k : nat) (w : World) :
  Clean.advance k w = advance Clean.run_callback k w.
Proof. reflexivity. Qed.

(** The polling loop while the image stays unready: a pending retry with
    budget [r] leads, after [100 * (r + 1)] ms, to [r] further timeouts and
    then the warning, and leaves no timer behind. *)
Lemma Aug05_poll (r : nat) :
  forall (w : World) (fp : Floorplan) (id : nat),
    floorplan w = Some fp -> fullyRendered fp = false ->
    timers w = [mkTimer id (now w + 100) (CbRetry r)] ->
    let w' := advance Aug05.run_callback (100 * S r) w in
    timers w' = []
    /\ now w' = (now w + 100 * S r)%nat
    /\ log w' =
       (now w + 100 * S r, ConsoleWarn Aug05.msg_never_rendered)%nat
         :: timeouts_log (now w + 100) (nextTimer w) r ++ log w
    /\ children w' = children w
    /\ fetches w' = fetches w
    /\ display w' = display w.
Proof.
  induction r as [|r IH]; intros w fp id Hfp Hr Ht w'.
  - unfold w'. change (100 * 1)%nat with (S 99).
    rewrite (advance_single_timer Aug05.run_callback 99 id (CbRetry 0) w Ht).
    simpl Aug05.run_callback.
    rewrite (Aug05_check_not_ready 0 _ fp) by (simpl; assumption).
    simpl. repeat split; reflexivity.
  - unfold w'.
    replace (100 * S (S r))%nat with (100 * S r + S 99)%nat by lia.
    rewrite advance_add.
    rewrite (advance_single_timer Aug05.run_callback 99 id (CbRetry (S r)) w Ht).
    simpl Aug05.run_callback.
    rewrite (Aug05_check_not_ready (S r) _ fp) by (simpl; assumption).
    set (w1 := snd (setTimeout (CbRetry r) 100
                      (set_timers [] (set_now (now w + S 99) w)))).
    destruct (IH w1 fp (nextTimer w)) as [H1 [H2 [H3 [H4 [H5 H6]]]]];
      try (subst w1; simpl; assumption); try reflexivity.
    split; [exact H1|]. split; [rewrite H2; subst w1; simpl; lia|].
    split; [|split; [exact H4|split; [exact H5|exact H6]]].
    rewrite H3. subst w1. simpl.
    rewrite <- app_assoc. simpl. f_equal. f_equal. lia.
Qed.

(** C5: when the floorplan stays unready, the window load listener checks
    it every 100ms, sets ten timeouts in all (at 0, 100, ..., 900ms), logs
    exactly one warning at 10 * 100ms, draws no marker, issues no fetch,
    shows no alert, and leaves no timer pending: the polling has ended.
    Whatever the image does, a check schedules at most one retry, of a
    smaller budget. *)
Theorem C5_polling_gives_up_after_ten_retries :
  forall (w : World) (fp : Floorplan) (k : nat),
    floorplan w = Some fp -> fullyRendered fp = false ->
    timers w = [] ->
    (100 * 10 <= k)%nat ->
    let w' := Aug05.advance k (Aug05.windowLoad w) in
    log w' =
      (now w + 100 * 10, ConsoleWarn Aug05.msg_never_rendered)%nat
        :: timeouts_log (now w) (nextTimer w) 10 ++ log w
    /\ count is_warn w' = S (count is_warn w)
    /\ count is_timeout w' = (10 + count is_timeout w)%nat
    /\ count is_alert w' = count is_alert w
    /\ count is_fetch w' = count is_fetch w
    /\ children w' = children w
    /\ timers w' = []
    /\ (forall r v,
          timers (Aug05.drawDotsWhenReady r v) = timers v
          \/ ((0 < r)%nat
              /\ timers (Aug05.drawDotsWhenReady r v) =
                 timers v ++ [mkTimer (nextTimer v) (now v + 100) (CbRetry (r - 1))])).
Proof.
  intros w fp k Hfp Hr Ht Hk w'.
  pose (w0 := snd (setTimeout (CbRetry 9) 100 (set_display "block" w))).
  assert (E0 : Aug05.windowLoad w = w0).
  { unfold Aug05.windowLoad.
    now rewrite (Aug05_check_not_ready 10 _ fp) by (simpl; assumption). }
  assert (T0 : timers w0 = [mkTimer (nextTimer w) (now w0 + 100) (CbRetry 9)])
    by (simpl; now rewrite Ht).
  destruct (Aug05_poll 9 w0 fp (nextTimer w) Hfp Hr T0) as [H1 [H2 [H3 [H4 [H5 H6]]]]].
  assert (Ek : w' = set_now (now (advance Aug05.run_callback (100 * 10) w0) + (k - 100 * 10))
                      (advance Aug05.run_callback (100 * 10) w0)).
  { unfold w'. rewrite E0, Aug05_advance_eq.
    apply advance_after_quiet; assumption. }
  generalize dependent (advance Aug05.run_callback (100 * 10) w0).
  intros w1 H1 H2 H3 H4 H5 H6 Ek.
  assert (L : log w' =
     (now w + 100 * 10, ConsoleWarn Aug05.msg_never_rendered)%nat
        :: timeouts_log (now w) (nextTimer w) 10 ++ log w).
  { rewrite Ek. simpl log. rewrite H3. reflexivity. }
  split; [exact L|].
  unfold count. rewrite L.
  split; [|split; [|split; [|split; [|split; [|split]]]]].
  - reflexivity.
  - reflexivity.
  - reflexivity.
  - reflexivity.
  - rewrite Ek. simpl. rewrite H4. reflexivity.
  - rewrite Ek. simpl. exact H1.
  - intros r v. apply Aug05_check_schedules.
Qed.

(** C5 at a concrete page whose floorplan never loads: one warning after
    10 * 100ms. *)
Lemma C5_witness :
  count is_warn
    (Aug05.advance (100 * 10)
       (Aug05.windowLoad (Aug05.boot (page true (Some box_not_ready) [img])))) = 1%nat.
Proof.
  pose proof (C5_polling_gives_up_after_ten_retries
                (Aug05.boot (page true (Some box_not_ready) [img])) box_not_ready
                (100 * 10) eq_refl eq_refl eq_refl (Nat.le_refl _)) as H.
  destruct H as [_ [H _]]. exact H.
Defined.

(* ------------------------------------------------------------------ *)
(** ** Debounced resize *)

Lemma Clean_run_app (a b : list Event) (w : World) :
  Clean.run (a ++ b) w = Clean.run b (Clean.run a w).
Proof. unfold Clean.run. apply fold_left_app. Qed.

Lemma Clean_run_quiet (k : nat) (w : World) :
  Clean.run (quiet k) w = advance Clean.run_callback k w.
Proof.
  revert w; induction k as [|k IH]; intro w; [reflexivity|].
  unfold quiet in *.
  change (Clean.run (repeat EvTick k) (Clean.step EvTick w) =
          advance Clean.run_callback (S k) w).
  rewrite IH. unfold advance. rewrite Nat.iter_succ_r. reflexivity.
Qed.

Lemma no_query_in_appends (t : nat) (l : list Element) (rest : list (nat * Effect)) :
  filter (fun te => is_query (snd te)) (rev (map (fun e => (t, AppendChild e)) l) ++ rest)
  = filter (fun te => is_query (snd te)) rest.
Proof.
  rewrite filter_app.
  rewrite (filter_none (fun te => is_query (snd te))); [reflexivity|].
  intros [t' e] H. apply in_rev, in_map_iff in H.
  destruct H as [el [E _]]. now inversion E.
Qed.

Lemma Clean_drawDotsSafely_render_times (w : World) :
  render_times (Clean.drawDotsSafely w) = now w :: render_times w.
Proof.
  unfold render_times, Clean.drawDotsSafely, Clean.renderDots. simpl.
  destruct (floorplan w) as [fp|].
  - rewrite forEach_append. simpl log. rewrite no_query_in_appends. reflexivity.
  - reflexivity.
Qed.

(** What one resize event does, from a state with no timer or with the
    pending redraw. *)
Lemma Clean_resize_restarts (w : World) :
  has_listener LResize w = true -> hotspotsData w <> [] ->
  timer_tracked w ->
  let w' := Clean.step EvResize w in
  debouncing w'
  /\ timers w' = [mkTimer (nextTimer w) (now w + 100) CbDrawDotsSafely]
  /\ now w' = now w
  /\ render_times w' = render_times w.
Proof.
  intros HL HD HT w'.
  assert (E : w' = Clean.resize w) by (unfold w'; simpl; now rewrite HL).
  assert (T : timers w' = [mkTimer (nextTimer w) (now w + 100) CbDrawDotsSafely]).
  { rewrite E. unfold Clean.resize.
    destruct (hotspotsData w) as [|h hs]; [contradiction|].
    destruct HT as [HT|[id [dl [HT HR]]]].
    - unfold clearTimeout. destruct (resizeTimer w); simpl; rewrite ?HT; reflexivity.
    - rewrite HR. simpl. rewrite HT. simpl. rewrite Nat.eqb_refl. reflexivity. }
  assert (K : now w' = now w /\ render_times w' = render_times w
              /\ hotspotsData w' = hotspotsData w /\ listeners w' = listeners w
              /\ resizeTimer w' = Some (nextTimer w)).
  { rewrite E. unfold Clean.resize, render_times.
    destruct (hotspotsData w) as [|h hs] eqn:EH; [contradiction|].
    unfold clearTimeout. destruct (resizeTimer w); simpl; rewrite ?EH; repeat split. }
  destruct K as [K1 [K2 [K3 [K4 K5]]]].
  split; [|split; [exact T|split; [exact K1|exact K2]]].
  unfold debouncing, has_listener. rewrite K4, K3, K1, K5, T.
  split; [exact HL|]. split; [exact HD|].
  exists (nextTimer w). split; reflexivity.
Qed.

(** Gaps shorter than 100ms: the pending redraw never fires, and each
    further event replaces it. *)
Lemma Clean_burst_tail (gaps : list nat) :
  Forall (fun d => (d < 100)%nat) gaps ->
  forall w : World,
    debouncing w ->
    let w' := Clean.run (flat_map (fun d => repeat EvTick d ++ [EvResize]) gaps) w in
    debouncing w'
    /\ now w' = (now w + list_sum gaps)%nat
    /\ render_times w' = render_times w.
Proof.
  induction 1 as [|d gaps Hd _ IH]; intros w D w'.
  - unfold w'. simpl. rewrite Nat.add_0_r. split; [exact D|split; reflexivity].
  - unfold w'. simpl flat_map. rewrite <- app_assoc, Clean_run_app.
    fold (quiet d). rewrite Clean_run_quiet.
    destruct D as [HL [HD [id [HT HR]]]].
    rewrite advance_idle by (rewrite HT; intros t [<-|[]]; simpl; lia).
    set (w1 := set_now (now w + d) w).
    simpl app. change (Clean.run (EvResize :: ?l) w1) with (Clean.run l (Clean.step EvResize w1)).
    destruct (Clean_resize_restarts w1) as [D2 [_ [N2 R2]]]; try assumption.
    { right. exists id, (now w + 100)%nat. split; assumption. }
    destruct (IH (Clean.step EvResize w1) D2) as [D3 [N3 R3]].
    split; [exact D3|]. split.
    + rewrite N3, N2. simpl. lia.
    + rewrite R3, R2. reflexivity.
Qed.

Lemma render_times_set_now (t : nat) (w : World) :
  render_times (set_now t w) = render_times w.
Proof. reflexivity. Qed.

(** After the burst: nothing until 100ms have passed, then one redraw. *)
Lemma Clean_debounce_fires (w : World) (k : nat) :
  debouncing w ->
  render_times (Clean.run (quiet k) w) =
  if (k <? 100)%nat then render_times w else (now w + 100)%nat :: render_times w.
Proof.
  intros [HL [HD [id [HT HR]]]]. rewrite Clean_run_quiet.
  destruct (k <? 100)%nat eqn:E.
  - apply Nat.ltb_lt in E.
    rewrite advance_idle by (rewrite HT; intros t [<-|[]]; simpl; lia).
    reflexivity.
  - apply Nat.ltb_ge in E.
    assert (F : advance Clean.run_callback (S 99) w =
                Clean.drawDotsSafely (set_timers [] (set_now (now w + S 99) w)))
      by (apply (advance_single_timer Clean.run_callback 99 id CbDrawDotsSafely w HT)).
    change (S 99) with 100%nat in F.
    assert (Q : timers (advance Clean.run_callback 100 w) = []).
    { rewrite F. destruct (Clean_drawDotsSafely_keeps
                             (set_timers [] (set_now (now w + 100) w)))
        as [_ [_ [_ [Q _]]]]. exact Q. }
    rewrite (advance_after_quiet Clean.run_callback 100 k w Q E).
    rewrite render_times_set_now, F, Clean_drawDotsSafely_render_times.
    reflexivity.
Qed.

Lemma Clean_step_resize_frame (w : World) :
  children (Clean.step EvResize w) = children w
  /\ floorplan (Clean.step EvResize w) = floorplan w
  /\ hotspotsData (Clean.step EvResize w) = hotspotsData w.
Proof.
  simpl. destruct (has_listener LResize w); [|repeat split].
  unfold Clean.resize. destruct (hotspotsData w) eqn:E; [repeat split; assumption|].
  unfold clearTimeout. destruct (resizeTimer w); simpl; rewrite E; repeat split.
Qed.

(** During the burst nothing is cleared or drawn. *)
Lemma Clean_burst_frame (gaps : list nat) :
  Forall (fun d => (d < 100)%nat) gaps ->
  forall w : World,
    debouncing w ->
    let w' := Clean.run (flat_map (fun d => repeat EvTick d ++ [EvResize]) gaps) w in
    children w' = children w
    /\ floorplan w' = floorplan w
    /\ hotspotsData w' = hotspotsData w.
Proof.
  induction 1 as [|d gaps Hd HG IH]; intros w D w'.
  - repeat split.
  - unfold w'. simpl flat_map. rewrite <- app_assoc, Clean_run_app.
    fold (quiet d). rewrite Clean_run_quiet.
    destruct D as [HL [HD [id [HT HR]]]].
    rewrite advance_idle by (rewrite HT; intros t [<-|[]]; simpl; lia).
    set (w1 := set_now (now w + d) w).
    simpl app.
    change (Clean.run (EvResize :: ?l) w1) with (Clean.run l (Clean.step EvResize w1)).
    destruct (Clean_resize_restarts w1) as [D2 _]; try assumption.
    { right. exists id, (now w + 100)%nat. split; assumption. }
    destruct (IH (Clean.step EvResize w1) D2) as [C3 [F3 H3]].
    destruct (Clean_step_resize_frame w1) as [C2 [F2 H2]].
    split; [rewrite C3, C2; reflexivity|].
    split; [rewrite F3, F2; reflexivity|rewrite H3, H2; reflexivity].
Qed.

Lemma set_now_frame (t : nat) (w : World) :
  children (set_now t w) = children w /\ timers (set_now t w) = timers w.
Proof. split; reflexivity. Qed.

(** After the burst: the container is untouched until 100ms have passed;
    then the markers are cleared and drawn anew from the cached dataset, and
    no timer is left. *)
Lemma Clean_debounce_redraws (w : World) (k : nat) :
  debouncing w ->
  children (Clean.run (quiet k) w) =
    (if (k <? 100)%nat then children w
     else filter (fun e => negb (is_dot e)) (children w) ++ rendered w)
  /\ ((100 <= k)%nat -> timers (Clean.run (quiet k) w) = []).
Proof.
  intros [HL [HD [id [HT HR]]]]. rewrite Clean_run_quiet.
  destruct (k <? 100)%nat eqn:E.
  - apply Nat.ltb_lt in E.
    rewrite advance_idle by (rewrite HT; intros t [<-|[]]; simpl; lia).
    split; [reflexivity|lia].
  - apply Nat.ltb_ge in E.
    assert (F : advance Clean.run_callback (S 99) w =
                Clean.drawDotsSafely (set_timers [] (set_now (now w + S 99) w)))
      by (apply (advance_single_timer Clean.run_callback 99 id CbDrawDotsSafely w HT)).
    change (S 99) with 100%nat in F.
    assert (Q : timers (advance Clean.run_callback 100 w) = []).
    { rewrite F. destruct (Clean_drawDotsSafely_keeps
                             (set_timers [] (set_now (now w + 100) w)))
        as [_ [_ [_ [Q _]]]]. exact Q. }
    rewrite (advance_after_quiet Clean.run_callback 100 k w Q E).
    destruct (set_now_frame (now (advance Clean.run_callback 100 w) + (k - 100))
                (advance Clean.run_callback 100 w)) as [SC ST].
    rewrite SC, ST. split; [|intros _; exact Q].
    rewrite F, Clean_drawDotsSafely_children. reflexivity.
Qed.

(** C9: a burst of one or more resize events, each less than 100ms after
    the previous one, with hotspot data present, re-renders the dots
    exactly once, 100ms after the last event.  Before the burst either no
    timer is pending or the one pending is an earlier debounce timer, which
    the first event cancels; during the burst the single pending timer is
    the one set by the latest event, and until 100ms after the last event
    the container is untouched and no redraw is logged.  From then on the
    container holds its non-marker children followed by the markers
    rendered anew from the cached dataset (the old markers are gone), one
    redraw is logged, at that time, and no timer is pending. *)
Theorem C9_resize_burst_redraws_once :
  forall (w : World) (gaps : list nat),
    has_listener LResize w = true ->
    hotspotsData w <> [] ->
    timer_tracked w ->
    Forall (fun d => (d < 100)%nat) gaps ->
    let last := (now w + list_sum gaps)%nat in
    let w1 := Clean.run (burst gaps) w in
    now w1 = last
    /\ (exists id, timers w1 = [mkTimer id (last + 100) CbDrawDotsSafely])
    /\ render_times w1 = render_times w
    /\ children w1 = children w
    /\ (forall k, (k < 100)%nat ->
          render_times (Clean.run (quiet k) w1) = render_times w
          /\ children (Clean.run (quiet k) w1) = children w)
    /\ (forall k, (100 <= k)%nat ->
          render_times (Clean.run (quiet k) w1) = (last + 100)%nat :: render_times w
          /\ children (Clean.run (quiet k) w1) =
             filter (fun e => negb (is_dot e)) (children w) ++ rendered w
          /\ count_dots (Clean.run (quiet k) w1) = List.length (rendered w)
          /\ timers (Clean.run (quiet k) w1) = []).
Proof.
  intros w gaps HL HD HT HG last w1.
  destruct (Clean_resize_restarts w HL HD HT) as [D0 [_ [N0 R0]]].
  destruct (Clean_burst_tail gaps HG (Clean.step EvResize w) D0) as [D1 [N1 R1]].
  destruct (Clean_burst_frame gaps HG (Clean.step EvResize w) D0) as [C1 [F1 H1]].
  destruct (Clean_step_resize_frame w) as [C0 [F0 H0]].
  change (Clean.run (flat_map (fun d => repeat EvTick d ++ [EvResize]) gaps)
            (Clean.step EvResize w)) with w1 in *.
  assert (N : now w1 = last) by (rewrite N1, N0; reflexivity).
  assert (C : children w1 = children w) by (rewrite C1; exact C0).
  assert (R : rendered w1 = rendered w)
    by (unfold rendered; rewrite F1, F0, H1, H0; reflexivity).
  split; [exact N|]. split; [|split; [rewrite R1; exact R0|split; [exact C|split]]].
  - destruct D1 as [_ [_ [id [T _]]]]. exists id. rewrite T, N. reflexivity.
  - intros k Hk. rewrite (Clean_debounce_fires w1 k D1).
    destruct (Clean_debounce_redraws w1 k D1) as [K _]. rewrite K.
    apply Nat.ltb_lt in Hk. rewrite Hk, R1. split; [exact R0|exact C].
  - intros k Hk. rewrite (Clean_debounce_fires w1 k D1).
    destruct (Clean_debounce_redraws w1 k D1) as [K Q].
    assert (K' : children (Clean.run (quiet k) w1) =
                 filter (fun e => negb (is_dot e)) (children w) ++ rendered w).
    { rewrite K. apply Nat.ltb_ge in Hk. rewrite Hk, C, R. reflexivity. }
    split; [apply Nat.ltb_ge in Hk; rewrite Hk, R1, R0, N; reflexivity|].
    split; [exact K'|]. split; [|exact (Q Hk)].
    unfold count_dots. rewrite K', filter_app, filter_not_dot_idem.
    rewrite rendered_all_dots. reflexivity.
Qed.

(** C9 at a concrete run: events at 0, 30 and 129ms after a load at time 0;
    the only redraw after the initial one happens at 229ms. *)
Lemma C9_witness :
  render_times (Clean.run (quiet 100) (Clean.run (burst [30; 99]%nat) (Clean_loaded [hp_center])))
  = [229; 0]%nat
  /\ count_dots
       (Clean.run (quiet 100) (Clean.run (burst [30; 99]%nat) (Clean_loaded [hp_center])))
     = 1%nat.
Proof.
  pose proof (C9_resize_burst_redraws_once (Clean_loaded [hp_center]) [30; 99]%nat
                eq_refl) as H.
  destruct H as [_ [_ [_ [_ [_ H]]]]].
  - discriminate.
  - left. reflexivity.
  - repeat constructor; lia.
  - destruct (H 100%nat (Nat.le_refl _)) as [H1 [_ [H3 _]]].
    split; [exact H1|exact H3].
Defined.

(* ------------------------------------------------------------------ *)
(** ** The map panel *)

Lemma eqb_block (w : World) : display w <> "block" -> (display w =? "block") = false.
Proof. intro H. now apply String.eqb_neq. Qed.


(* ------------------------------------------------------------------ *)
(** ** Reachable states of the clean script *)

Lemma Clean_callback_keeps_timers (cb : Callback) (w : World) :
  timers (Clean.run_callback cb w) = timers w
  /\ resizeTimer (Clean.run_callback cb w) = resizeTimer w.
Proof.
  assert (D : forall v, timers (Clean.drawDotsSafely v) = timers v
                        /\ resizeTimer (Clean.drawDotsSafely v) = resizeTimer v).
  { intro v. unfold Clean.drawDotsSafely, Clean.renderDots. simpl.
    destruct (floorplan v); [rewrite forEach_append|]; split; reflexivity. }
  destruct cb; simpl; try (split; reflexivity); try apply D.
  unfold Clean.ensureDots. destruct (hotspotsData w); [split; reflexivity|apply D].
Qed.

Lemma Clean_callbacks_keep_timers (cbs : list Callback) (w : World) :
  timers (fold_left (fun w cb => Clean.run_callback cb w) cbs w) = timers w
  /\ resizeTimer (fold_left (fun w cb => Clean.run_callback cb w) cbs w) = resizeTimer w.
Proof.
  revert w; induction cbs as [|cb cbs IH]; intro w; simpl; [split; reflexivity|].
  destruct (IH (Clean.run_callback cb w)) as [H1 H2].
  destruct (Clean_callback_keeps_timers cb w) as [H3 H4].
  split; congruence.
Qed.

Lemma timer_tracked_eq (w w' : World) :
  timers w' = timers w -> resizeTimer w' = resizeTimer w ->
  timer_tracked w -> timer_tracked w'.
Proof. unfold timer_tracked. intros -> ->. exact (fun H => H). Qed.

Lemma Clean_tick_tracked (w : World) : timer_tracked w -> timer_tracked (Clean.tick w).
Proof.
  intros [H|[id [dl [H R]]]].
  - left. unfold Clean.tick, tick, due. simpl. rewrite H. simpl. exact H.
  - unfold Clean.tick, tick, due. simpl. rewrite H. simpl.
    destruct (dl <=? S (now w))%nat.
    + left. simpl. rewrite H. simpl. rewrite Nat.eqb_refl. simpl.
      destruct (Clean_callback_keeps_timers CbDrawDotsSafely
                  (drop_timer id (set_now (S (now w)) w))) as [T _].
      simpl in T. rewrite T. unfold drop_timer. simpl. rewrite H. simpl.
      now rewrite Nat.eqb_refl.
    + right. exists id, dl. simpl. split; assumption.
Qed.

Lemma Clean_step_tracked (e : Event) (w : World) :
  timer_tracked w -> timer_tracked (Clean.step e w).
Proof.
  intro I.
  assert (D : forall v, timers (Clean.drawDotsSafely v) = timers v
                        /\ resizeTimer (Clean.drawDotsSafely v) = resizeTimer v)
    by (intro v; apply (Clean_callback_keeps_timers CbDrawDotsSafely v)).
  destruct e; simpl.
  - destruct (has_listener LWheel w); [|exact I].
    unfold wheel. destruct (currentView w); exact I.
  - destruct (has_listener LToggle w); [|exact I].
    unfold Clean.toggle. destruct (display w =? "block"); simpl; [exact I|].
    destruct (hotspotsData w); [exact I|].
    destruct (D (set_display "block" w)) as [T R].
    exact (timer_tracked_eq _ _ T R I).
  - destruct (has_listener LResize w) eqn:L; [|exact I].
    destruct (hotspotsData w) as [|h hs] eqn:E.
    + unfold Clean.resize. rewrite E. exact I.
    + assert (HD : hotspotsData w <> []) by (rewrite E; discriminate).
      destruct (Clean_resize_restarts w L HD I) as [_ [T _]].
      simpl in T. rewrite L in T.
      right. exists (nextTimer w), (now w + 100)%nat. split; [exact T|].
      unfold Clean.resize. rewrite E.
      unfold clearTimeout. destruct (resizeTimer w); reflexivity.
  - exact I.
  - unfold relayout. destruct (floorplan w); exact I.
  - unfold fire_fpLoad.
    destruct (Clean_callbacks_keep_timers (fpLoad_callbacks w) (drop_once_load w)) as [T R].
    exact (timer_tracked_eq _ _ T R I).
  - unfold fire_fpError.
    destruct (Clean_callbacks_keep_timers (fpError_callbacks w) (drop_once_error w)) as [T R].
    exact (timer_tracked_eq _ _ T R I).
  - unfold Clean.childClick. destruct (nth_error (children w) i) as [el|]; [|exact I].
    destruct (onclick el) as [p|p|p|]; simpl; try exact I.
    destruct (truthy p); exact I.
  - unfold settle. destruct (nth_error (fetches w) i) as [k|]; [|exact I].
    destruct k; [|exact I].
    destruct r as [|ok st body]; simpl; [exact I|].
    destruct ok; simpl; [|exact I].
    destruct body as [|v]; [exact I|].
    match goal with |- timer_tracked (Clean.drawDotsSafely ?v) =>
      destruct (D v) as [T R]; exact (timer_tracked_eq _ _ T R I) end.
  - unfold run_frames.
    destruct (Clean_callbacks_keep_timers (frames w) (set_frames [] w)) as [T R].
    exact (timer_tracked_eq _ _ T R I).
  - apply Clean_tick_tracked. exact I.
Qed.

(** Every state the clean script reaches from a fresh page satisfies the
    timer condition assumed of the state before a burst. *)
Lemma Clean_reachable_tracked (lib : bool) (fp : option Floorplan)
  (static : list Element) (evs : list Event) :
  timer_tracked (Clean.run evs (Clean.boot (page lib fp static))).
Proof.
  assert (B : timer_tracked (Clean.boot (page lib fp static))).
  { left. unfold Clean.boot. destruct lib; simpl; [|reflexivity].
    destruct fp as [f|]; simpl; [|reflexivity].
    destruct (complete f && negb (Qeq_bool (naturalWidth f) 0)); reflexivity. }
  revert B. generalize (Clean.boot (page lib fp static)).
  induction evs as [|e evs IH]; intros w I; simpl; [exact I|].
  apply IH, Clean_step_tracked, I.
Qed.

(* ------------------------------------------------------------------ *)
(** ** The 2025.08.05 script in general *)

Lemma count_appends (p : Effect -> bool) (t : nat) (l : list Element)
  (rest : list (nat * Effect)) :
  (forall e, p (AppendChild e) = false) ->
  filter (fun te => p (snd te)) (rev (map (fun e => (t, AppendChild e)) l) ++ rest)
  = filter (fun te => p (snd te)) rest.
Proof.
  intro H. rewrite filter_app.
  rewrite (filter_none (fun te => p (snd te))); [reflexivity|].
  intros [t' e] Hin. apply in_rev, in_map_iff in Hin.
  destruct Hin as [el [E _]]. inversion E. apply H.
Qed.

(** The fetch of the page-load path never alerts, whatever the response. *)
Lemma Aug05_ready_chain_never_alerts (width height : Q) (r : Response) (w : World) :
  count is_alert (Aug05.settle_fetch (KReady width height) r w) = count is_alert w.
Proof.
  unfold count. destruct r as [|ok st [|v]]; simpl; try reflexivity.
  destruct v; simpl; try reflexivity.
  rewrite forEach_append. simpl log.
  now rewrite (count_appends is_alert) by reflexivity.
Qed.

(** Without the library the script still installs its window load
    listener. *)
Lemma Aug05_boot_without_library (w : World) :
  marzipano w = false -> listeners w = [] ->
  listeners (Aug05.boot w) = [LWindowLoad]
  /\ count is_alert (Aug05.boot w) = S (count is_alert w).
Proof.
  intros H L. unfold Aug05.boot. rewrite (Aug05_iife_without_library w H).
  unfold add_listener. simpl. rewrite L. simpl. split; reflexivity.
Qed.

Lemma Aug05_initDots_array (hs : list Hotspot) (w : World) (fp : Floorplan) :
  floorplan w = Some fp ->
  Aug05.initDots (JArray hs) w =
  Some (forEach (fun dot index =>
                   appendChild (Aug05.mkDot DirectLoad
                                  (num_or (rect_width fp) (naturalWidth fp))
                                  (num_or (rect_height fp) (naturalHeight fp))
                                  dot index)) hs 0 w).
Proof. intro H. unfold Aug05.initDots. now rewrite H. Qed.

(** Two redraws in succession, both fetches settling with [hs] afterwards,
    leave two markers per hotspot. *)
Lemma Aug05_overlap_doubles (hs : list Hotspot) (st : string) (w : World) (fp : Floorplan) :
  floorplan w = Some fp -> fetches w = [] ->
  count_dots
    (Aug05.run [EvSettle 0 (Http true st (Json (JArray hs)));
                EvSettle 0 (Http true st (Json (JArray hs)))]
       (Aug05.drawDotsSafely (Aug05.drawDotsSafely w)))
  = (2 * List.length hs)%nat.
Proof.
  intros Hfp Hf. unfold count_dots, Aug05.run. simpl fold_left. unfold settle.
  simpl. rewrite Hf. simpl.
  rewrite (Aug05_initDots_array hs _ fp) by exact Hfp.
  rewrite forEach_append. simpl.
  rewrite (Aug05_initDots_array hs _ fp) by exact Hfp.
  rewrite forEach_append. simpl.
  rewrite !filter_app, filter_idem, filter_not_dot_idem.
  rewrite !filter_dots_mapi by reflexivity.
  simpl. rewrite !length_app, !mapi_from_length. lia.
Qed.

(** One redraw leaves one marker per hotspot. *)
Lemma Aug05_single_redraw (hs : list Hotspot) (st : string) (w : World) (fp : Floorplan) :
  floorplan w = Some fp -> fetches w = [] ->
  count_dots
    (Aug05.run [EvSettle 0 (Http true st (Json (JArray hs)))]
       (Aug05.drawDotsSafely w))
  = List.length hs.
Proof.
  intros Hfp Hf. unfold count_dots, Aug05.run. simpl fold_left. unfold settle.
  simpl. rewrite Hf. simpl.
  rewrite (Aug05_initDots_array hs _ fp) by exact Hfp.
  rewrite forEach_append. simpl.
  rewrite !filter_app, filter_not_dot_idem.
  rewrite !filter_dots_mapi by reflexivity.
  simpl. now rewrite mapi_from_length.
Qed.

(* ------------------------------------------------------------------ *)
(** ** Further properties of the renderers *)

(** X1: in the clean script a redraw with the floorplan present leaves the
    container with its non-marker children, in their order, followed by one
    marker per cached hotspot, in hotspot order; the number of markers is
    the number of cached hotspots. *)
Theorem X1_clean_redraw_contents :
  forall (w : World) (fp : Floorplan),
    floorplan w = Some fp ->
    children (Clean.drawDotsSafely w) =
      filter (fun e => negb (is_dot e)) (children w)
      ++ mapi_from (Clean.mkDot (num_or (rect_width fp) (naturalWidth fp))
                      (num_or (rect_height fp) (naturalHeight fp)))
           (hotspotsData w) 0
    /\ filter (fun e => negb (is_dot e)) (children (Clean.drawDotsSafely w)) =
       filter (fun e => negb (is_dot e)) (children w)
    /\ count_dots (Clean.drawDotsSafely w) = List.length (hotspotsData w).
Proof.
  intros w fp Hfp.
  assert (E : children (Clean.drawDotsSafely w) =
              filter (fun e => negb (is_dot e)) (children w)
              ++ mapi_from (Clean.mkDot (num_or (rect_width fp) (naturalWidth fp))
                              (num_or (rect_height fp) (naturalHeight fp)))
                   (hotspotsData w) 0).
  { rewrite Clean_drawDotsSafely_children. unfold rendered. now rewrite Hfp. }
  split; [exact E|]. rewrite E. split.
  - rewrite filter_app, filter_idem.
    rewrite (filter_negb_of_filter is_dot (mapi_from _ (hotspotsData w) 0))
      by (apply filter_dots_mapi; reflexivity).
    apply app_nil_r.
  - unfold count_dots. rewrite E, filter_app, filter_not_dot_idem.
    rewrite filter_dots_mapi by reflexivity.
    simpl. apply mapi_from_length.
Qed.

Lemma X1_witness :
  count_dots (Clean.drawDotsSafely (Clean_loaded [hp_center; hp_no_photo])) = 2%nat.
Proof.
  destruct (X1_clean_redraw_contents (Clean_loaded [hp_center; hp_no_photo])
              box_200x100 eq_refl) as [_ [_ H]].
  exact H.
Defined.

(** X3: in the clean script a redraw on a page without the floorplan
    element removes every marker, draws none, and reports the missing
    image on the console only. *)
Theorem X3_clean_redraw_without_floorplan :
  forall w : World,
    floorplan w = None ->
    children (Clean.drawDotsSafely w) = filter (fun e => negb (is_dot e)) (children w)
    /\ count_dots (Clean.drawDotsSafely w) = 0%nat
    /\ log (Clean.drawDotsSafely w) =
       (now w, ConsoleError "Floorplan image not found.") :: (now w, QueryDots) :: log w.
Proof.
  intros w H. unfold count_dots, Clean.drawDotsSafely, Clean.renderDots. simpl.
  rewrite H. simpl. rewrite filter_not_dot_idem. repeat split; reflexivity.
Qed.

Lemma X3_witness :
  count_dots (Clean.drawDotsSafely
                (set_children [img; Clean.mkDot 1 1 hp_center 0] (page true None []))) = 0%nat.
Proof.
  destruct (X3_clean_redraw_without_floorplan
              (set_children [img; Clean.mkDot 1 1 hp_center 0] (page true None []))
              eq_refl) as [_ [H _]].
  exact H.
Defined.

(** X4: the renderer of the clean script always gives a marker numeric
    offsets; a hotspot without x (or y) is placed at offset 0 on that
    axis. *)
Theorem X4_clean_missing_coordinate_is_zero :
  forall (w : World) (fp : Floorplan) (hs : list Hotspot) (i : nat) (hp : Hotspot),
    floorplan w = Some fp ->
    nth_error hs i = Some hp ->
    exists el p q,
      nth_error (children (Clean.renderDots hs w)) (List.length (children w) + i) = Some el
      /\ style_left el = Num p /\ style_top el = Num q
      /\ (hp_x hp = None -> p == 0)
      /\ (hp_y hp = None -> q == 0).
Proof.
  intros w fp hs i hp Hfp Hi.
  rewrite (Clean_renderDots_children w fp hs Hfp), nth_error_after.
  rewrite (mapi_from_nth _ _ 0 i hp Hi).
  assert (Z : forall v, exists p, or_zero v = Num p /\ (v = None -> p == 0)).
  { intros [q|].
    - destruct (or_zero_eq q) as [p [E _]]. exists p. split; [exact E|discriminate].
    - exists 0. split; reflexivity. }
  destruct (Z (hp_x hp)) as [p [Ep Hp]]. destruct (Z (hp_y hp)) as [q [Eq Hq]].
  eexists. exists (p * num_or (rect_width fp) (naturalWidth fp)).
  exists (q * num_or (rect_height fp) (naturalHeight fp)).
  split; [reflexivity|]. unfold Clean.mkDot; simpl. rewrite Ep, Eq. simpl.
  split; [reflexivity|]. split; [reflexivity|]. split.
  - intro H. rewrite (Hp H). apply Qmult_0_l.
  - intro H. rewrite (Hq H). apply Qmult_0_l.
Qed.

Lemma X4_witness :
  exists el,
    nth_error (children (Clean.renderDots [mkHotspot None (Some 0.5) None None]
                           (page true (Some box_200x100) []))) 0 = Some el
    /\ exists p, style_left el = Num p /\ p == 0.
Proof.
  destruct (X4_clean_missing_coordinate_is_zero (page true (Some box_200x100) [])
              box_200x100 [mkHotspot None (Some 0.5) None None] 0
              (mkHotspot None (Some 0.5) None None) eq_refl eq_refl)
    as [el [p [q [H1 [H2 [_ [H3 _]]]]]]].
  exists el. split; [exact H1|]. exists p. split; [exact H2|exact (H3 eq_refl)].
Defined.

(** X5: [initDots] of the 2025.08.05 script multiplies the raw property: a
    hotspot without x gets the offset NaN on that axis, and one without y
    likewise. *)
Theorem X5_aug05_missing_coordinate_is_nan :
  forall (w : World) (fp : Floorplan) (hs : list Hotspot) (i : nat) (hp : Hotspot),
    floorplan w = Some fp ->
    nth_error hs i = Some hp ->
    exists w' el,
      Aug05.initDots (JArray hs) w = Some w'
      /\ nth_error (children w') (List.length (children w) + i) = Some el
      /\ (hp_x hp = None -> style_left el = NaN)
      /\ (hp_y hp = None -> style_top el = NaN).
Proof.
  intros w fp hs i hp Hfp Hi.
  unfold Aug05.initDots. rewrite Hfp, forEach_append.
  do 2 eexists. split; [reflexivity|]. simpl children.
  rewrite nth_error_after, (mapi_from_nth _ _ 0 i hp Hi).
  split; [reflexivity|]. unfold Aug05.mkDot; simpl.
  split; intros ->; reflexivity.
Qed.

Lemma X5_witness :
  exists w' el,
    Aug05.initDots (JArray [mkHotspot None (Some 0.5) None None])
      (page true (Some box_200x100) []) = Some w'
    /\ nth_error (children w') 0 = Some el
    /\ style_left el = NaN.
Proof.
  destruct (X5_aug05_missing_coordinate_is_nan (page true (Some box_200x100) [])
              box_200x100 [mkHotspot None (Some 0.5) None None] 0
              (mkHotspot None (Some 0.5) None None) eq_refl eq_refl)
    as [w' [el [H1 [H2 [H3 _]]]]].
  exists w', el. split; [exact H1|]. split; [exact H2|exact (H3 eq_refl)].
Defined.

(** X6: the marker of the hotspot at 0-based position i is titled with the
    hotspot's file name when that is a non-empty string, and with
    "Scene i+1" otherwise. *)
Theorem X6_marker_titles :
  forall (w : World) (fp : Floorplan) (hs : list Hotspot) (i : nat) (hp : Hotspot),
    floorplan w = Some fp ->
    nth_error hs i = Some hp ->
    exists el,
      nth_error (children (Clean.renderDots hs w)) (List.length (children w) + i) = Some el
      /\ (forall s, hp_filename hp = Some s -> s <> "" -> title el = s)
      /\ (truthy (hp_filename hp) = false ->
          title el = ("Scene " ++ string_of_nat (S i))%string).
Proof.
  intros w fp hs i hp Hfp Hi.
  rewrite (Clean_renderDots_children w fp hs Hfp), nth_error_after.
  rewrite (mapi_from_nth _ _ 0 i hp Hi).
  eexists. split; [reflexivity|]. unfold Clean.mkDot, label; simpl.
  replace (i + 1)%nat with (S i) by lia.
  split.
  - intros s E Hs. rewrite E. simpl.
    apply String.eqb_neq in Hs. now rewrite Hs.
  - intro H. destruct (hp_filename hp) as [s|]; [|reflexivity].
    unfold truthy in H |- *. now rewrite H.
Qed.

Lemma X6_witness :
  exists el,
    nth_error (children (Clean.renderDots [hp_no_photo; hp_center]
                           (page true (Some box_200x100) []))) 1 = Some el
    /\ title el = "Scene 2".
Proof.
  destruct (X6_marker_titles (page true (Some box_200x100) []) box_200x100
              [hp_no_photo; hp_center] 1 hp_center eq_refl eq_refl)
    as [el [H1 [_ H2]]].
  exists el. split; [exact H1|exact (H2 eq_refl)].
Defined.

(* ------------------------------------------------------------------ *)
(** ** Further properties of clicks and loads in the clean script *)

Lemma Clean_renderDots_eq (w : World) (fp : Floorplan) (hs : list Hotspot) :
  floorplan w = Some fp ->
  Clean.renderDots hs w =
  set_log (rev (map (fun e => (now w, AppendChild e))
                  (mapi_from (Clean.mkDot (num_or (rect_width fp) (naturalWidth fp))
                                (num_or (rect_height fp) (naturalHeight fp))) hs 0))
           ++ log w)
    (set_children
       (children w ++
        mapi_from (Clean.mkDot (num_or (rect_width fp) (naturalWidth fp))
                     (num_or (rect_height fp) (naturalHeight fp))) hs 0) w).
Proof. intro H. unfold Clean.renderDots. rewrite H. apply forEach_append. Qed.

(** X7: in the clean script, clicking the marker drawn for a hotspot whose
    photo is a non-empty string creates the scene of that photo, switches
    to it with a 1000ms transition, starts the autorotation, and replaces
    the current view by a fresh one with fov 1.2, whatever the zoom was;
    markers and cached data are untouched. *)
Theorem X7_clean_click_loads_scene :
  forall (w : World) (fp : Floorplan) (hs : list Hotspot) (i : nat) (hp : Hotspot),
    floorplan w = Some fp ->
    nth_error hs i = Some hp ->
    truthy (hp_photo hp) = true ->
    let w' := Clean.renderDots hs w in
    let clicked := Clean.childClick (List.length (children w) + i) w' in
    currentView clicked = Some (mkView 0 0 1.2)
    /\ log clicked = scene_log (now w) (hp_photo hp) ++ log w'
    /\ children clicked = children w'
    /\ hotspotsData clicked = hotspotsData w'.
Proof.
  intros w fp hs i hp Hfp Hi Hp w' clicked.
  assert (E : clicked = loadScene (hp_photo hp) w').
  { unfold clicked, Clean.childClick, w'.
    rewrite (Clean_renderDots_children w fp hs Hfp), nth_error_after.
    rewrite (mapi_from_nth _ _ 0 i hp Hi). simpl. now rewrite Hp. }
  rewrite E. unfold w'. rewrite (Clean_renderDots_eq w fp hs Hfp).
  repeat split; reflexivity.
Qed.

Lemma X7_witness :
  currentView
    (Clean.childClick 1
       (Clean.renderDots [hp_center]
          (wheels [-100; -100] (loadScene (Some "b.jpg") (page true (Some box_200x100) [img])))))
  = Some (mkView 0 0 1.2).
Proof.
  destruct (X7_clean_click_loads_scene
              (wheels [-100; -100] (loadScene (Some "b.jpg") (page true (Some box_200x100) [img])))
              box_200x100 [hp_center] 0 hp_center eq_refl eq_refl eq_refl) as [H _].
  exact H.
Defined.

(** X8: in the clean script a successful load of an array caches it and
    redraws: with the floorplan present the container keeps its
    non-marker children and holds exactly one marker per loaded hotspot,
    whatever markers were there before, and no alert is shown. *)
Theorem X8_clean_successful_load :
  forall (w : World) (fp : Floorplan) (hs : list Hotspot) (st : string),
    floorplan w = Some fp ->
    let w' := Clean.settle_fetch KLoadHotspots (Http true st (Json (JArray hs))) w in
    hotspotsData w' = hs
    /\ count_dots w' = List.length hs
    /\ filter (fun e => negb (is_dot e)) (children w') =
       filter (fun e => negb (is_dot e)) (children w)
    /\ count is_alert w' = count is_alert w.
Proof.
  intros w fp hs st Hfp w'.
  assert (E : w' = Clean.drawDotsSafely (set_hotspotsData hs w)) by reflexivity.
  assert (C : children w' =
              filter (fun e => negb (is_dot e)) (children w)
              ++ mapi_from (Clean.mkDot (num_or (rect_width fp) (naturalWidth fp))
                              (num_or (rect_height fp) (naturalHeight fp))) hs 0).
  { rewrite E, Clean_drawDotsSafely_children. unfold rendered. simpl. now rewrite Hfp. }
  split.
  { rewrite E. destruct (Clean_drawDotsSafely_keeps (set_hotspotsData hs w)) as [_ [H _]].
    exact H. }
  split; [|split].
  - unfold count_dots. rewrite C, filter_app, filter_not_dot_idem.
    rewrite filter_dots_mapi by reflexivity. simpl. apply mapi_from_length.
  - rewrite C, filter_app, filter_idem.
    rewrite (filter_negb_of_filter is_dot (mapi_from _ hs 0))
      by (apply filter_dots_mapi; reflexivity).
    apply app_nil_r.
  - rewrite E. unfold count, Clean.drawDotsSafely, Clean.renderDots. simpl.
    rewrite Hfp, forEach_append. simpl log.
    now rewrite (count_appends is_alert) by reflexivity.
Qed.

Lemma X8_witness :
  count_dots
    (Clean.settle_fetch KLoadHotspots (Http true "OK" (Json (JArray [hp_no_photo])))
       (Clean_loaded [hp_center; hp_center])) = 1%nat.
Proof.
  destruct (X8_clean_successful_load (Clean_loaded [hp_center; hp_center]) box_200x100
              [hp_no_photo] "OK" eq_refl) as [_ [H _]].
  exact H.
Defined.

(** A failing load at a concrete state: HTTP 404 after one hotspot was
    cached leaves the cache and the marker in place and alerts once. *)
Lemma Clean_failing_load_witness :
  hotspotsData (Clean.settle_fetch KLoadHotspots not_found (Clean_loaded [hp_center]))
  = [hp_center]
  /\ count is_alert (Clean.settle_fetch KLoadHotspots not_found (Clean_loaded [hp_center]))
     = 1%nat.
Proof.
  destruct (Clean_failing_load_observed not_found (Clean_loaded [hp_center]) eq_refl)
    as [H1 [_ [H2 _]]].
  split; [exact H1|exact H2].
Defined.

(** A non-sequence body at a concrete state: the object [{}] after one
    hotspot was cached empties the cache and the container's markers. *)
Lemma Clean_non_sequence_witness :
  hotspotsData (Clean.settle_fetch KLoadHotspots (Http true "OK" (Json JObject))
                  (Clean_loaded [hp_center])) = []
  /\ count_dots (Clean.settle_fetch KLoadHotspots (Http true "OK" (Json JObject))
                   (Clean_loaded [hp_center])) = 0%nat.
Proof.
  destruct (Clean_non_sequence_coerced JObject "OK" (Clean_loaded [hp_center]) eq_refl)
    as [H1 [H2 _]].
  split; [exact H1|exact H2].
Defined.

(** Overlapping redraws of the 2025.08.05 script at a concrete state. *)
Lemma Aug05_overlap_witness :
  count_dots
    (Aug05.run [EvSettle 0 (Http true "OK" (Json (JArray [hp_center; hp_no_photo])));
                EvSettle 0 (Http true "OK" (Json (JArray [hp_center; hp_no_photo])))]
       (Aug05.drawDotsSafely (Aug05.drawDotsSafely (page true (Some box_200x100) [img]))))
  = 4%nat.
Proof.
  exact (Aug05_overlap_doubles [hp_center; hp_no_photo] "OK"
           (page true (Some box_200x100) [img]) box_200x100 eq_refl eq_refl).
Defined.

(* ------------------------------------------------------------------ *)
(** ** What the event loop preserves *)

Lemma grows_refl (ok : Effect -> bool) (w : World) : grows ok w w.
Proof. exists []. split; reflexivity. Qed.

Lemma grows_trans (ok : Effect -> bool) (w1 w2 w3 : World) :
  grows ok w1 w2 -> grows ok w2 w3 -> grows ok w1 w3.
Proof.
  intros [n1 [E1 F1]] [n2 [E2 F2]]. exists (n2 ++ n1). split.
  - rewrite E2, E1. apply app_assoc.
  - rewrite forallb_app, F1, F2. reflexivity.
Qed.

Lemma grows_mono (ok ok' : Effect -> bool) (w w' : World) :
  (forall e, ok e = true -> ok' e = true) -> grows ok w w' -> grows ok' w w'.
Proof.
  intros H [n [E F]]. exists n. split; [exact E|].
  apply forallb_forall. intros te Hin.
  apply H. exact (proj1 (forallb_forall _ _) F te Hin).
Qed.

Lemma grows_same_log (ok : Effect -> bool) (w w' : World) :
  log w' = log w -> grows ok w w'.
Proof. intro H. exists []. split; [exact H|reflexivity]. Qed.

Lemma grows_emit (ok : Effect -> bool) (e : Effect) (w : World) :
  ok e = true -> grows ok w (emit e w).
Proof. intro H. exists [(now w, e)]. split; [reflexivity|]. simpl. now rewrite H. Qed.

Lemma extends_refl (b : bool) (w : World) : extends_ok b w w.
Proof. split; [reflexivity|apply grows_refl]. Qed.

Lemma extends_trans (b : bool) (w1 w2 w3 : World) :
  extends_ok b w1 w2 -> extends_ok b w2 w3 -> extends_ok b w1 w3.
Proof.
  intros [V1 G1] [V2 G2]. split; [congruence|].
  exact (grows_trans _ _ _ _ G1 G2).
Qed.

Lemma extends_same (b : bool) (w w' : World) :
  currentView w' = currentView w -> log w' = log w -> extends_ok b w w'.
Proof. intros V L. split; [exact V|apply grows_same_log, L]. Qed.

Lemma extends_emit (b : bool) (e : Effect) (w : World) :
  quiet_effect b e = true -> extends_ok b w (emit e w).
Proof. intro H. split; [reflexivity|apply grows_emit, H]. Qed.

Lemma extends_forEach_append {A : Type} (b : bool) (mk : A -> nat -> Element)
  (l : list A) (k : nat) (w : World) :
  extends_ok b w (forEach (fun a index => appendChild (mk a index)) l k w).
Proof.
  rewrite forEach_append. split; [reflexivity|].
  eexists. split; [reflexivity|].
  apply forallb_forall. intros [t e] H.
  apply in_rev, in_map_iff in H. destruct H as [el [E _]]. inversion E.
  reflexivity.
Qed.

Section Preservation.

Variable b : bool.
Variable rc : Callback -> World -> World.
Variable sk : FetchK -> Response -> World -> World.
Hypothesis rc_quiet : forall cb w, extends_ok b w (rc cb w).
Hypothesis sk_quiet : forall k r w, extends_ok b w (sk k r w).

Lemma fire_quiet (ids : list nat) (w : World) : extends_ok b w (fire rc ids w).
Proof.
  revert w; induction ids as [|i ids IH]; intro w; simpl; [apply extends_refl|].
  destruct (find (fun t => (tid t =? i)%nat) (timers w)) as [t|]; [|apply IH].
  apply (extends_trans b w (rc (tcb t) (drop_timer i w))); [|apply IH].
  apply (extends_trans b w (drop_timer i w)); [|apply rc_quiet].
  apply extends_same; reflexivity.
Qed.

Lemma tick_quiet (w : World) : extends_ok b w (tick rc w).
Proof.
  unfold tick.
  apply (extends_trans b w (set_now (S (now w)) w)); [|apply fire_quiet].
  apply extends_same; reflexivity.
Qed.

Lemma callbacks_quiet (cbs : list Callback) (w : World) :
  extends_ok b w (fold_left (fun w cb => rc cb w) cbs w).
Proof.
  revert w; induction cbs as [|cb cbs IH]; intro w; simpl; [apply extends_refl|].
  exact (extends_trans b _ _ _ (rc_quiet cb w) (IH _)).
Qed.

Lemma run_frames_quiet (w : World) : extends_ok b w (run_frames rc w).
Proof.
  unfold run_frames.
  apply (extends_trans b w (set_frames [] w)); [|apply callbacks_quiet].
  apply extends_same; reflexivity.
Qed.

Lemma fire_fpLoad_quiet (w : World) : extends_ok b w (fire_fpLoad rc w).
Proof.
  unfold fire_fpLoad.
  apply (extends_trans b w (drop_once_load w)); [|apply callbacks_quiet].
  apply extends_same; reflexivity.
Qed.

Lemma fire_fpError_quiet (w : World) : extends_ok b w (fire_fpError rc w).
Proof.
  unfold fire_fpError.
  apply (extends_trans b w (drop_once_error w)); [|apply callbacks_quiet].
  apply extends_same; reflexivity.
Qed.

Lemma settle_quiet (i : nat) (r : Response) (w : World) :
  extends_ok b w (settle sk i r w).
Proof.
  unfold settle. destruct (nth_error (fetches w) i) as [k|]; [|apply extends_refl].
  eapply extends_trans; [|apply sk_quiet].
  apply extends_same; reflexivity.
Qed.

End Preservation.

Lemma relayout_quiet (b : bool) (fp : Floorplan) (w : World) :
  extends_ok b w (relayout fp w).
Proof.
  unfold relayout. destruct (floorplan w); [|apply extends_refl].
  apply extends_same; reflexivity.
Qed.

(** *** The clean script *)

Lemma Clean_drawDotsSafely_quiet (w : World) : extends_ok true w (Clean.drawDotsSafely w).
Proof.
  unfold Clean.drawDotsSafely.
  apply (extends_trans true w (removeDots w)).
  - unfold removeDots.
    eapply extends_trans; [|apply extends_emit; reflexivity].
    apply extends_same; reflexivity.
  - unfold Clean.renderDots. simpl hotspotsData.
    destruct (floorplan (removeDots w)).
    + apply extends_forEach_append.
    + apply extends_emit. reflexivity.
Qed.

Lemma Clean_loadHotspots_quiet (w : World) : extends_ok true w (Clean.loadHotspots w).
Proof.
  unfold Clean.loadHotspots, fetch.
  eapply extends_trans; [|apply extends_emit; reflexivity].
  apply extends_same; reflexivity.
Qed.

Lemma Clean_callback_quiet (cb : Callback) (w : World) :
  extends_ok true w (Clean.run_callback cb w).
Proof.
  destruct cb; simpl; try apply extends_refl.
  - apply Clean_drawDotsSafely_quiet.
  - unfold Clean.ensureDots. destruct (hotspotsData w);
      [apply Clean_loadHotspots_quiet|apply Clean_drawDotsSafely_quiet].
  - apply extends_emit. reflexivity.
Qed.

Lemma Clean_catch_quiet (err : string) (w : World) :
  extends_ok true w (Clean.catch_load err w).
Proof.
  unfold Clean.catch_load, alert.
  eapply extends_trans; apply extends_emit; reflexivity.
Qed.

Lemma Clean_settle_fetch_quiet (k : FetchK) (r : Response) (w : World) :
  extends_ok true w (Clean.settle_fetch k r w).
Proof.
  destruct k; [|apply extends_refl].
  destruct r as [|ok st body]; simpl; [apply Clean_catch_quiet|].
  destruct ok; simpl; [|apply Clean_catch_quiet].
  destruct body as [|v]; [apply Clean_catch_quiet|].
  eapply extends_trans; [|apply Clean_drawDotsSafely_quiet].
  apply extends_same; reflexivity.
Qed.

Lemma Clean_toggle_quiet (w : World) : extends_ok true w (Clean.toggle w).
Proof.
  unfold Clean.toggle. destruct (display w =? "block"); simpl.
  - apply extends_same; reflexivity.
  - destruct (hotspotsData w).
    + eapply extends_trans; [|apply Clean_loadHotspots_quiet].
      apply extends_same; reflexivity.
    + eapply extends_trans; [|apply Clean_drawDotsSafely_quiet].
      apply extends_same; reflexivity.
Qed.

Lemma Clean_resize_quiet (w : World) : extends_ok true w (Clean.resize w).
Proof.
  unfold Clean.resize. destruct (hotspotsData w); [apply extends_refl|].
  split; [unfold clearTimeout; destruct (resizeTimer w); reflexivity|].
  exists [(now w, SetTimeout (nextTimer w) 100); (now w, ClearTimeout (resizeTimer w))].
  split; [|reflexivity].
  unfold clearTimeout. destruct (resizeTimer w); reflexivity.
Qed.

(** Apart from wheel events and marker clicks, no event of the clean
    script touches the active view, creates a scene, suppresses a default
    action or fetches without [no-store]. *)
Lemma Clean_background_quiet (e : Event) (w : World) :
  background e = true -> extends_ok true w (Clean.step e w).
Proof.
  destruct e; simpl; try discriminate; intros _.
  - destruct (has_listener LToggle w); [apply Clean_toggle_quiet|apply extends_refl].
  - destruct (has_listener LResize w); [apply Clean_resize_quiet|apply extends_refl].
  - apply extends_refl.
  - apply relayout_quiet.
  - apply fire_fpLoad_quiet, Clean_callback_quiet.
  - apply fire_fpError_quiet, Clean_callback_quiet.
  - apply settle_quiet, Clean_settle_fetch_quiet.
  - apply run_frames_quiet, Clean_callback_quiet.
  - apply tick_quiet, Clean_callback_quiet.
Qed.

(** *** The 2025.08.05 script *)

Lemma removeDots_quiet (b : bool) (w : World) : extends_ok b w (removeDots w).
Proof.
  unfold removeDots.
  eapply extends_trans; [|apply extends_emit; destruct b; reflexivity].
  apply extends_same; reflexivity.
Qed.

Lemma Aug05_drawDotsSafely_quiet (w : World) : extends_ok false w (Aug05.drawDotsSafely w).
Proof.
  unfold Aug05.drawDotsSafely, Aug05.loadHotspots, fetch.
  eapply extends_trans; [apply removeDots_quiet|].
  eapply extends_trans; [|apply extends_emit; reflexivity].
  apply extends_same; reflexivity.
Qed.

Lemma add_listener_quiet (b : bool) (l : Listener) (w : World) :
  extends_ok b w (add_listener l w).
Proof.
  unfold add_listener. destruct (in_dec Listener_eq_dec l (listeners w));
    [apply extends_refl|apply extends_same; reflexivity].
Qed.

Lemma Aug05_drawDotsWhenReady_quiet (r : nat) (w : World) :
  extends_ok false w (Aug05.drawDotsWhenReady r w).
Proof.
  unfold Aug05.drawDotsWhenReady.
  destruct (floorplan w) as [fp|]; [|apply extends_emit; reflexivity].
  destruct (complete fp && negb (Qle_bool (rect_width fp) 0)
            && negb (Qle_bool (rect_height fp) 0)).
  - unfold fetch.
    eapply extends_trans; [apply removeDots_quiet|].
    eapply extends_trans; [|apply extends_emit; reflexivity].
    apply extends_same; reflexivity.
  - destruct (0 <? r)%nat; [|apply extends_emit; reflexivity].
    split; [reflexivity|].
    exists [(now w, SetTimeout (nextTimer w) 100)]. split; reflexivity.
Qed.

Lemma Aug05_callback_quiet (cb : Callback) (w : World) :
  extends_ok false w (Aug05.run_callback cb w).
Proof.
  destruct cb; simpl; try apply extends_refl.
  - apply Aug05_drawDotsSafely_quiet.
  - unfold Aug05.toggleFrame. destruct (floorplan w) as [fp|].
    + destruct (complete fp); [apply Aug05_drawDotsSafely_quiet|apply add_listener_quiet].
    + apply extends_emit. reflexivity.
  - apply Aug05_drawDotsWhenReady_quiet.
Qed.

Lemma Aug05_catch_quiet (err : string) (w : World) :
  extends_ok false w (Aug05.catch_load err w).
Proof.
  unfold Aug05.catch_load, alert.
  eapply extends_trans; apply extends_emit; reflexivity.
Qed.

Lemma Aug05_settle_fetch_quiet (k : FetchK) (r : Response) (w : World) :
  extends_ok false w (Aug05.settle_fetch k r w).
Proof.
  destruct k as [|width height].
  - destruct r as [|ok st body]; simpl; [apply Aug05_catch_quiet|].
    destruct ok; simpl; [|apply Aug05_catch_quiet].
    destruct body as [|v]; [apply Aug05_catch_quiet|].
    apply (extends_trans false w (emit (ConsoleLog "Hotspots loaded:") w));
      [apply extends_emit; reflexivity|].
    unfold Aug05.initDots. simpl floorplan.
    destruct (floorplan w) as [fp|]; [|apply Aug05_catch_quiet].
    destruct v; try apply Aug05_catch_quiet.
    apply extends_forEach_append.
  - destruct r as [|ok st [|v]]; simpl; try (apply extends_emit; reflexivity).
    destruct v; try (apply extends_emit; reflexivity).
    apply extends_forEach_append.
Qed.

Lemma Aug05_toggle_quiet (w : World) : extends_ok false w (Aug05.toggle w).
Proof.
  unfold Aug05.toggle. destruct (display w =? "block"); simpl.
  - apply extends_same; reflexivity.
  - unfold requestAnimationFrame.
    eapply extends_trans; [|apply extends_emit; reflexivity].
    apply extends_same; reflexivity.
Qed.

Lemma Aug05_windowLoad_quiet (w : World) : extends_ok false w (Aug05.windowLoad w).
Proof.
  unfold Aug05.windowLoad.
  eapply extends_trans; [|apply Aug05_drawDotsWhenReady_quiet].
  apply extends_same; reflexivity.
Qed.

Lemma Aug05_background_quiet (e : Event) (w : World) :
  background e = true -> extends_ok false w (Aug05.step e w).
Proof.
  destruct e; simpl; try discriminate; intros _.
  - destruct (has_listener LToggle w); [apply Aug05_toggle_quiet|apply extends_refl].
  - apply extends_refl.
  - destruct (has_listener LWindowLoad w); [apply Aug05_windowLoad_quiet|apply extends_refl].
  - apply relayout_quiet.
  - apply fire_fpLoad_quiet, Aug05_callback_quiet.
  - apply fire_fpError_quiet, Aug05_callback_quiet.
  - apply settle_quiet, Aug05_settle_fetch_quiet.
  - apply run_frames_quiet, Aug05_callback_quiet.
  - apply tick_quiet, Aug05_callback_quiet.
Qed.

(** *** Invariants *)

Lemma view_ok_extends (b : bool) (w w' : World) :
  extends_ok b w w' -> view_ok w -> view_ok w'.
Proof. intros [V _]. unfold view_ok. now rewrite V. Qed.

Lemma view_ok_wheel (d : Q) (w : World) : view_ok w -> view_ok (wheel d w).
Proof.
  intro H. unfold wheel. destruct (currentView w) as [v|] eqn:E; [|exact H].
  unfold view_ok. simpl. apply clamp_fov_range.
Qed.

Lemma view_ok_loadScene (p : option string) (w : World) : view_ok (loadScene p w).
Proof. unfold view_ok. simpl. split; lra. Qed.

Lemma quiet_fetch_ok (b : bool) (e : Effect) :
  quiet_effect b e = true -> fetch_ok b e = true.
Proof. unfold quiet_effect. intro H. now apply andb_true_iff in H. Qed.

Lemma quiet_scene_free (b : bool) (e : Effect) :
  quiet_effect b e = true -> scene_free e = true.
Proof. unfold quiet_effect. intro H. now apply andb_true_iff in H. Qed.

Lemma fetches_are_grows (b : bool) (w w' : World) :
  grows (fetch_ok b) w w' -> fetches_are b w -> fetches_are b w'.
Proof.
  intros [n [E F]] H. unfold fetches_are in *. now rewrite E, forallb_app, F, H.
Qed.

Lemma grows_wheel (b : bool) (d : Q) (w : World) : grows (fetch_ok b) w (wheel d w).
Proof.
  unfold wheel. destruct (currentView w); [|apply grows_refl].
  exists [(now w, PreventDefault)]. split; reflexivity.
Qed.

Lemma grows_loadScene (b : bool) (p : option string) (w : World) :
  grows (fetch_ok b) w (loadScene p w).
Proof. exists (scene_log (now w) p). split; reflexivity. Qed.

Lemma Clean_step_view_ok (e : Event) (w : World) : view_ok w -> view_ok (Clean.step e w).
Proof.
  intro H. destruct (background e) eqn:B.
  - exact (view_ok_extends true _ _ (Clean_background_quiet e w B) H).
  - destruct e; try discriminate; simpl.
    + destruct (has_listener LWheel w); [apply view_ok_wheel, H|exact H].
    + unfold Clean.childClick. destruct (nth_error (children w) i) as [el|]; [|exact H].
      destruct (onclick el) as [p|p|p|]; simpl; try exact H.
      destruct (truthy p); [apply view_ok_loadScene|exact H].
Qed.

Lemma Aug05_step_view_ok (e : Event) (w : World) : view_ok w -> view_ok (Aug05.step e w).
Proof.
  intro H. destruct (background e) eqn:B.
  - exact (view_ok_extends false _ _ (Aug05_background_quiet e w B) H).
  - destruct e; try discriminate; simpl.
    + destruct (has_listener LWheel w); [apply view_ok_wheel, H|exact H].
    + unfold Aug05.childClick. destruct (nth_error (children w) i) as [el|]; [|exact H].
      destruct (onclick el) as [p|p|p|]; simpl; try exact H.
      apply view_ok_loadScene.
Qed.

(** X11: in the clean script, whatever events arrive after the script has
    started on a fresh page (wheel events, marker clicks, toggles,
    resizes, image events, fetch results, timers), the fov of the current
    view, when there is one, is within [0.4, 1.5]. *)
Theorem X11_clean_fov_invariant :
  forall (lib : bool) (fp : option Floorplan) (static : list Element) (evs : list Event),
    view_ok (Clean.run evs (Clean.boot (page lib fp static))).
Proof.
  intros lib fp static evs.
  assert (B : view_ok (Clean.boot (page lib fp static))).
  { unfold view_ok, Clean.boot. destruct lib; simpl; [|exact I].
    destruct fp as [f|]; simpl; [|exact I].
    destruct (complete f && negb (Qeq_bool (naturalWidth f) 0)); exact I. }
  revert B. generalize (Clean.boot (page lib fp static)).
  induction evs as [|e evs IH]; intros w H; simpl; [exact H|].
  apply IH, Clean_step_view_ok, H.
Qed.

(** X12: the same invariant for the 2025.08.05 script. *)
Theorem X12_aug05_fov_invariant :
  forall (lib : bool) (fp : option Floorplan) (static : list Element) (evs : list Event),
    view_ok (Aug05.run evs (Aug05.boot (page lib fp static))).
Proof.
  intros lib fp static evs.
  assert (B : view_ok (Aug05.boot (page lib fp static))).
  { unfold view_ok, Aug05.boot, Aug05.iife. destruct lib; exact I. }
  revert B. generalize (Aug05.boot (page lib fp static)).
  induction evs as [|e evs IH]; intros w H; simpl; [exact H|].
  apply IH, Aug05_step_view_ok, H.
Qed.

Lemma no_scene_extends (b : bool) (w w' : World) :
  extends_ok b w w' -> no_scene_yet w -> no_scene_yet w'.
Proof.
  intros [V G] [H1 H2]. split; [congruence|].
  destruct (grows_mono _ scene_free _ _ (quiet_scene_free b) G) as [n [E F]].
  now rewrite E, forallb_app, F, H2.
Qed.

Lemma no_scene_wheel (d : Q) (w : World) : no_scene_yet w -> wheel d w = w.
Proof. intros [H _]. unfold wheel. now rewrite H. Qed.

(** X13: in both scripts no scene exists until a marker is clicked: for
    every sequence of events without a marker click, after the script has
    started on a fresh page, there is no current view, no scene was
    created, and no wheel event had its default action suppressed. *)
Theorem X13_no_scene_before_first_click :
  forall (lib : bool) (fp : option Floorplan) (static : list Element) (evs : list Event),
    forallb not_click evs = true ->
    no_scene_yet (Clean.run evs (Clean.boot (page lib fp static)))
    /\ no_scene_yet (Aug05.run evs (Aug05.boot (page lib fp static))).
Proof.
  intros lib fp static evs Hc. split.
  - assert (B : no_scene_yet (Clean.boot (page lib fp static))).
    { unfold no_scene_yet, Clean.boot. destruct lib; simpl; [|split; reflexivity].
      destruct fp as [f|]; simpl; [|split; reflexivity].
      destruct (complete f && negb (Qeq_bool (naturalWidth f) 0)); split; reflexivity. }
    revert B Hc. generalize (Clean.boot (page lib fp static)).
    induction evs as [|e evs IH]; intros w H Hc; simpl; [exact H|].
    simpl in Hc. apply andb_true_iff in Hc. destruct Hc as [He Hc].
    apply IH; [|exact Hc].
    destruct (background e) eqn:B.
    + exact (no_scene_extends true _ _ (Clean_background_quiet e w B) H).
    + destruct e; try discriminate. simpl.
      destruct (has_listener LWheel w); [|exact H].
      now rewrite (no_scene_wheel deltaY w H).
  - assert (B : no_scene_yet (Aug05.boot (page lib fp static))).
    { unfold no_scene_yet, Aug05.boot, Aug05.iife. destruct lib; split; reflexivity. }
    revert B Hc. generalize (Aug05.boot (page lib fp static)).
    induction evs as [|e evs IH]; intros w H Hc; simpl; [exact H|].
    simpl in Hc. apply andb_true_iff in Hc. destruct Hc as [He Hc].
    apply IH; [|exact Hc].
    destruct (background e) eqn:B.
    + exact (no_scene_extends false _ _ (Aug05_background_quiet e w B) H).
    + destruct e; try discriminate. simpl.
      destruct (has_listener LWheel w); [|exact H].
      now rewrite (no_scene_wheel deltaY w H).
Qed.

Lemma X13_witness :
  currentView
    (Clean.run [EvSettle 0 (ok_with (JArray [hp_center])); EvWheel 50; EvToggleClick; EvResize]
       (Clean.boot (page true (Some box_200x100) [img]))) = None.
Proof.
  destruct (X13_no_scene_before_first_click true (Some box_200x100) [img]
              [EvSettle 0 (ok_with (JArray [hp_center])); EvWheel 50; EvToggleClick; EvResize]
              eq_refl) as [[H _] _].
  exact H.
Defined.

Lemma Clean_step_fetches (e : Event) (w : World) :
  fetches_are true w -> fetches_are true (Clean.step e w).
Proof.
  apply fetches_are_grows. destruct (background e) eqn:B.
  - destruct (Clean_background_quiet e w B) as [_ G].
    exact (grows_mono _ _ _ _ (quiet_fetch_ok true) G).
  - destruct e; try discriminate; simpl.
    + destruct (has_listener LWheel w); [apply grows_wheel|apply grows_refl].
    + unfold Clean.childClick. destruct (nth_error (children w) i) as [el|];
        [|apply grows_refl].
      destruct (onclick el) as [p|p|p|]; simpl; try apply grows_refl.
      destruct (truthy p); [apply grows_loadScene|apply grows_refl].
Qed.

Lemma Aug05_step_fetches (e : Event) (w : World) :
  fetches_are false w -> fetches_are false (Aug05.step e w).
Proof.
  apply fetches_are_grows. destruct (background e) eqn:B.
  - destruct (Aug05_background_quiet e w B) as [_ G].
    exact (grows_mono _ _ _ _ (quiet_fetch_ok false) G).
  - destruct e; try discriminate; simpl.
    + destruct (has_listener LWheel w); [apply grows_wheel|apply grows_refl].
    + unfold Aug05.childClick. destruct (nth_error (children w) i) as [el|];
        [|apply grows_refl].
      destruct (onclick el) as [p|p|p|]; simpl; try apply grows_refl.
      * apply grows_loadScene.
      * apply grows_emit. reflexivity.
Qed.

(** X14: every fetch the clean script ever issues bypasses the HTTP cache
    ([cache: 'no-store']), whatever events arrive after its start on a
    fresh page. *)
Theorem X14_clean_fetches_bypass_cache :
  forall (lib : bool) (fp : option Floorplan) (static : list Element) (evs : list Event),
    fetches_are true (Clean.run evs (Clean.boot (page lib fp static))).
Proof.
  intros lib fp static evs.
  assert (B : fetches_are true (Clean.boot (page lib fp static))).
  { unfold fetches_are, Clean.boot. destruct lib; simpl; [|reflexivity].
    destruct fp as [f|]; simpl; [|reflexivity].
    destruct (complete f && negb (Qeq_bool (naturalWidth f) 0)); reflexivity. }
  revert B. generalize (Clean.boot (page lib fp static)).
  induction evs as [|e evs IH]; intros w H; simpl; [exact H|].
  apply IH, Clean_step_fetches, H.
Qed.

(** X15: the 2025.08.05 script never asks to bypass the HTTP cache: every
    fetch it issues, on the toggle path and on the page-load path, uses
    the default cache mode. *)
Theorem X15_aug05_fetches_use_cache :
  forall (lib : bool) (fp : option Floorplan) (static : list Element) (evs : list Event),
    fetches_are false (Aug05.run evs (Aug05.boot (page lib fp static))).
Proof.
  intros lib fp static evs.
  assert (B : fetches_are false (Aug05.boot (page lib fp static))).
  { unfold fetches_are, Aug05.boot, Aug05.iife. destruct lib; reflexivity. }
  revert B. generalize (Aug05.boot (page lib fp static)).
  induction evs as [|e evs IH]; intros w H; simpl; [exact H|].
  apply IH, Aug05_step_fetches, H.
Qed.

(* ------------------------------------------------------------------ *)
(** ** The clean script without the library *)

Lemma plain_nth (static : list Element) (i : nat) (el : Element) :
  plain static -> nth_error static i = Some el -> onclick el = NoHandler.
Proof.
  intros H E. apply nth_error_In in E.
  exact (proj1 (Forall_forall _ _) H el E).
Qed.

Lemma Clean_step_inert (static : list Element) (e : Event) (w : World) :
  plain static -> inert static w -> inert static (Clean.step e w).
Proof.
  intros Hs [L [T [F [Fr [C [V [CV [HD [D Lg]]]]]]]]].
  destruct e; simpl.
  - unfold has_listener. rewrite L. simpl. repeat split; assumption.
  - unfold has_listener. rewrite L. simpl. repeat split; assumption.
  - unfold has_listener. rewrite L. simpl. repeat split; assumption.
  - repeat split; assumption.
  - unfold relayout. destruct (floorplan w); repeat split; assumption.
  - unfold fire_fpLoad, fpLoad_callbacks, drop_once_load. rewrite L. simpl.
    repeat split; assumption.
  - unfold fire_fpError, fpError_callbacks, drop_once_error. rewrite L. simpl.
    repeat split; assumption.
  - unfold Clean.childClick. rewrite C.
    destruct (nth_error static i) as [el|] eqn:E; [|repeat split; assumption].
    rewrite (plain_nth static i el Hs E). simpl. repeat split; assumption.
  - unfold settle. rewrite F. destruct i; simpl; repeat split; assumption.
  - unfold run_frames. rewrite Fr. simpl. repeat split; assumption.
  - unfold Clean.tick, tick, due. simpl. rewrite T. simpl. repeat split; assumption.
Qed.

(** X19: in the clean script nothing follows the alert about the missing
    library: on a page whose static container children carry no listener,
    whatever events arrive, no listener, timer, fetch or frame callback is
    ever installed, no viewer is built, the container keeps its static
    children, and the log holds that one alert. *)
Theorem X19_clean_inert_without_library :
  forall (fp : option Floorplan) (static : list Element) (evs : list Event),
    plain static ->
    inert static (Clean.run evs (Clean.boot (page false fp static))).
Proof.
  intros fp static evs Hs.
  assert (B : inert static (Clean.boot (page false fp static)))
    by (unfold inert; repeat split; reflexivity).
  revert B. generalize (Clean.boot (page false fp static)).
  induction evs as [|e evs IH]; intros w H; simpl; [exact H|].
  apply IH, Clean_step_inert; assumption.
Qed.

Lemma X19_witness :
  log (Clean.run [EvToggleClick; EvWheel 10; EvResize; EvFloorplanLoad; EvTick; EvChildClick 0]
         (Clean.boot (page false (Some box_200x100) [img])))
  = [(0%nat, Alert msg_no_marzipano)].
Proof.
  destruct (X19_clean_inert_without_library (Some box_200x100) [img]
              [EvToggleClick; EvWheel 10; EvResize; EvFloorplanLoad; EvTick; EvChildClick 0])
    as [_ [_ [_ [_ [_ [_ [_ [_ [_ H]]]]]]]]].
  - repeat constructor.
  - exact H.
Defined.

(* ------------------------------------------------------------------ *)
(** ** The clean script waiting for the floorplan image *)

Lemma flat_map_filter_nil {A B : Type} (f : A -> list B) (g : A -> bool) (l : list A) :
  flat_map f l = [] -> flat_map f (filter g l) = [].
Proof.
  induction l as [|a l IH]; simpl; [reflexivity|]. intro H.
  apply app_eq_nil in H. destruct H as [Ha Hl].
  destruct (g a); simpl; [rewrite Ha|]; auto.
Qed.

Lemma Clean_run_cons (e : Event) (evs : list Event) (w : World) :
  Clean.run (e :: evs) w = Clean.run evs (Clean.step e w).
Proof. reflexivity. Qed.

Lemma Clean_loads_without_listener (n : nat) (w : World) :
  fpLoad_callbacks w = [] ->
  log (Clean.run (repeat EvFloorplanLoad n) w) = log w.
Proof.
  revert w; induction n as [|n IH]; intros w H; [reflexivity|].
  simpl repeat.
  change (log (Clean.run (repeat EvFloorplanLoad n) (fire_fpLoad Clean.run_callback w))
          = log w).
  assert (E : fire_fpLoad Clean.run_callback w = drop_once_load w)
    by (unfold fire_fpLoad; now rewrite H).
  rewrite E, IH; [reflexivity|].
  unfold fpLoad_callbacks, drop_once_load. simpl.
  now apply flat_map_filter_nil.
Qed.

Lemma Clean_errors_without_listener (n : nat) (w : World) :
  fpError_callbacks w = [] ->
  log (Clean.run (repeat EvFloorplanError n) w) = log w.
Proof.
  revert w; induction n as [|n IH]; intros w H; [reflexivity|].
  simpl repeat.
  change (log (Clean.run (repeat EvFloorplanError n) (fire_fpError Clean.run_callback w))
          = log w).
  assert (E : fire_fpError Clean.run_callback w = drop_once_error w)
    by (unfold fire_fpError; now rewrite H).
  rewrite E, IH; [reflexivity|].
  unfold fpError_callbacks, drop_once_error. simpl.
  now apply flat_map_filter_nil.
Qed.

(** X17: when the clean script starts before the floorplan image has
    loaded (not complete, or no intrinsic width yet), it issues no fetch
    at start; the first load event of the image issues exactly one fetch,
    and any number of further load events issue none: the listener is
    registered once. *)
Theorem X17_clean_waits_for_image_load_once :
  forall (fp : Floorplan) (static : list Element) (n : nat),
    complete fp && negb (Qeq_bool (naturalWidth fp) 0) = false ->
    count is_fetch (Clean.boot (page true (Some fp) static)) = 0%nat
    /\ log (Clean.run (repeat EvFloorplanLoad (S n)) (Clean.boot (page true (Some fp) static)))
       = (0%nat, Fetch true) :: log (Clean.boot (page true (Some fp) static))
    /\ fetches (Clean.run [EvFloorplanLoad] (Clean.boot (page true (Some fp) static)))
       = [KLoadHotspots].
Proof.
  intros fp static n H.
  assert (B : Clean.boot (page true (Some fp) static) =
              add_listener (LFpError CbFloorplanAlert true)
                (add_listener (LFpLoad CbEnsureDots true)
                   (set_display "block"
                      (add_listener LResize
                         (set_resizeTimer None
                            (add_listener LToggle
                               (add_listener LWheel
                                  (set_hotspotsData []
                                     (set_currentView None
                                        (makeViewer (page true (Some fp) static))))))))))).
  { unfold Clean.boot. simpl. now rewrite H. }
  split; [rewrite B; reflexivity|]. split; [|rewrite B; reflexivity].
  simpl repeat. rewrite Clean_run_cons.
  rewrite Clean_loads_without_listener; rewrite B; vm_compute; reflexivity.
Qed.

Lemma X17_witness :
  count is_fetch
    (Clean.run (repeat EvFloorplanLoad 3) (Clean.boot (page true (Some box_not_ready) [img])))
  = 1%nat.
Proof.
  destruct (X17_clean_waits_for_image_load_once box_not_ready [img] 2 eq_refl)
    as [_ [H _]].
  unfold count. rewrite H. reflexivity.
Defined.

(** X18: when the clean script is waiting for the floorplan image and the
    image fails to load, one alert about the floorplan is shown, however
    often the error event fires, and no fetch is issued. *)
Theorem X18_clean_image_error_alerts_once :
  forall (fp : Floorplan) (static : list Element) (n : nat),
    complete fp && negb (Qeq_bool (naturalWidth fp) 0) = false ->
    log (Clean.run (repeat EvFloorplanError (S n)) (Clean.boot (page true (Some fp) static)))
    = (0%nat, Alert Clean.msg_floorplan_failed)
        :: log (Clean.boot (page true (Some fp) static))
    /\ count is_fetch
         (Clean.run (repeat EvFloorplanError (S n)) (Clean.boot (page true (Some fp) static)))
       = 0%nat.
Proof.
  intros fp static n H.
  assert (B : Clean.boot (page true (Some fp) static) =
              add_listener (LFpError CbFloorplanAlert true)
                (add_listener (LFpLoad CbEnsureDots true)
                   (set_display "block"
                      (add_listener LResize
                         (set_resizeTimer None
                            (add_listener LToggle
                               (add_listener LWheel
                                  (set_hotspotsData []
                                     (set_currentView None
                                        (makeViewer (page true (Some fp) static))))))))))).
  { unfold Clean.boot. simpl. now rewrite H. }
  assert (L : log (Clean.run (repeat EvFloorplanError (S n))
                     (Clean.boot (page true (Some fp) static)))
              = (0%nat, Alert Clean.msg_floorplan_failed)
                  :: log (Clean.boot (page true (Some fp) static))).
  { simpl repeat. rewrite Clean_run_cons.
    rewrite Clean_errors_without_listener; rewrite B; vm_compute; reflexivity. }
  split; [exact L|]. unfold count. rewrite L, B. reflexivity.
Qed.

Lemma X18_witness :
  count is_alert
    (Clean.run (repeat EvFloorplanError 2) (Clean.boot (page true (Some box_not_ready) [img])))
  = 1%nat.
Proof.
  destruct (X18_clean_image_error_alerts_once box_not_ready [img] 1 eq_refl) as [H _].
  unfold count. rewrite H. reflexivity.
Defined.

(* ------------------------------------------------------------------ *)
(** ** The page-load path of the 2025.08.05 script *)

Lemma Aug05_windowLoad_ready (w : World) (fp : Floorplan) :
  floorplan w = Some fp -> fullyRendered fp = true ->
  Aug05.windowLoad w =
  fetch false (KReady (rect_width fp) (rect_height fp))
    (removeDots (set_display "block" w)).
Proof.
  intros Hfp Hr. unfold Aug05.windowLoad, Aug05.drawDotsWhenReady. simpl.
  rewrite Hfp. unfold fullyRendered in Hr. now rewrite Hr.
Qed.

Lemma Aug05_ready_chain_array (width height : Q) (ok : bool) (st : string)
  (hs : list Hotspot) (w : World) :
  Aug05.settle_fetch (KReady width height) (Http ok st (Json (JArray hs))) w =
  set_log (rev (map (fun e => (now w, AppendChild e))
                  (mapi_from (Aug05.mkDot GlobalLoad width height) hs 0)) ++ log w)
    (set_children (children w ++ mapi_from (Aug05.mkDot GlobalLoad width height) hs 0) w).
Proof. simpl. apply forEach_append. Qed.

(** X20: on the page-load path of the 2025.08.05 script the markers are
    placed against the box measured when the image was found ready: if the
    layout changes while the fetch is in flight, the markers still sit at
    (x * W, y * H) for the earlier width W and height H. *)
Theorem X20_aug05_page_load_uses_earlier_box :
  forall (w : World) (fp fp' : Floorplan) (ok : bool) (st : string)
         (hs : list Hotspot) (i : nat) (hp : Hotspot) (px py : Q),
    floorplan w = Some fp -> fullyRendered fp = true ->
    fetches w = [] ->
    nth_error hs i = Some hp ->
    hp_x hp = Some px -> hp_y hp = Some py ->
    let w' := Aug05.run [EvLayout fp'; EvSettle 0 (Http ok st (Json (JArray hs)))]
                (Aug05.windowLoad w) in
    floorplan w' = Some fp'
    /\ exists el,
         nth_error (children w')
           (List.length (filter (fun e => negb (is_dot e)) (children w)) + i) = Some el
         /\ style_left el = Num (px * rect_width fp)
         /\ style_top el = Num (py * rect_height fp).
Proof.
  intros w fp fp' ok st hs i hp px py Hfp Hr Hf Hi Hx Hy w'.
  assert (E : w' =
    Aug05.settle_fetch (KReady (rect_width fp) (rect_height fp))
      (Http ok st (Json (JArray hs)))
      (set_fetches []
         (set_floorplan (Some fp')
            (fetch false (KReady (rect_width fp) (rect_height fp))
               (removeDots (set_display "block" w)))))).
  { unfold w'. rewrite (Aug05_windowLoad_ready w fp Hfp Hr).
    unfold Aug05.run. simpl fold_left. unfold relayout. simpl floorplan. rewrite Hfp.
    unfold settle. simpl. rewrite Hf. reflexivity. }
  rewrite E, Aug05_ready_chain_array. split; [reflexivity|].
  simpl children. rewrite nth_error_after, (mapi_from_nth _ _ 0 i hp Hi).
  eexists. split; [reflexivity|]. unfold Aug05.mkDot; simpl.
  rewrite Hx, Hy. split; reflexivity.
Qed.

Lemma X20_witness :
  exists el,
    nth_error
      (children
         (Aug05.run [EvLayout (mkFloorplan true 400 200 50 25);
                     EvSettle 0 (ok_with (JArray [hp_center]))]
            (Aug05.windowLoad (Aug05.boot (page true (Some box_200x100) [img])))))
      1 = Some el
    /\ style_left el = Num (0.5 * 200).
Proof.
  destruct (X20_aug05_page_load_uses_earlier_box
              (Aug05.boot (page true (Some box_200x100) [img]))
              box_200x100 (mkFloorplan true 400 200 50 25) true "OK"
              [hp_center] 0 hp_center 0.5 0.5
              eq_refl eq_refl eq_refl eq_refl eq_refl eq_refl)
    as [_ [el [H1 [H2 _]]]].
  exists el. split; [exact H1|exact H2].
Defined.

(** X21: the page-load path of the 2025.08.05 script does not look at the
    HTTP status: a non-OK response whose body is a JSON array draws one
    marker per hotspot, and nothing is alerted or left unhandled. *)
Theorem X21_aug05_page_load_ignores_status :
  forall (w : World) (fp : Floorplan) (st : string) (hs : list Hotspot),
    floorplan w = Some fp -> fullyRendered fp = true ->
    fetches w = [] ->
    let w' := Aug05.run [EvSettle 0 (Http false st (Json (JArray hs)))]
                (Aug05.windowLoad w) in
    count_dots w' = List.length hs
    /\ count is_alert w' = count is_alert w
    /\ count is_unhandled w' = count is_unhandled w.
Proof.
  intros w fp st hs Hfp Hr Hf w'.
  assert (E : w' =
    Aug05.settle_fetch (KReady (rect_width fp) (rect_height fp))
      (Http false st (Json (JArray hs)))
      (set_fetches []
         (fetch false (KReady (rect_width fp) (rect_height fp))
            (removeDots (set_display "block" w))))).
  { unfold w'. rewrite (Aug05_windowLoad_ready w fp Hfp Hr).
    unfold Aug05.run. simpl fold_left. unfold settle. simpl. rewrite Hf. reflexivity. }
  rewrite E, Aug05_ready_chain_array. unfold count_dots, count. simpl children. simpl log.
  rewrite filter_app, filter_not_dot_idem, filter_dots_mapi by reflexivity.
  rewrite (count_appends is_alert), (count_appends is_unhandled) by reflexivity.
  simpl. split; [apply mapi_from_length|]. split; reflexivity.
Qed.

Lemma X21_witness :
  count_dots
    (Aug05.run [EvSettle 0 (Http false "Not Found" (Json (JArray [hp_center; hp_no_photo])))]
       (Aug05.windowLoad (Aug05.boot (page true (Some box_200x100) [img])))) = 2%nat.
Proof.
  destruct (X21_aug05_page_load_ignores_status
              (Aug05.boot (page true (Some box_200x100) [img])) box_200x100 "Not Found"
              [hp_center; hp_no_photo] eq_refl eq_refl eq_refl) as [H _].
  exact H.
Defined.

(** X23: in the 2025.08.05 script the markers drawn on the page-load path
    cannot open a scene: their listener calls [loadScene] outside the
    function that defines it, so a click ends in a ReferenceError, no scene
    is created and the current view stays as it was. *)
Theorem X23_aug05_page_load_markers_are_dead :
  forall (w : World) (width height : Q) (ok : bool) (st : string)
         (hs : list Hotspot) (i : nat) (hp : Hotspot),
    nth_error hs i = Some hp ->
    let w' := Aug05.settle_fetch (KReady width height) (Http ok st (Json (JArray hs))) w in
    let clicked := Aug05.childClick (List.length (children w) + i) w' in
    log clicked = (now w, Uncaught "ReferenceError") :: log w'
    /\ currentView clicked = currentView w
    /\ children clicked = children w'.
Proof.
  intros w width height ok st hs i hp Hi w' clicked.
  unfold clicked, w', Aug05.childClick. rewrite Aug05_ready_chain_array.
  simpl children. rewrite nth_error_after, (mapi_from_nth _ _ 0 i hp Hi).
  simpl. repeat split; reflexivity.
Qed.

Lemma X23_witness :
  log (Aug05.childClick 1
         (Aug05.settle_fetch (KReady 200 100) (ok_with (JArray [hp_center]))
            (page true (Some box_200x100) [img])))
  = (0%nat, Uncaught "ReferenceError")
      :: log (Aug05.settle_fetch (KReady 200 100) (ok_with (JArray [hp_center]))
                (page true (Some box_200x100) [img])).
Proof.
  destruct (X23_aug05_page_load_markers_are_dead (page true (Some box_200x100) [img])
              200 100 true "OK" [hp_center] 0 hp_center eq_refl) as [H _].
  exact H.
Defined.

(** X24: in the 2025.08.05 script a click on a marker drawn by [initDots]
    calls [loadScene] with the hotspot's photo whatever it is, absent or
    empty included: the scene is created with that path and the current
    view is replaced by a fresh one. *)
Theorem X24_aug05_click_is_unguarded :
  forall (w w1 : World) (fp : Floorplan) (hs : list Hotspot) (i : nat) (hp : Hotspot),
    floorplan w = Some fp ->
    nth_error hs i = Some hp ->
    Aug05.initDots (JArray hs) w = Some w1 ->
    let clicked := Aug05.childClick (List.length (children w) + i) w1 in
    log clicked = scene_log (now w) (hp_photo hp) ++ log w1
    /\ currentView clicked = Some (mkView 0 0 1.2).
Proof.
  intros w w1 fp hs i hp Hfp Hi H1 clicked.
  rewrite (Aug05_initDots_array hs w fp Hfp), forEach_append in H1.
  injection H1 as <-. unfold clicked, Aug05.childClick. simpl children.
  rewrite nth_error_after, (mapi_from_nth _ _ 0 i hp Hi).
  simpl. split; reflexivity.
Qed.

Lemma X24_witness :
  exists w1,
    Aug05.initDots (JArray [hp_no_photo]) (page true (Some box_200x100) [img]) = Some w1
    /\ log (Aug05.childClick 1 w1) = scene_log 0 None ++ log w1.
Proof.
  destruct (Aug05.initDots (JArray [hp_no_photo]) (page true (Some box_200x100) [img]))
    as [w1|] eqn:E; [|discriminate E].
  exists w1. split; [reflexivity|].
  destruct (X24_aug05_click_is_unguarded (page true (Some box_200x100) [img]) w1
              box_200x100 [hp_no_photo] 0 hp_no_photo eq_refl eq_refl E) as [H _].
  exact H.
Defined.

(* ------------------------------------------------------------------ *)
(** ** The second script of the 2025.07.29 file *)

Lemma photos_prefixed (p : string) :
  prefix "photos/" ("photos/" ++ p) = true
  /\ Jul29b.is_http ("photos/" ++ p) = false.
Proof. split; [destruct p; reflexivity|reflexivity]. Qed.

(** X27: the path rule of [loadScene] in the second 2025.07.29 script is a
    normalisation: applying it twice is applying it once, its result is
    either an http(s) URL or a path under photos/, it leaves such paths
    untouched, and otherwise it only prepends "photos/". *)
Theorem X27_withPhotos_normalises :
  forall p : string,
    Jul29b.withPhotos (Jul29b.withPhotos p) = Jul29b.withPhotos p
    /\ (Jul29b.is_http (Jul29b.withPhotos p) = true
        \/ prefix "photos/" (Jul29b.withPhotos p) = true)
    /\ ((Jul29b.is_http p || prefix "photos/" p = true /\ Jul29b.withPhotos p = p)
        \/ (Jul29b.is_http p || prefix "photos/" p = false
            /\ Jul29b.withPhotos p = ("photos/" ++ p)%string)).
Proof.
  intro p. destruct (photos_prefixed p) as [P1 P2].
  destruct (Jul29b.is_http p) eqn:E1.
  - assert (W : Jul29b.withPhotos p = p)
      by (unfold Jul29b.withPhotos; rewrite E1; reflexivity).
    rewrite !W. split; [reflexivity|]. split; [left; exact E1|].
    left. split; reflexivity.
  - destruct (prefix "photos/" p) eqn:E2.
    + assert (W : Jul29b.withPhotos p = p)
        by (unfold Jul29b.withPhotos; rewrite E1, E2; reflexivity).
      rewrite !W. split; [reflexivity|]. split; [right; exact E2|].
      left. split; reflexivity.
    + assert (W : Jul29b.withPhotos p = ("photos/" ++ p)%string)
        by (unfold Jul29b.withPhotos; rewrite E1, E2; reflexivity).
      assert (W' : Jul29b.withPhotos ("photos/" ++ p) = ("photos/" ++ p)%string)
        by (unfold Jul29b.withPhotos; rewrite P1, P2; reflexivity).
      rewrite W. split; [exact W'|]. split; [right; exact P1|].
      right. split; reflexivity.
Qed.

Lemma Jul29b_click_page_marker (w : World) (width height : Q) (ok : bool) (st : string)
  (hs : list Hotspot) (i : nat) (hp : Hotspot) :
  nth_error hs i = Some hp ->
  Jul29b.childClick (List.length (children w) + i)
    (Aug05.settle_fetch (KReady width height) (Http ok st (Json (JArray hs))) w)
  = Jul29b.click (GlobalLoad (hp_photo hp))
      (Aug05.settle_fetch (KReady width height) (Http ok st (Json (JArray hs))) w).
Proof.
  intro Hi. unfold Jul29b.childClick. rewrite Aug05_ready_chain_array.
  simpl children. rewrite nth_error_after, (mapi_from_nth _ _ 0 i hp Hi).
  reflexivity.
Qed.

(** X28: in the second 2025.07.29 script, once the IIFE has run to its end
    (viewer built, [loadScene] exported), a click on a marker drawn on the
    page-load path opens the scene of the hotspot's photo with the path
    rule applied and replaces the current view by a fresh one; when the
    hotspot has no photo the click ends in a TypeError after the console
    line, with no scene and the view unchanged. *)
Theorem X28_jul29b_page_marker_click :
  forall (w : World) (width height : Q) (ok : bool) (st : string)
         (hs : list Hotspot) (i : nat) (hp : Hotspot),
    nth_error hs i = Some hp ->
    viewer w = true ->
    let w' := Aug05.settle_fetch (KReady width height) (Http ok st (Json (JArray hs))) w in
    let clicked := Jul29b.childClick (List.length (children w) + i) w' in
    (forall p, hp_photo hp = Some p ->
       log clicked = scene_log (now w) (Some (Jul29b.withPhotos p)) ++ log w'
       /\ currentView clicked = Some (mkView 0 0 1.2))
    /\ (hp_photo hp = None ->
       log clicked = (now w, Uncaught "TypeError")
                       :: (now w, ConsoleLog "Loading scene:") :: log w'
       /\ currentView clicked = currentView w).
Proof.
  intros w width height ok st hs i hp Hi Hv w' clicked.
  assert (E : clicked = Jul29b.click (GlobalLoad (hp_photo hp)) w')
    by (apply Jul29b_click_page_marker, Hi).
  assert (V : viewer w' = true)
    by (unfold w'; rewrite Aug05_ready_chain_array; exact Hv).
  rewrite E. simpl. rewrite V. unfold w'. rewrite Aug05_ready_chain_array.
  split.
  - intros p Hp. rewrite Hp. split; reflexivity.
  - intro Hp. rewrite Hp. split; reflexivity.
Qed.

Lemma X28_witness :
  log (Jul29b.childClick 1
         (Aug05.settle_fetch (KReady 200 100) (ok_with (JArray [hp_center]))
            (Jul29b.boot (page true (Some box_200x100) [img]))))
  = scene_log 0 (Some "photos/a.jpg")
    ++ log (Aug05.settle_fetch (KReady 200 100) (ok_with (JArray [hp_center]))
              (Jul29b.boot (page true (Some box_200x100) [img]))).
Proof.
  destruct (X28_jul29b_page_marker_click (Jul29b.boot (page true (Some box_200x100) [img]))
              200 100 true "OK" [hp_center] 0 hp_center eq_refl eq_refl) as [H _].
  destruct (H "a.jpg" eq_refl) as [H1 _]. exact H1.
Defined.

(* ------------------------------------------------------------------ *)
(** ** Polling that finds the image ready *)

Lemma Aug05_check_ready (r : nat) (w : World) (fp : Floorplan) :
  floorplan w = Some fp -> fullyRendered fp = true ->
  Aug05.drawDotsWhenReady r w =
  fetch false (KReady (rect_width fp) (rect_height fp)) (removeDots w).
Proof.
  intros Hfp Hr. unfold Aug05.drawDotsWhenReady. rewrite Hfp.
  unfold fullyRendered in Hr. now rewrite Hr.
Qed.

(** While the image stays unready, [j] periods of 100ms bring [j] further
    timeouts and leave the next retry pending. *)
Lemma Aug05_poll_partial (j : nat) :
  forall (r : nat) (w : World) (fp : Floorplan) (id : nat),
    (j <= r)%nat ->
    floorplan w = Some fp -> fullyRendered fp = false ->
    timers w = [mkTimer id (now w + 100) (CbRetry r)] ->
    let w' := advance Aug05.run_callback (100 * j) w in
    (exists id', timers w' = [mkTimer id' (now w' + 100) (CbRetry (r - j))])
    /\ now w' = (now w + 100 * j)%nat
    /\ floorplan w' = floorplan w
    /\ log w' = timeouts_log (now w + 100) (nextTimer w) j ++ log w
    /\ children w' = children w
    /\ fetches w' = fetches w.
Proof.
  induction j as [|j IH]; intros r w fp id Hj Hfp Hr Ht w'.
  - unfold w'. rewrite Nat.mul_0_r. simpl. rewrite Nat.sub_0_r, Nat.add_0_r.
    split; [exists id; exact Ht|]. repeat split; reflexivity.
  - destruct r as [|r]; [lia|].
    unfold w'. replace (100 * S j)%nat with (100 * j + S 99)%nat by lia.
    rewrite advance_add.
    rewrite (advance_single_timer Aug05.run_callback 99 id (CbRetry (S r)) w Ht).
    simpl Aug05.run_callback.
    rewrite (Aug05_check_not_ready (S r) _ fp) by (simpl; assumption).
    set (w1 := snd (setTimeout (CbRetry r) 100
                      (set_timers [] (set_now (now w + S 99) w)))).
    assert (T1 : timers w1 = [mkTimer (nextTimer w) (now w1 + 100) (CbRetry r)])
      by reflexivity.
    assert (F1 : floorplan w1 = Some fp) by exact Hfp.
    assert (Hj' : (j <= r)%nat) by lia.
    destruct (IH r w1 fp (nextTimer w) Hj' F1 Hr T1) as [H1 [H2 [H3 [H4 [H5 H6]]]]].
    split; [exact H1|]. split; [rewrite H2; subst w1; simpl; lia|].
    split; [rewrite H3; reflexivity|].
    split; [|split; [rewrite H5; reflexivity|rewrite H6; reflexivity]].
    rewrite H4. subst w1. simpl. rewrite <- app_assoc. reflexivity.
Qed.

Lemma timeouts_log_filter (p : Effect -> bool) (t id n : nat) :
  (forall i d, p (SetTimeout i d) = false) ->
  filter (fun te => p (snd te)) (timeouts_log t id n) = [].
Proof.
  intro H. revert t id; induction n as [|n IH]; intros t id; simpl; [reflexivity|].
  rewrite filter_app, IH. simpl. now rewrite H.
Qed.

(** X22: when the floorplan image is unready at window load and becomes
    ready later, within the retry budget, the next check (at the following
    multiple of 100ms) clears the markers and issues the fetch with the
    box of that moment; the polling then stops: no timer is left, no
    warning is ever logged. *)
Theorem X22_aug05_polling_finds_image_ready :
  forall (w : World) (fp0 fpR : Floorplan) (j d k : nat),
    floorplan w = Some fp0 -> fullyRendered fp0 = false ->
    fullyRendered fpR = true ->
    timers w = [] ->
    (j <= 9)%nat -> (d < 100)%nat -> (100 - d <= k)%nat ->
    let w' := Aug05.advance k
                (Aug05.step (EvLayout fpR)
                   (Aug05.advance (100 * j + d) (Aug05.windowLoad w))) in
    timers w' = []
    /\ fetches w' = fetches w ++ [KReady (rect_width fpR) (rect_height fpR)]
    /\ log w' =
       (now w + 100 * S j, Fetch false)%nat :: (now w + 100 * S j, QueryDots)%nat
         :: timeouts_log (now w) (nextTimer w) (S j) ++ log w
    /\ count is_warn w' = count is_warn w
    /\ count is_fetch w' = S (count is_fetch w).
Proof.
  intros w fp0 fpR j d k Hfp Hr0 HrR Ht Hj Hd Hk w'.
  remember (99 - d)%nat as m eqn:Hm.
  pose (w0 := snd (setTimeout (CbRetry 9) 100 (set_display "block" w))).
  assert (E0 : Aug05.windowLoad w = w0).
  { unfold Aug05.windowLoad.
    now rewrite (Aug05_check_not_ready 10 _ fp0) by (simpl; assumption). }
  assert (T0 : timers w0 = [mkTimer (nextTimer w) (now w0 + 100) (CbRetry 9)])
    by (simpl; now rewrite Ht).
  destruct (Aug05_poll_partial j 9 w0 fp0 (nextTimer w) Hj Hfp Hr0 T0)
    as [[id' H1] [H2 [H3 [H4 [H5 H6]]]]].
  assert (A : Aug05.advance (100 * j + d) (Aug05.windowLoad w) =
              set_now (now (advance Aug05.run_callback (100 * j) w0) + d)
                (advance Aug05.run_callback (100 * j) w0)).
  { rewrite E0, Aug05_advance_eq. replace (100 * j + d)%nat with (d + 100 * j)%nat by lia.
    rewrite advance_add. apply advance_idle.
    rewrite H1. intros t [<-|[]]. simpl. lia. }
  generalize dependent (advance Aug05.run_callback (100 * j) w0).
  intros w2 H1 H2 H3 H4 H5 H6 A.
  set (w3 := set_floorplan (Some fpR) (set_now (now w2 + d) w2)).
  assert (S3 : Aug05.step (EvLayout fpR) (set_now (now w2 + d) w2) = w3).
  { simpl. unfold relayout. simpl. rewrite H3.
    change (floorplan w0) with (floorplan w). rewrite Hfp. reflexivity. }
  assert (T3 : timers w3 = [mkTimer id' (now w3 + S m) (CbRetry (9 - j))]).
  { change (timers w3) with (timers w2). change (now w3) with (now w2 + d)%nat.
    rewrite H1. f_equal. f_equal. lia. }
  pose proof (advance_single_timer Aug05.run_callback m id' (CbRetry (9 - j)) w3 T3)
    as F.
  simpl Aug05.run_callback in F.
  rewrite (Aug05_check_ready (9 - j) _ fpR) in F by (try reflexivity; exact HrR).
  assert (Q : timers (advance Aug05.run_callback (S m) w3) = [])
    by (rewrite F; reflexivity).
  assert (Hk' : (S m <= k)%nat) by lia.
  assert (E : w' = set_now (now (advance Aug05.run_callback (S m) w3)
                            + (k - S m))
                     (advance Aug05.run_callback (S m) w3)).
  { unfold w'. rewrite A, S3, Aug05_advance_eq.
    apply advance_after_quiet; assumption. }
  rewrite F in E.
  assert (L : log w' =
     (now w + 100 * S j, Fetch false)%nat :: (now w + 100 * S j, QueryDots)%nat
       :: timeouts_log (now w) (nextTimer w) (S j) ++ log w).
  { rewrite E. simpl log. rewrite H4, H2. simpl.
    replace (now w + 100 * j + d + S m)%nat with (now w + 100 * S j)%nat by lia.
    rewrite <- app_assoc. reflexivity. }
  split; [rewrite E; reflexivity|].
  split; [rewrite E; simpl; rewrite H6; reflexivity|].
  split; [exact L|].
  unfold count. rewrite L. simpl filter. rewrite !filter_app.
  rewrite (timeouts_log_filter is_warn), (timeouts_log_filter is_fetch) by reflexivity.
  simpl. split; reflexivity.
Qed.

Lemma X22_witness :
  count is_fetch
    (Aug05.advance 70
       (Aug05.step (EvLayout box_200x100)
          (Aug05.advance (100 * 2 + 30)
             (Aug05.windowLoad (Aug05.boot (page true (Some box_not_ready) [img]))))))
  = 1%nat.
Proof.
  pose proof (X22_aug05_polling_finds_image_ready
                (Aug05.boot (page true (Some box_not_ready) [img]))
                box_not_ready box_200x100 2 30 70 eq_refl eq_refl eq_refl eq_refl) as H.
  destruct H as [_ [_ [_ [_ H]]]]; try lia.
  exact H.
Defined.

(** X26: the fetch of the page-load path of the 2025.08.05 script has no
    error handling: whatever the response, no alert is shown, and every
    response that does not carry a JSON array (network error, unparsable
    body, non-array value) ends as one unhandled rejection with the page
    otherwise untouched. *)
Theorem X26_aug05_page_load_errors_unhandled :
  forall (width height : Q) (r : Response) (w : World),
    count is_alert (Aug05.settle_fetch (KReady width height) r w) = count is_alert w
    /\ (has_array_body r = false ->
        exists err,
          Aug05.settle_fetch (KReady width height) r w = emit (Unhandled err) w).
Proof.
  intros width height r w. split; [apply Aug05_ready_chain_never_alerts|].
  destruct r as [|ok st [|v]]; simpl; try (intros _; eexists; reflexivity).
  destruct v; simpl; try (intros _; eexists; reflexivity). discriminate.
Qed.

Lemma X26_witness :
  exists err,
    Aug05.settle_fetch (KReady 200 100) not_found (page true (Some box_200x100) [img])
    = emit (Unhandled err) (page true (Some box_200x100) [img]).
Proof.
  destruct (X26_aug05_page_load_errors_unhandled 200 100 not_found
              (page true (Some box_200x100) [img])) as [_ H].
  exact (H eq_refl).
Defined.

(* ------------------------------------------------------------------ *)
(** ** Repositioning on resize in the clean script *)

Lemma Clean_resize_keeps (w : World) :
  children (Clean.resize w) = children w
  /\ floorplan (Clean.resize w) = floorplan w
  /\ hotspotsData (Clean.resize w) = hotspotsData w.
Proof.
  unfold Clean.resize. destruct (hotspotsData w) eqn:E; [repeat split; assumption|].
  unfold clearTimeout. destruct (resizeTimer w); simpl; rewrite E; repeat split.
Qed.

(** X29: in the clean script, after the layout of the floorplan has
    changed, one resize event followed by 100ms of quiet redraws the
    markers against the new box: the container then holds its non-marker
    children followed by one marker per cached hotspot, built with the new
    width and height (intrinsic size where the box is empty). *)
Theorem X29_clean_resize_repositions :
  forall (w : World) (fp0 fp' : Floorplan),
    has_listener LResize w = true ->
    hotspotsData w <> [] ->
    timer_tracked w ->
    floorplan w = Some fp0 ->
    children (Clean.run (EvLayout fp' :: EvResize :: quiet 100) w) =
      filter (fun e => negb (is_dot e)) (children w)
      ++ mapi_from (Clean.mkDot (num_or (rect_width fp') (naturalWidth fp'))
                      (num_or (rect_height fp') (naturalHeight fp')))
           (hotspotsData w) 0.
Proof.
  intros w fp0 fp' HL HD HT Hfp.
  rewrite !Clean_run_cons, Clean_run_quiet.
  assert (E1 : Clean.step (EvLayout fp') w = set_floorplan (Some fp') w)
    by (simpl; unfold relayout; now rewrite Hfp).
  rewrite E1. set (w1 := set_floorplan (Some fp') w).
  destruct (Clean_resize_restarts w1 HL HD HT) as [_ [T [N _]]].
  assert (E2 : Clean.step EvResize w1 = Clean.resize w1)
    by (simpl; unfold w1 at 1; unfold has_listener in *; simpl; now rewrite HL).
  rewrite E2 in *. rewrite <- N in T.
  destruct (Clean_resize_keeps w1) as [K1 [K2 K3]].
  change 100%nat with (S 99) at 1.
  rewrite (advance_single_timer Clean.run_callback 99 _ _ _ T).
  simpl Clean.run_callback. rewrite Clean_drawDotsSafely_children.
  unfold rendered. simpl floorplan. simpl children. simpl hotspotsData.
  rewrite K1, K2, K3. reflexivity.
Qed.

Lemma X29_witness :
  exists el,
    nth_error
      (children (Clean.run (EvLayout (mkFloorplan true 400 200 50 20) :: EvResize :: quiet 100)
                   (Clean_loaded [hp_center]))) 1 = Some el
    /\ style_left el = Num (0.5 * 50).
Proof.
  pose proof (X29_clean_resize_repositions (Clean_loaded [hp_center]) box_200x100
                (mkFloorplan true 400 200 50 20) eq_refl) as H.
  rewrite H.
  - eexists. split; reflexivity.
  - discriminate.
  - left. reflexivity.
  - reflexivity.
Defined.

(* ------------------------------------------------------------------ *)
(** ** The transitions of the map panel *)

Lemma Clean_boot_page_load (fp : Floorplan) (static : list Element) :
  display (Clean.boot (page true (Some fp) static)) = "block"
  /\ children (Clean.boot (page true (Some fp) static)) = static
  /\ (loaded fp = true ->
      fetches (Clean.boot (page true (Some fp) static)) = [KLoadHotspots])
  /\ (loaded fp = false ->
      fetches (Clean.boot (page true (Some fp) static)) = []
      /\ fetches (Clean.step EvFloorplanLoad (Clean.boot (page true (Some fp) static)))
         = [KLoadHotspots]).
Proof.
  unfold loaded.
  destruct (complete fp && negb (Qeq_bool (naturalWidth fp) 0)) eqn:H;
    unfold Clean.boot; simpl; rewrite !H; vm_compute;
    (split; [reflexivity|]); (split; [reflexivity|]); split;
    try discriminate; intros _; try split; reflexivity.
Qed.

Lemma not_listening (w : World) :
  fpLoad_callbacks w = [] -> ~ In (LFpLoad CbDrawDotsSafely false) (listeners w).
Proof.
  unfold fpLoad_callbacks. intros H Hin.
  assert (In CbDrawDotsSafely
            (flat_map (fun l => match l with LFpLoad cb _ => [cb] | _ => [] end)
               (listeners w))).
  { apply in_flat_map. exists (LFpLoad CbDrawDotsSafely false).
    split; [exact Hin|left; reflexivity]. }
  rewrite H in H0. contradiction.
Qed.

(** The 2025.08.05 toggle with an image that is not complete at the
    animation frame: nothing is cleared, fetched or logged; the redraw is
    left to the image's load event. *)
Lemma Aug05_frame_waits (w : World) (fp : Floorplan) :
  floorplan w = Some fp -> complete fp = false -> fpLoad_callbacks w = [] ->
  let w1 := Aug05.run_callback CbToggleFrame w in
  fetches w1 = fetches w /\ children w1 = children w /\ log w1 = log w
  /\ fetches (Aug05.step EvFloorplanLoad w1) = fetches w ++ [KLoadHotspots]
  /\ children (Aug05.step EvFloorplanLoad w1) =
     filter (fun e => negb (is_dot e)) (children w).
Proof.
  intros Hfp Hc Hl w1.
  assert (E : w1 = set_listeners (listeners w ++ [LFpLoad CbDrawDotsSafely false]) w).
  { unfold w1. simpl. unfold Aug05.toggleFrame. rewrite Hfp, Hc.
    unfold add_listener.
    destruct (in_dec Listener_eq_dec (LFpLoad CbDrawDotsSafely false) (listeners w))
      as [Hin|_]; [|reflexivity].
    exfalso. exact (not_listening w Hl Hin). }
  rewrite E. split; [reflexivity|]. split; [reflexivity|]. split; [reflexivity|].
  simpl Aug05.step. unfold fire_fpLoad, fpLoad_callbacks. simpl listeners.
  rewrite flat_map_app. unfold fpLoad_callbacks in Hl. rewrite Hl. simpl.
  split; reflexivity.
Qed.

(** C6, as amended.  Clean script: a HIDDEN -> VISIBLE toggle shows the
    panel and, when the cache is non-empty, redraws from it without a
    fetch; when the cache is empty (never loaded, or loaded as an empty
    sequence) it starts the loader, whose success stores the dataset and
    redraws; at page load the panel is shown and the loader (the cache is
    empty) starts at once if the image has loaded, and otherwise at the
    image's load event.  2025.08.05 script, which keeps no cache: a
    HIDDEN -> VISIBLE toggle shows the panel and asks for an animation
    frame; at the frame, if the image is complete, the markers are cleared
    and the loader starts, whose success appends one marker per hotspot; if
    the image is not complete nothing happens until its load event, which
    does the same; if the image element is missing an alert is shown; at
    page load the panel is shown and, if the image is fully rendered, the
    markers are cleared and the fetch starts, whose success appends one
    marker per hotspot; otherwise a retry is scheduled in 100ms.  In both
    scripts a VISIBLE -> HIDDEN toggle only hides the panel. *)
Theorem C6_panel_transitions :
  forall w : World,
    (* clean script, toggle *)
    (display w <> "block" -> hotspotsData w <> [] ->
       display (Clean.toggle w) = "block"
       /\ children (Clean.toggle w) =
          filter (fun e => negb (is_dot e)) (children w) ++ rendered w
       /\ fetches (Clean.toggle w) = fetches w
       /\ count is_fetch (Clean.toggle w) = count is_fetch w)
    /\ (display w <> "block" -> hotspotsData w = [] ->
       display (Clean.toggle w) = "block"
       /\ children (Clean.toggle w) = children w
       /\ fetches (Clean.toggle w) = fetches w ++ [KLoadHotspots]
       /\ log (Clean.toggle w) = (now w, Fetch true) :: log w)
    /\ (forall hs st,
       hotspotsData (Clean.settle_fetch KLoadHotspots (Http true st (Json (JArray hs))) w) = hs
       /\ children (Clean.settle_fetch KLoadHotspots (Http true st (Json (JArray hs))) w) =
          filter (fun e => negb (is_dot e)) (children w)
          ++ rendered (set_hotspotsData hs w))
    /\ (display w = "block" -> Clean.toggle w = set_display "none" w)
    (* clean script, page load *)
    /\ (forall fp static,
       display (Clean.boot (page true (Some fp) static)) = "block"
       /\ children (Clean.boot (page true (Some fp) static)) = static
       /\ (loaded fp = true ->
           fetches (Clean.boot (page true (Some fp) static)) = [KLoadHotspots])
       /\ (loaded fp = false ->
           fetches (Clean.boot (page true (Some fp) static)) = []
           /\ fetches (Clean.step EvFloorplanLoad (Clean.boot (page true (Some fp) static)))
              = [KLoadHotspots]))
    (* 2025.08.05 script, toggle *)
    /\ (display w <> "block" ->
       display (Aug05.toggle w) = "block"
       /\ frames (Aug05.toggle w) = frames w ++ [CbToggleFrame]
       /\ children (Aug05.toggle w) = children w
       /\ fetches (Aug05.toggle w) = fetches w)
    /\ (forall fp, floorplan w = Some fp -> complete fp = true ->
       children (Aug05.run_callback CbToggleFrame w) =
         filter (fun e => negb (is_dot e)) (children w)
       /\ fetches (Aug05.run_callback CbToggleFrame w) = fetches w ++ [KLoadHotspots]
       /\ log (Aug05.run_callback CbToggleFrame w) =
          (now w, Fetch false) :: (now w, QueryDots) :: log w)
    /\ (forall fp, floorplan w = Some fp -> complete fp = false ->
       fpLoad_callbacks w = [] ->
       fetches (Aug05.run_callback CbToggleFrame w) = fetches w
       /\ children (Aug05.run_callback CbToggleFrame w) = children w
       /\ log (Aug05.run_callback CbToggleFrame w) = log w
       /\ fetches (Aug05.step EvFloorplanLoad (Aug05.run_callback CbToggleFrame w))
          = fetches w ++ [KLoadHotspots]
       /\ children (Aug05.step EvFloorplanLoad (Aug05.run_callback CbToggleFrame w))
          = filter (fun e => negb (is_dot e)) (children w))
    /\ (floorplan w = None ->
       Aug05.run_callback CbToggleFrame w = alert Aug05.msg_no_floorplan w)
    /\ (forall fp hs st, floorplan w = Some fp ->
       children (Aug05.settle_fetch KLoadHotspots (Http true st (Json (JArray hs))) w) =
         children w
         ++ mapi_from (Aug05.mkDot DirectLoad
                         (num_or (rect_width fp) (naturalWidth fp))
                         (num_or (rect_height fp) (naturalHeight fp))) hs 0)
    /\ (display w = "block" -> Aug05.toggle w = set_display "none" w)
    (* 2025.08.05 script, page load *)
    /\ (forall fp, floorplan w = Some fp -> fullyRendered fp = true ->
       display (Aug05.windowLoad w) = "block"
       /\ children (Aug05.windowLoad w) = filter (fun e => negb (is_dot e)) (children w)
       /\ fetches (Aug05.windowLoad w) =
          fetches w ++ [KReady (rect_width fp) (rect_height fp)]
       /\ forall hs ok st v,
            children (Aug05.settle_fetch (KReady (rect_width fp) (rect_height fp))
                        (Http ok st (Json (JArray hs))) v) =
            children v
            ++ mapi_from (Aug05.mkDot GlobalLoad (rect_width fp) (rect_height fp)) hs 0)
    /\ (forall fp, floorplan w = Some fp -> fullyRendered fp = false ->
       display (Aug05.windowLoad w) = "block"
       /\ children (Aug05.windowLoad w) = children w
       /\ fetches (Aug05.windowLoad w) = fetches w
       /\ timers (Aug05.windowLoad w) =
          timers w ++ [mkTimer (nextTimer w) (now w + 100) (CbRetry 9)])
    /\ (floorplan w = None ->
       Aug05.windowLoad w = emit (Uncaught "TypeError") (set_display "block" w)).
Proof.
  intro w.
  split; [|split; [|split; [|split; [|split; [|split; [|split;
    [|split; [|split; [|split; [|split; [|split; [|split]]]]]]]]]]]].
  - intros Hd Hh. unfold Clean.toggle. rewrite (eqb_block w Hd). simpl.
    destruct (hotspotsData w) as [|h hs] eqn:E; [contradiction|].
    destruct (Clean_drawDotsSafely_keeps (set_display "block" w))
      as [_ [_ [Hf [_ [_ [Hdisp _]]]]]].
    split; [exact Hdisp|]. split; [rewrite Clean_drawDotsSafely_children; reflexivity|].
    split; [exact Hf|].
    unfold count, Clean.drawDotsSafely, Clean.renderDots. simpl.
    destruct (floorplan w); [|reflexivity].
    rewrite forEach_append. simpl log.
    now rewrite (count_appends is_fetch) by reflexivity.
  - intros Hd Hh. unfold Clean.toggle. rewrite (eqb_block w Hd). simpl.
    rewrite Hh. repeat split; reflexivity.
  - intros hs st.
    change (Clean.settle_fetch KLoadHotspots (Http true st (Json (JArray hs))) w)
      with (Clean.drawDotsSafely (set_hotspotsData hs w)).
    destruct (Clean_drawDotsSafely_keeps (set_hotspotsData hs w)) as [_ [H _]].
    split; [exact H|]. rewrite Clean_drawDotsSafely_children. reflexivity.
  - intro Hd. unfold Clean.toggle. rewrite Hd. reflexivity.
  - intros fp static. exact (Clean_boot_page_load fp static).
  - intro Hd. unfold Aug05.toggle. rewrite (eqb_block w Hd). simpl.
    repeat split; reflexivity.
  - intros fp Hfp Hc. simpl. unfold Aug05.toggleFrame. rewrite Hfp, Hc.
    repeat split; reflexivity.
  - intros fp Hfp Hc Hl. exact (Aug05_frame_waits w fp Hfp Hc Hl).
  - intro Hfp. simpl. unfold Aug05.toggleFrame. now rewrite Hfp.
  - intros fp hs st Hfp. simpl Aug05.settle_fetch.
    rewrite (Aug05_initDots_array hs _ fp) by exact Hfp.
    rewrite forEach_append. reflexivity.
  - intro Hd. unfold Aug05.toggle. rewrite Hd. reflexivity.
  - intros fp Hfp Hr. rewrite (Aug05_windowLoad_ready w fp Hfp Hr).
    split; [reflexivity|]. split; [reflexivity|]. split; [reflexivity|].
    intros hs ok st v. rewrite Aug05_ready_chain_array. reflexivity.
  - intros fp Hfp Hr. unfold Aug05.windowLoad.
    rewrite (Aug05_check_not_ready 10 _ fp) by (simpl; assumption).
    repeat split; reflexivity.
  - intro Hfp. unfold Aug05.windowLoad, Aug05.drawDotsWhenReady. simpl.
    now rewrite Hfp.
Qed.

(** C6 at concrete runs.  Clean script: with one hotspot cached, a hide
    and a show redraw the one marker without a second fetch; with an empty
    dataset cached, the show fetches again; a page with a loaded image
    fetches at start, one with an unloaded image at the image's load event.
    2025.08.05 script: a show asks for a frame; after one load, the frame
    of the next show clears the marker and starts a second fetch; with an
    incomplete image the frame does nothing and the image's load event
    starts the fetch; without an image element the frame alerts; a loaded
    dataset of one hotspot appends one marker; the page load fetches when
    the image is rendered and schedules a retry when it is not. *)
Lemma C6_witness :
  (display (Clean.toggle (Clean.toggle (Clean_loaded [hp_center]))) = "block"
   /\ count_dots (Clean.toggle (Clean.toggle (Clean_loaded [hp_center]))) = 1%nat
   /\ count is_fetch (Clean.toggle (Clean.toggle (Clean_loaded [hp_center]))) = 1%nat
   /\ Clean.toggle (Clean_loaded [hp_center]) = set_display "none" (Clean_loaded [hp_center]))
  /\ (display (Clean.toggle (Clean.toggle (Clean_loaded []))) = "block"
      /\ fetches (Clean.toggle (Clean.toggle (Clean_loaded []))) = [KLoadHotspots])
  /\ (fetches (Clean.boot (page true (Some box_200x100) [img])) = [KLoadHotspots]
      /\ fetches (Clean.boot (page true (Some box_not_ready) [img])) = []
      /\ fetches (Clean.step EvFloorplanLoad
                    (Clean.boot (page true (Some box_not_ready) [img]))) = [KLoadHotspots])
  /\ (display (Aug05.toggle (Aug05_started (Some box_200x100))) = "block"
      /\ frames (Aug05.toggle (Aug05_started (Some box_200x100))) = [CbToggleFrame]
      /\ Aug05.toggle (Aug05.toggle (Aug05_started (Some box_200x100)))
         = set_display "none" (Aug05.toggle (Aug05_started (Some box_200x100))))
  /\ (children (Aug05.run_callback CbToggleFrame (Aug05_loaded [hp_center])) = [img]
      /\ fetches (Aug05.run_callback CbToggleFrame (Aug05_loaded [hp_center]))
         = [KLoadHotspots])
  /\ (fetches (Aug05.run_callback CbToggleFrame (Aug05_started (Some box_not_ready))) = []
      /\ fetches (Aug05.step EvFloorplanLoad
                    (Aug05.run_callback CbToggleFrame (Aug05_started (Some box_not_ready))))
         = [KLoadHotspots])
  /\ Aug05.run_callback CbToggleFrame (Aug05_started None)
     = alert Aug05.msg_no_floorplan (Aug05_started None)
  /\ count_dots (Aug05.settle_fetch KLoadHotspots (ok_with (JArray [hp_center]))
                   (Aug05_started (Some box_200x100))) = 1%nat
  /\ (display (Aug05.windowLoad (Aug05_started (Some box_200x100))) = "block"
      /\ fetches (Aug05.windowLoad (Aug05_started (Some box_200x100))) = [KReady 200 100])
  /\ (fetches (Aug05.windowLoad (Aug05_started (Some box_not_ready))) = []
      /\ timers (Aug05.windowLoad (Aug05_started (Some box_not_ready)))
         = [mkTimer 1 100 (CbRetry 9)])
  /\ Aug05.windowLoad (Aug05_started None)
     = emit (Uncaught "TypeError") (set_display "block" (Aug05_started None)).
Proof.
  assert (N : forall w : World, display w = "" -> display w <> "block")
    by (intros w E F; rewrite E in F; discriminate F).
  assert (M : forall w : World, display w = "none" -> display w <> "block")
    by (intros w E F; rewrite E in F; discriminate F).
  pose proof (C6_panel_transitions (Clean.toggle (Clean_loaded [hp_center])))
    as [C1 _].
  pose proof (C6_panel_transitions (Clean.toggle (Clean_loaded [])))
    as [_ [C2 _]].
  pose proof (C6_panel_transitions (Clean_loaded [hp_center]))
    as [_ [_ [_ [C4 [C5 _]]]]].
  pose proof (C6_panel_transitions (Aug05_started (Some box_200x100)))
    as [_ [_ [_ [_ [_ [A6 [_ [_ [_ [A10 [_ [A12 _]]]]]]]]]]]].
  pose proof (C6_panel_transitions (Aug05.toggle (Aug05_started (Some box_200x100))))
    as [_ [_ [_ [_ [_ [_ [_ [_ [_ [_ [A11 _]]]]]]]]]]].
  pose proof (C6_panel_transitions (Aug05_loaded [hp_center]))
    as [_ [_ [_ [_ [_ [_ [A7 _]]]]]]].
  pose proof (C6_panel_transitions (Aug05_started (Some box_not_ready)))
    as [_ [_ [_ [_ [_ [_ [_ [A8 [_ [_ [_ [_ [A13 _]]]]]]]]]]]]].
  pose proof (C6_panel_transitions (Aug05_started None))
    as [_ [_ [_ [_ [_ [_ [_ [_ [A9 [_ [_ [_ [_ A14]]]]]]]]]]]]].
  destruct (C1 ltac:(apply M; reflexivity)) as [C1a [C1b [_ C1c]]];
    [intro E; vm_compute in E; discriminate E|].
  destruct (C2 ltac:(apply M; reflexivity) eq_refl) as [C2a [_ [C2b _]]].
  destruct (C5 box_200x100 [img]) as [_ [_ [C5a _]]].
  destruct (C5 box_not_ready [img]) as [_ [_ [_ C5b]]].
  destruct (C5b eq_refl) as [C5c C5d].
  destruct (A6 ltac:(apply N; reflexivity)) as [A6a [A6b _]].
  destruct (A7 box_200x100 eq_refl eq_refl) as [A7a [A7b _]].
  destruct (A8 box_not_ready eq_refl eq_refl eq_refl) as [A8a [_ [_ [A8b _]]]].
  pose proof (A10 box_200x100 [hp_center] "OK" eq_refl) as A10a.
  destruct (A12 box_200x100 eq_refl eq_refl) as [A12a [_ [A12b _]]].
  destruct (A13 box_not_ready eq_refl eq_refl) as [_ [_ [A13a A13b]]].
  split.
  { split; [exact C1a|]. split; [unfold count_dots; rewrite C1b; reflexivity|].
    split; [exact C1c|]. exact (C4 eq_refl). }
  split; [split; [exact C2a|exact C2b]|].
  split; [split; [exact (C5a eq_refl)|split; [exact C5c|exact C5d]]|].
  split; [split; [exact A6a|split; [exact A6b|exact (A11 eq_refl)]]|].
  split; [split; [exact A7a|exact A7b]|].
  split; [split; [exact A8a|exact A8b]|].
  split; [exact (A9 eq_refl)|].
  split; [unfold count_dots, ok_with; rewrite A10a; reflexivity|].
  split; [split; [exact A12a|exact A12b]|].
  split; [split; [exact A13a|exact A13b]|].
  exact (A14 eq_refl).
Defined.

(** C6 as stated fails.  Clean script: after a successful load of [[]]
    (one fetch so far), a hide and a show start the loader again instead of
    rendering the cached dataset; at page load with an image that has not
    loaded, the panel is shown and nothing is fetched or drawn.
    2025.08.05 script: with a dataset already loaded and its marker drawn,
    a hide, a show and the frame clear the marker and fetch again, since
    nothing is cached; with an image that is not complete, a show and the
    frame fetch and draw nothing; at page load with an unready image the
    panel is shown and nothing is fetched or drawn. *)
Lemma C6_counterexample_no_render_on_show :
  (display (Clean_loaded []) = "block"
   /\ hotspotsData (Clean_loaded []) = []
   /\ count is_fetch (Clean_loaded []) = 1%nat
   /\ display (Clean.run [EvToggleClick] (Clean_loaded [])) = "none"
   /\ display (Clean.run [EvToggleClick; EvToggleClick] (Clean_loaded [])) = "block"
   /\ fetches (Clean.run [EvToggleClick; EvToggleClick] (Clean_loaded [])) = [KLoadHotspots]
   /\ count is_fetch (Clean.run [EvToggleClick; EvToggleClick] (Clean_loaded [])) = 2%nat)
  /\ (display (Clean.boot (page true (Some box_not_ready) [img])) = "block"
      /\ count is_fetch (Clean.boot (page true (Some box_not_ready) [img])) = 0%nat
      /\ count_dots (Clean.boot (page true (Some box_not_ready) [img])) = 0%nat)
  /\ (display (Aug05_loaded [hp_center]) = "block"
      /\ count_dots (Aug05_loaded [hp_center]) = 1%nat
      /\ count is_fetch (Aug05_loaded [hp_center]) = 1%nat
      /\ display (Aug05.run [EvToggleClick; EvToggleClick; EvFrame] (Aug05_loaded [hp_center]))
         = "block"
      /\ count_dots (Aug05.run [EvToggleClick; EvToggleClick; EvFrame]
                       (Aug05_loaded [hp_center])) = 0%nat
      /\ count is_fetch (Aug05.run [EvToggleClick; EvToggleClick; EvFrame]
                           (Aug05_loaded [hp_center])) = 2%nat)
  /\ (display (Aug05.run [EvToggleClick; EvFrame]
                 (Aug05.boot (page true (Some box_not_ready) [img]))) = "block"
      /\ count is_fetch (Aug05.run [EvToggleClick; EvFrame]
                           (Aug05.boot (page true (Some box_not_ready) [img]))) = 0%nat
      /\ count_dots (Aug05.run [EvToggleClick; EvFrame]
                       (Aug05.boot (page true (Some box_not_ready) [img]))) = 0%nat)
  /\ (display (Aug05.run [EvWindowLoad]
                 (Aug05.boot (page true (Some box_not_ready) [img]))) = "block"
      /\ count is_fetch (Aug05.run [EvWindowLoad]
                           (Aug05.boot (page true (Some box_not_ready) [img]))) = 0%nat
      /\ count_dots (Aug05.run [EvWindowLoad]
                       (Aug05.boot (page true (Some box_not_ready) [img]))) = 0%nat).
Proof. repeat split; reflexivity. Qed.
